(** * Orange Pi 5 Plus kernel builder: a shallow embedding of [builder.c]

    The builder is a sequential provisioning pipeline: it parses its command
    line into a configuration record, then shells out to external tools in a
    fixed order and interprets their exit status.  The embedding below keeps
    the C functions' names.  The outside world (the shell, the file system,
    the process identity) is a deterministic oracle questioned with the
    history of events so far; every effect of the program is appended to that
    history, so that statements about "what the program did" are statements
    about the final trace. *)

From Stdlib Require Import ZArith List String Ascii Bool Lia.
From Stdlib Require Import DecimalString DecimalPos DecimalZ.
Import ListNotations.

Local Open Scope string_scope.
Local Open Scope Z_scope.

(** ** C strings and libc helpers *)

Module CStr.

(** The two characters that cannot be typed inside a literal. *)
Definition nl : string := String (ascii_of_nat 10) EmptyString.
Definition dq : string := String (ascii_of_nat 34) EmptyString.

(** The first [n] characters of [s]. *)
Fixpoint take (n : nat) (s : string) : string :=
  match n, s with
  | O, _ => EmptyString
  | S _, EmptyString => EmptyString
  | S n', String c s' => String c (take n' s')
  end.

(** [strncpy(dst, src, cap - 1)] into a field of [cap] bytes whose last
    byte is never written and is zero from the initialiser: the field then
    reads as the first [cap - 1] characters of [src]. *)
Definition strncpy_field (cap : nat) (src : string) : string :=
  take (cap - 1) src.

(** [snprintf(buf, cap, ...)]: the formatted text cut to [cap - 1]
    characters. *)
Definition snprintf (cap : nat) (text : string) : string :=
  take (cap - 1) text.

(** [isspace] in the C locale. *)
Definition is_space (c : ascii) : bool :=
  let n := nat_of_ascii c in
  (Nat.eqb n 32 || (Nat.leb 9 n && Nat.leb n 13))%bool.

Definition digit_of (c : ascii) : option Z :=
  let n := nat_of_ascii c in
  if (Nat.leb 48 n && Nat.leb n 57)%bool
  then Some (Z.of_nat (n - 48)) else None.

Fixpoint skip_spaces (s : string) : string :=
  match s with
  | String c s' => if is_space c then skip_spaces s' else s
  | EmptyString => s
  end.

Fixpoint atoi_digits (s : string) (acc : Z) : Z :=
  match s with
  | String c s' =>
      match digit_of c with
      | Some d => atoi_digits s' (10 * acc + d)
      | None => acc
      end
  | EmptyString => acc
  end.

(** The number that [strtol] reads in base 10: leading white space, an
    optional sign, then the longest run of decimal digits; 0 when there is
    none. *)
Definition decimal (s : string) : Z :=
  match skip_spaces s with
  | String c s' =>
      if Ascii.eqb c "-" then - atoi_digits s' 0
      else if Ascii.eqb c "+" then atoi_digits s' 0
      else atoi_digits (String c s') 0
  | EmptyString => 0
  end.

Definition INT_MIN : Z := -2147483648.
Definition INT_MAX : Z := 2147483647.
Definition LONG_MIN : Z := -9223372036854775808.
Definition LONG_MAX : Z := 9223372036854775807.

(** [strtol(s, NULL, 10)] with a 64-bit [long]: a number out of range is
    replaced by the nearest bound. *)
Definition strtol (s : string) : Z :=
  Z.max LONG_MIN (Z.min LONG_MAX (decimal s)).

(** The conversion of a [long] to a 32-bit [int]: the low 32 bits, read
    as a signed number. *)
Definition to_int (z : Z) : Z :=
  (z + 2147483648) mod 4294967296 - 2147483648.

(** [atol] and [atoi] as glibc defines them, on a system whose [long] has
    64 bits (the program is for Ubuntu on arm64): [atol] is [strtol], and
    [atoi] is [(int) strtol(s, NULL, 10)].  So [atoi] gives the number
    itself when it fits an [int], 0 for ["4294967296"] and -2147483648 for
    ["2147483648"]. *)
Definition atol (s : string) : Z := strtol s.
Definition atoi (s : string) : Z := to_int (strtol s).

(** The [%d] conversion of [printf]. *)
Definition itoa (n : Z) : string := NilZero.string_of_int (Z.to_int n).

End CStr.

Import CStr.

(** ** The configuration record *)

Definition BUILD_DIR : string := "/tmp/kernel_build".
Definition LOG_FILE : string := "/tmp/kernel_build.log".
Definition MAX_CMD_LEN : nat := 2048.
Definition MAX_PATH_LEN : nat := 512.

Record build_config_t : Type := mk_config {
  kernel_version : string;      (* char[64] *)
  build_dir : string;           (* char[MAX_PATH_LEN] *)
  cross_compile : string;       (* char[128] *)
  arch : string;                (* char[16] *)
  defconfig : string;           (* char[64] *)
  jobs : Z;                     (* int: written from [atoi] and [sysconf] *)
  verbose : bool;
  clean_build : bool;
  install_gpu_blobs : bool;
  enable_opencl : bool;
  enable_vulkan : bool
}.

(** The locals of [main] that the flags also write. *)
Record cli_t : Type := mk_cli {
  config : build_config_t;
  no_install : bool;
  cleanup : bool;
  verify_gpu : bool
}.

Definition default_config : build_config_t :=
  {| kernel_version := "6.8.0";
     build_dir := BUILD_DIR;
     cross_compile := "aarch64-linux-gnu-";
     arch := "arm64";
     defconfig := "rockchip_linux_defconfig";
     jobs := 0;
     verbose := false;
     clean_build := false;
     install_gpu_blobs := true;
     enable_opencl := true;
     enable_vulkan := true |}.

Definition default_cli : cli_t :=
  {| config := default_config;
     no_install := false; cleanup := false; verify_gpu := false |}.

(** Field assignments. *)
Definition set_kernel_version (v : string) (c : build_config_t) :=
  mk_config v (build_dir c) (cross_compile c) (arch c) (defconfig c) (jobs c)
            (verbose c) (clean_build c) (install_gpu_blobs c)
            (enable_opencl c) (enable_vulkan c).
Definition set_build_dir (v : string) (c : build_config_t) :=
  mk_config (kernel_version c) v (cross_compile c) (arch c) (defconfig c)
            (jobs c) (verbose c) (clean_build c) (install_gpu_blobs c)
            (enable_opencl c) (enable_vulkan c).
Definition set_cross_compile (v : string) (c : build_config_t) :=
  mk_config (kernel_version c) (build_dir c) v (arch c) (defconfig c)
            (jobs c) (verbose c) (clean_build c) (install_gpu_blobs c)
            (enable_opencl c) (enable_vulkan c).
Definition set_defconfig (v : string) (c : build_config_t) :=
  mk_config (kernel_version c) (build_dir c) (cross_compile c) (arch c) v
            (jobs c) (verbose c) (clean_build c) (install_gpu_blobs c)
            (enable_opencl c) (enable_vulkan c).
Definition set_jobs (v : Z) (c : build_config_t) :=
  mk_config (kernel_version c) (build_dir c) (cross_compile c) (arch c)
            (defconfig c) v (verbose c) (clean_build c)
            (install_gpu_blobs c) (enable_opencl c) (enable_vulkan c).
Definition set_verbose (v : bool) (c : build_config_t) :=
  mk_config (kernel_version c) (build_dir c) (cross_compile c) (arch c)
            (defconfig c) (jobs c) v (clean_build c) (install_gpu_blobs c)
            (enable_opencl c) (enable_vulkan c).
Definition set_clean_build (v : bool) (c : build_config_t) :=
  mk_config (kernel_version c) (build_dir c) (cross_compile c) (arch c)
            (defconfig c) (jobs c) (verbose c) v (install_gpu_blobs c)
            (enable_opencl c) (enable_vulkan c).
Definition set_install_gpu_blobs (v : bool) (c : build_config_t) :=
  mk_config (kernel_version c) (build_dir c) (cross_compile c) (arch c)
            (defconfig c) (jobs c) (verbose c) (clean_build c) v
            (enable_opencl c) (enable_vulkan c).
Definition set_enable_opencl (v : bool) (c : build_config_t) :=
  mk_config (kernel_version c) (build_dir c) (cross_compile c) (arch c)
            (defconfig c) (jobs c) (verbose c) (clean_build c)
            (install_gpu_blobs c) v (enable_vulkan c).
Definition set_enable_vulkan (v : bool) (c : build_config_t) :=
  mk_config (kernel_version c) (build_dir c) (cross_compile c) (arch c)
            (defconfig c) (jobs c) (verbose c) (clean_build c)
            (install_gpu_blobs c) (enable_opencl c) v.

Definition on_config (f : build_config_t -> build_config_t) (c : cli_t) :=
  mk_cli (f (config c)) (no_install c) (cleanup c) (verify_gpu c).
Definition set_no_install (v : bool) (c : cli_t) :=
  mk_cli (config c) v (cleanup c) (verify_gpu c).
Definition set_cleanup (v : bool) (c : cli_t) :=
  mk_cli (config c) (no_install c) v (verify_gpu c).
Definition set_verify_gpu (v : bool) (c : cli_t) :=
  mk_cli (config c) (no_install c) (cleanup c) v.

(** ** Command-line parsing: the [for] loop of [main] *)

Inductive parse_result : Type :=
| Parsed (c : cli_t)      (* the loop ran to [argc] *)
| HelpExit.               (* [-h]/[--help]: usage printed, [return 0] *)

(** [streq a b] is [strcmp(a, b) == 0]. *)
Definition streq (a b : string) : bool := String.eqb a b.

(** [parse_loop args c] runs the loop on [argv[i..argc-1] = args].  A value
    flag takes the next token ([++i < argc]); when there is none the loop
    ends.  The chain of [else if] has no final [else]: a token that matches
    no flag leaves the record as it is and the loop moves on. *)
Fixpoint parse_loop (args : list string) (c : cli_t) : parse_result :=
  match args with
  | [] => Parsed c
  | a :: rest =>
      if streq a "-h" || streq a "--help" then HelpExit
      else if streq a "-v" || streq a "--version" then
        match rest with
        | v :: rest' =>
            parse_loop rest'
              (on_config (set_kernel_version (strncpy_field 64 v)) c)
        | [] => Parsed c
        end
      else if streq a "-j" || streq a "--jobs" then
        match rest with
        | v :: rest' => parse_loop rest' (on_config (set_jobs (atoi v)) c)
        | [] => Parsed c
        end
      else if streq a "-d" || streq a "--build-dir" then
        match rest with
        | v :: rest' =>
            parse_loop rest'
              (on_config (set_build_dir (strncpy_field MAX_PATH_LEN v)) c)
        | [] => Parsed c
        end
      else if streq a "-c" || streq a "--clean" then
        parse_loop rest (on_config (set_clean_build true) c)
      else if streq a "--defconfig" then
        match rest with
        | v :: rest' =>
            parse_loop rest'
              (on_config (set_defconfig (strncpy_field 64 v)) c)
        | [] => Parsed c
        end
      else if streq a "--cross-compile" then
        match rest with
        | v :: rest' =>
            parse_loop rest'
              (on_config (set_cross_compile (strncpy_field 128 v)) c)
        | [] => Parsed c
        end
      else if streq a "--verbose" then
        parse_loop rest (on_config (set_verbose true) c)
      else if streq a "--no-install" then parse_loop rest (set_no_install true c)
      else if streq a "--cleanup" then parse_loop rest (set_cleanup true c)
      else if streq a "--enable-gpu" then
        parse_loop rest (on_config (set_install_gpu_blobs true) c)
      else if streq a "--disable-gpu" then
        parse_loop rest
          (on_config (fun k => set_enable_vulkan false
                                 (set_enable_opencl false
                                    (set_install_gpu_blobs false k))) c)
      else if streq a "--enable-opencl" then
        parse_loop rest (on_config (set_enable_opencl true) c)
      else if streq a "--disable-opencl" then
        parse_loop rest (on_config (set_enable_opencl false) c)
      else if streq a "--enable-vulkan" then
        parse_loop rest (on_config (set_enable_vulkan true) c)
      else if streq a "--disable-vulkan" then
        parse_loop rest (on_config (set_enable_vulkan false) c)
      else if streq a "--verify-gpu" then parse_loop rest (set_verify_gpu true c)
      else parse_loop rest c
  end.

(** [main] starts the loop at [i = 1]: [argv[0]] is the program name. *)
Definition parse_args (argv : list string) : parse_result :=
  parse_loop (tl argv) default_cli.

(** [if (config.jobs == 0) config.jobs = sysconf(_SC_NPROCESSORS_ONLN);] *)
Definition default_jobs (nprocs : Z) (c : build_config_t) : build_config_t :=
  if jobs c =? 0 then set_jobs nprocs c else c.

(** ** The outside world and the trace of effects *)

(** One constructor per kind of effect.  The decorative console blocks of
    [main] ([print_header], [print_usage], the configuration summary, the
    closing hints) are one event each.  [ELog to_file level message] is one
    call of [log_message]: the console line and, when [to_file], the same
    line in the log file (the time stamp that [ctime] contributes is left
    out). *)
Inductive event : Type :=
| EHeader
| EUsage (program_name : string)
| ESummary (c : build_config_t)
| ENextSteps (gpu : bool)
| ETroubleshooting
| EEcho (cmd : string)
| ELog (to_file : bool) (level message : string)
| ESystem (cmd : string) (status : Z)
| EStat (path : string) (ok : bool)
| EMkdir (path : string) (ok : bool)
| EChdir (path : string) (ok : bool)
| EAccess (path : string) (ok : bool)
| ESetenv (name value : string)
| EFopen (path mode : string) (ok : bool)
| EFprintf (path text : string)
| EFclose (path : string)
| EPopen (cmd : string) (line : option (option string))
| EGeteuid (uid : Z).

(** What the environment answers, given everything that happened before.
    [w_system] is the value [system()] returns; the boolean oracles say
    whether the call succeeded ([stat], [mkdir], [chdir], [access] returning
    0, [fopen] returning a stream).  [w_popen_line] is [None] when [popen]
    fails, [Some None] when [fgets] reads nothing, and the line read
    otherwise.  [w_nprocs] is what [sysconf(_SC_NPROCESSORS_ONLN)] returns,
    as [main] stores it in the [int] field [jobs]. *)
Record World : Type := mk_world {
  w_system : list event -> string -> Z;
  w_stat : list event -> string -> bool;
  w_mkdir : list event -> string -> bool;
  w_chdir : list event -> string -> bool;
  w_access : list event -> string -> bool;
  w_fopen : list event -> string -> string -> bool;
  w_popen_line : list event -> string -> option (option string);
  w_geteuid : list event -> Z;
  w_nprocs : Z
}.

(** The process state: the history, and whether the global [log_fp] is a
    stream ([true]) or [NULL]. *)
Record State : Type := mk_state {
  trace : list event;
  log_fp : bool
}.

Definition initial_state : State := {| trace := []; log_fp := false |}.

(** A computation reads and extends the state. *)
Definition M (A : Type) : Type := State -> A * State.

Definition ret {A} (a : A) : M A := fun st => (a, st).
Definition bind {A B} (m : M A) (k : A -> M B) : M B :=
  fun st => let (a, st') := m st in k a st'.

Declare Scope prog_scope.
Delimit Scope prog_scope with prog.
Notation "x <- m ;; k" := (bind m (fun x => k))
  (at level 61, m at next level, right associativity) : prog_scope.
Notation "m ;; k" := (bind m (fun _ => k))
  (at level 61, right associativity) : prog_scope.
Local Open Scope prog_scope.

Definition emit (e : event) : M unit :=
  fun st => (tt, {| trace := (trace st ++ [e])%list; log_fp := log_fp st |}).

(** An oracle call whose answer is recorded. *)
Definition ask {A} (q : list event -> A) (e : A -> event) : M A :=
  fun st => let a := q (trace st) in
            (a, {| trace := (trace st ++ [e a])%list; log_fp := log_fp st |}).

Definition get_log_fp : M bool := fun st => (log_fp st, st).
Definition set_log_fp (b : bool) : M unit :=
  fun st => (tt, {| trace := trace st; log_fp := b |}).

(** [x != 0] on a C [int]. *)
Definition nonzero (x : Z) : bool := negb (x =? 0).

(** [for (i = 0; xs[i] != NULL; i++) body(xs[i]);] *)
Fixpoint for_each {A} (xs : list A) (body : A -> M unit) : M unit :=
  match xs with
  | [] => ret tt
  | x :: xs' => body x ;; for_each xs' body
  end.

(** Sequencing under [if (f() != 0) goto error;].  The computations built
    with it return [true] when control falls off their end and [false] when
    it jumped to the [error] label. *)
Definition or_goto_error (m : M Z) (k : M bool) : M bool :=
  r <- m ;; if nonzero r then ret false else k.

Section Program.

Variable w : World.

Definition c_system (cmd : string) : M Z :=
  ask (fun h => w_system w h cmd) (ESystem cmd).
Definition c_stat (path : string) : M bool :=
  ask (fun h => w_stat w h path) (EStat path).
Definition c_mkdir (path : string) : M bool :=
  ask (fun h => w_mkdir w h path) (EMkdir path).
Definition c_chdir (path : string) : M bool :=
  ask (fun h => w_chdir w h path) (EChdir path).
Definition c_access (path : string) : M bool :=
  ask (fun h => w_access w h path) (EAccess path).
Definition c_fopen (path mode : string) : M bool :=
  ask (fun h => w_fopen w h path mode) (EFopen path mode).
Definition c_popen_line (cmd : string) : M (option (option string)) :=
  ask (fun h => w_popen_line w h cmd) (EPopen cmd).
Definition c_geteuid : M Z := ask (w_geteuid w) EGeteuid.

Definition log_message (level message : string) : M unit :=
  open <- get_log_fp ;;
  emit (ELog open level message).

(** [execute_command]: [log_cmd] has [MAX_CMD_LEN + 100] bytes. *)
Definition execute_command (cmd : string) (show_output : bool) : M Z :=
  log_cmd <-
    (if show_output then
       emit (EEcho cmd) ;;
       ret (snprintf (MAX_CMD_LEN + 100)
              (cmd ++ " 2>&1 | tee -a " ++ LOG_FILE))
     else
       ret (snprintf (MAX_CMD_LEN + 100)
              (cmd ++ " >> " ++ LOG_FILE ++ " 2>&1"))) ;;
  result <- c_system log_cmd ;;
  if nonzero result then
    log_message "ERROR" "Command failed" ;; ret (-1)
  else ret 0.

Definition check_root_permissions : M Z :=
  uid <- c_geteuid ;;
  if nonzero uid then
    log_message "ERROR"
      "This tool requires root privileges. Please run with sudo." ;;
    ret (-1)
  else ret 0.

Definition create_directory (path : string) : M Z :=
  present <- c_stat path ;;
  if negb present then
    made <- c_mkdir path ;;
    if negb made then
      log_message "ERROR"
        (snprintf 512 ("Failed to create directory: " ++ path)) ;;
      ret (-1)
    else ret 0
  else ret 0.

Definition setup_build_environment : M Z :=
  log_message "INFO" "Setting up build environment..." ;;
  r <- create_directory BUILD_DIR ;;
  if nonzero r then ret (-1) else
  opened <- c_fopen LOG_FILE "a" ;;
  set_log_fp opened ;;
  (if negb opened then log_message "WARNING" "Could not open log file"
   else ret tt) ;;
  r <- execute_command "apt update" true ;;
  if nonzero r then
    log_message "ERROR" "Failed to update package lists" ;; ret (-1)
  else
    log_message "SUCCESS" "Build environment setup completed" ;; ret 0.

Definition packages : list string :=
  [ "build-essential"; "gcc-aarch64-linux-gnu"; "g++-aarch64-linux-gnu";
    "libncurses-dev"; "gawk"; "flex"; "bison"; "openssl"; "libssl-dev";
    "dkms"; "libelf-dev"; "libudev-dev"; "libpci-dev"; "libiberty-dev";
    "autoconf"; "llvm";
    "git"; "wget"; "curl"; "bc"; "rsync"; "kmod"; "cpio"; "python3";
    "python3-pip"; "device-tree-compiler";
    "fakeroot"; "kernel-package"; "pkg-config-dbgsym";
    "mesa-opencl-icd"; "vulkan-tools"; "vulkan-utils";
    "vulkan-validationlayers"; "libvulkan-dev"; "ocl-icd-opencl-dev";
    "opencl-headers"; "clinfo";
    "va-driver-all"; "vdpau-driver-all"; "mesa-va-drivers";
    "mesa-vdpau-drivers";
    "libegl1-mesa-dev"; "libgles2-mesa-dev"; "libgl1-mesa-dev";
    "libdrm-dev"; "libgbm-dev"; "libwayland-dev"; "libx11-dev"; "meson";
    "ninja-build" ].

(** [strcpy] then one [strcat] of a blank and a name per package. *)
Definition install_command : string :=
  fold_left (fun cmd p => cmd ++ " " ++ p) packages
    "DEBIAN_FRONTEND=noninteractive apt install -y".

Definition install_prerequisites : M Z :=
  log_message "INFO" "Installing build prerequisites..." ;;
  r <- execute_command install_command true ;;
  if nonzero r then
    log_message "ERROR" "Failed to install prerequisites" ;; ret (-1)
  else
    r <- execute_command
           "apt build-dep -y linux linux-image-unsigned-$(uname -r)" true ;;
    (if nonzero r then
       log_message "WARNING"
         "Failed to install some kernel build dependencies"
     else ret tt) ;;
    log_message "SUCCESS" "Prerequisites installed successfully" ;;
    ret 0.

Definition vendor_clone_cmd : string :=
  "git clone --depth 1 --branch ubuntu-rockchip-6.8-opi5 " ++
  "https://github.com/Joshua-Riek/linux-rockchip.git linux".

Definition mainline_clone_cmd (version : string) : string :=
  "git clone --depth 1 --branch v" ++ version ++ " " ++
  "https://git.kernel.org/pub/scm/linux/kernel/git/torvalds/linux.git linux".

Definition download_kernel_source (config : build_config_t) : M Z :=
  log_message "INFO" "Downloading kernel source..." ;;
  entered <- c_chdir (build_dir config) ;;
  if negb entered then
    log_message "ERROR" "Failed to change to build directory" ;; ret (-1)
  else
    r <- execute_command (snprintf MAX_CMD_LEN vendor_clone_cmd) true ;;
    fetched <-
      (if nonzero r then
         log_message "WARNING"
           "Failed to clone Ubuntu Rockchip kernel, trying mainline..." ;;
         r <- execute_command
                (snprintf MAX_CMD_LEN
                   (mainline_clone_cmd (kernel_version config))) true ;;
         if nonzero r then
           log_message "ERROR" "Failed to download kernel source" ;;
           ret false
         else ret true
       else ret true) ;;
    if negb fetched then ret (-1) else
    log_message "SUCCESS" "Kernel source downloaded successfully" ;;
    ret 0.

Definition download_ubuntu_rockchip_patches : M Z :=
  log_message "INFO" "Downloading Ubuntu Rockchip patches..." ;;
  r <- execute_command
         (snprintf MAX_CMD_LEN
            ("git clone --depth 1 " ++
             "https://github.com/Joshua-Riek/ubuntu-rockchip.git ubuntu-rockchip"))
         true ;;
  if nonzero r then
    log_message "WARNING" "Failed to download Ubuntu Rockchip patches" ;;
    ret 0
  else
    log_message "SUCCESS" "Ubuntu Rockchip patches downloaded" ;; ret 0.

Definition firmware_wget_cmd : string :=
  "wget -O mali_csffw.bin " ++
  "https://github.com/JeffyCN/mirrors/raw/libmali/firmware/g610/mali_csffw.bin".

Definition driver_wget_cmd : string :=
  "wget -O libmali-valhall-g610-g6p0-x11-wayland-gbm.so " ++
  "https://github.com/JeffyCN/mirrors/raw/libmali/lib/aarch64-linux-gnu/libmali-valhall-g610-g6p0-x11-wayland-gbm.so".

Definition vulkan_wget_cmd : string :=
  "wget -O libmali-valhall-g610-g6p0-wayland-gbm-vulkan.so " ++
  "https://github.com/JeffyCN/mirrors/raw/libmali/lib/aarch64-linux-gnu/libmali-valhall-g610-g6p0-wayland-gbm-vulkan.so".

Definition libmali_clone_cmd : string :=
  "git clone --depth 1 --branch libmali " ++
  "https://github.com/tsukumijima/libmali-rockchip.git libmali-src".

Definition download_mali_blobs (config : build_config_t) : M Z :=
  log_message "INFO" "Downloading Mali G610 GPU blobs and libraries..." ;;
  r <- create_directory "/tmp/mali_install" ;;
  if nonzero r then ret (-1) else
  entered <- c_chdir "/tmp/mali_install" ;;
  if negb entered then
    log_message "ERROR" "Failed to change to Mali install directory" ;;
    ret (-1)
  else
  log_message "INFO" "Downloading Mali CSF firmware..." ;;
  r <- execute_command (snprintf MAX_CMD_LEN firmware_wget_cmd) true ;;
  if nonzero r then
    log_message "ERROR" "Failed to download Mali firmware" ;; ret (-1)
  else
  log_message "INFO" "Downloading Mali userspace driver..." ;;
  r <- execute_command (snprintf MAX_CMD_LEN driver_wget_cmd) true ;;
  if nonzero r then
    log_message "ERROR" "Failed to download Mali userspace driver" ;;
    ret (-1)
  else
  (if enable_vulkan config then
     log_message "INFO" "Downloading Mali Vulkan-enabled driver..." ;;
     r <- execute_command (snprintf MAX_CMD_LEN vulkan_wget_cmd) true ;;
     if nonzero r then
       log_message "WARNING"
         "Failed to download Mali Vulkan driver, using standard version"
     else ret tt
   else ret tt) ;;
  log_message "INFO" "Downloading additional Mali components..." ;;
  r <- execute_command (snprintf MAX_CMD_LEN libmali_clone_cmd) true ;;
  (if nonzero r then
     log_message "WARNING" "Failed to download additional Mali components"
   else ret tt) ;;
  log_message "SUCCESS" "Mali GPU blobs downloaded successfully" ;;
  ret 0.

Definition mali_driver : string :=
  "/usr/lib/libmali-valhall-g610-g6p0-x11-wayland-gbm.so".
Definition mali_vulkan_driver : string :=
  "/usr/lib/libmali-valhall-g610-g6p0-wayland-gbm-vulkan.so".

Definition mali_links : list string :=
  [ "ln -sf /usr/lib/libmali-valhall-g610-g6p0-x11-wayland-gbm.so /usr/lib/libMali.so";
    "ln -sf /usr/lib/libmali-valhall-g610-g6p0-x11-wayland-gbm.so /usr/lib/libMali.so.1";
    "ln -sf /usr/lib/libmali-valhall-g610-g6p0-x11-wayland-gbm.so /usr/lib/libmali.so";
    "ln -sf /usr/lib/libmali-valhall-g610-g6p0-x11-wayland-gbm.so /usr/lib/libmali.so.1";
    "ln -sf /usr/lib/libmali-valhall-g610-g6p0-x11-wayland-gbm.so /usr/lib/libEGL.so.1";
    "ln -sf /usr/lib/libmali-valhall-g610-g6p0-x11-wayland-gbm.so /usr/lib/libGLESv1_CM.so.1";
    "ln -sf /usr/lib/libmali-valhall-g610-g6p0-x11-wayland-gbm.so /usr/lib/libGLESv2.so.2";
    "ln -sf /usr/lib/libmali-valhall-g610-g6p0-x11-wayland-gbm.so /usr/lib/libgbm.so.1" ].

Definition install_mali_drivers (config : build_config_t) : M Z :=
  log_message "INFO" "Installing Mali G610 drivers and firmware..." ;;
  r <- execute_command
         "cp /tmp/mali_install/mali_csffw.bin /lib/firmware/" true ;;
  if nonzero r then
    log_message "ERROR" "Failed to install Mali firmware" ;; ret (-1)
  else
  r <- execute_command
         "cp /tmp/mali_install/libmali-valhall-g610-g6p0-x11-wayland-gbm.so /usr/lib/"
         true ;;
  if nonzero r then
    log_message "ERROR" "Failed to install Mali userspace driver" ;;
    ret (-1)
  else
  log_message "INFO" "Creating Mali driver symbolic links..." ;;
  for_each mali_links (fun link =>
    r <- execute_command link false ;;
    if nonzero r then
      log_message "WARNING" "Failed to create some Mali symbolic links"
    else ret tt) ;;
  (if enable_vulkan config then
     present <- c_access
       "/tmp/mali_install/libmali-valhall-g610-g6p0-wayland-gbm-vulkan.so" ;;
     if present then
       log_message "INFO" "Installing Mali Vulkan driver..." ;;
       r <- execute_command
              "cp /tmp/mali_install/libmali-valhall-g610-g6p0-wayland-gbm-vulkan.so /usr/lib/"
              true ;;
       if nonzero r then
         log_message "WARNING" "Failed to install Mali Vulkan driver"
       else
         execute_command
           "ln -sf /usr/lib/libmali-valhall-g610-g6p0-wayland-gbm-vulkan.so /usr/lib/libvulkan_mali.so"
           false ;;
         ret tt
     else ret tt
   else ret tt) ;;
  r <- execute_command "ldconfig" true ;;
  (if nonzero r then log_message "WARNING" "Failed to update library cache"
   else ret tt) ;;
  log_message "SUCCESS" "Mali drivers installed successfully" ;;
  ret 0.

Definition opencl_icd : string := "/etc/OpenCL/vendors/mali.icd".

Definition setup_opencl_support (config : build_config_t) : M Z :=
  if negb (enable_opencl config) then ret 0 else
  log_message "INFO" "Setting up OpenCL support for Mali G610..." ;;
  r <- create_directory "/etc/OpenCL/vendors" ;;
  if nonzero r then ret (-1) else
  icd_file <- c_fopen opencl_icd "w" ;;
  if icd_file then
    emit (EFprintf opencl_icd (mali_driver ++ nl)) ;;
    emit (EFclose opencl_icd) ;;
    execute_command "chmod 644 /etc/OpenCL/vendors/mali.icd" false ;;
    log_message "SUCCESS" "OpenCL support configured successfully" ;;
    ret 0
  else
    log_message "ERROR" "Failed to create Mali OpenCL ICD file" ;;
    ret (-1).

Definition vulkan_icd : string := "/usr/share/vulkan/icd.d/mali.json".

(** ["key": "value"] with the indentation and the ending of the source's
    format string. *)
Definition json_field (indent key value ending : string) : string :=
  indent ++ dq ++ key ++ dq ++ ": " ++ dq ++ value ++ dq ++ ending ++ nl.

Definition setup_vulkan_support (config : build_config_t) : M Z :=
  if negb (enable_vulkan config) then ret 0 else
  log_message "INFO" "Setting up Vulkan support for Mali G610..." ;;
  r <- create_directory "/usr/share/vulkan/icd.d" ;;
  if nonzero r then ret (-1) else
  icd_file <- c_fopen vulkan_icd "w" ;;
  if icd_file then
    emit (EFprintf vulkan_icd ("{" ++ nl)) ;;
    emit (EFprintf vulkan_icd
            (json_field "    " "file_format_version" "1.0.0" ",")) ;;
    emit (EFprintf vulkan_icd ("    " ++ dq ++ "ICD" ++ dq ++ ": {" ++ nl)) ;;
    present <- c_access mali_vulkan_driver ;;
    (if present then
       emit (EFprintf vulkan_icd
               (json_field "        " "library_path" mali_vulkan_driver ","))
     else
       emit (EFprintf vulkan_icd
               (json_field "        " "library_path" mali_driver ","))) ;;
    emit (EFprintf vulkan_icd
            (json_field "        " "api_version" "1.2.131" "")) ;;
    emit (EFprintf vulkan_icd ("    }" ++ nl)) ;;
    emit (EFprintf vulkan_icd ("}" ++ nl)) ;;
    emit (EFclose vulkan_icd) ;;
    execute_command "chmod 644 /usr/share/vulkan/icd.d/mali.json" false ;;
    log_message "SUCCESS" "Vulkan support configured successfully" ;;
    ret 0
  else
    log_message "ERROR" "Failed to create Mali Vulkan ICD file" ;;
    ret (-1).

Definition config_options : list string :=
  [ "CONFIG_ARCH_ROCKCHIP=y"; "CONFIG_ARM64=y"; "CONFIG_ROCKCHIP_RK3588=y";
    "CONFIG_COMMON_CLK_RK808=y"; "CONFIG_ROCKCHIP_IOMMU=y";
    "CONFIG_ROCKCHIP_PM_DOMAINS=y"; "CONFIG_ROCKCHIP_THERMAL=y";
    "CONFIG_DRM=y"; "CONFIG_DRM_ROCKCHIP=y"; "CONFIG_ROCKCHIP_VOP2=y";
    "CONFIG_DRM_PANFROST=y"; "CONFIG_DRM_PANEL_BRIDGE=y";
    "CONFIG_DRM_PANEL_SIMPLE=y";
    "CONFIG_MALI_MIDGARD=m";
    "CONFIG_MALI_PLATFORM_NAME=" ++ dq ++ "devicetree" ++ dq;
    "CONFIG_MALI_CSF_SUPPORT=y"; "CONFIG_MALI_DEVFREQ=y";
    "CONFIG_MALI_DMA_FENCE=y";
    "CONFIG_DMA_CMA=y"; "CONFIG_CMA=y"; "CONFIG_CMA_SIZE_MBYTES=128";
    "CONFIG_DMA_SHARED_BUFFER=y"; "CONFIG_SYNC_FILE=y";
    "CONFIG_PHY_ROCKCHIP_INNO_USB2=y";
    "CONFIG_PHY_ROCKCHIP_NANENG_COMBO_PHY=y"; "CONFIG_ROCKCHIP_SARADC=y";
    "CONFIG_MMC_DW_ROCKCHIP=y"; "CONFIG_PCIE_ROCKCHIP_HOST=y";
    "CONFIG_STAGING_MEDIA=y"; "CONFIG_VIDEO_ROCKCHIP_RGA=m";
    "CONFIG_VIDEO_ROCKCHIP_VDEC=m"; "CONFIG_ROCKCHIP_VPU=y";
    "CONFIG_VIDEO_HANTRO=m";
    "CONFIG_CPU_FREQ=y"; "CONFIG_CPU_FREQ_DEFAULT_GOV_ONDEMAND=y";
    "CONFIG_CPU_FREQ_GOV_PERFORMANCE=y"; "CONFIG_CPU_FREQ_GOV_POWERSAVE=y";
    "CONFIG_CPU_FREQ_GOV_USERSPACE=y"; "CONFIG_CPU_FREQ_GOV_SCHEDUTIL=y";
    "CONFIG_CPUFREQ_DT=y"; "CONFIG_ARM_ROCKCHIP_CPUFREQ=y";
    "CONFIG_FB=y"; "CONFIG_FB_SIMPLE=y"; "CONFIG_LOGO=y";
    "CONFIG_LOGO_LINUX_CLUT224=y" ].

Definition configure_kernel (config : build_config_t) : M Z :=
  log_message "INFO" "Configuring kernel with Mali GPU support..." ;;
  entered <- c_chdir (snprintf MAX_PATH_LEN (build_dir config ++ "/linux")) ;;
  if negb entered then
    log_message "ERROR" "Failed to change to kernel directory" ;; ret (-1)
  else
  emit (ESetenv "ARCH" (arch config)) ;;
  emit (ESetenv "CROSS_COMPILE" (cross_compile config)) ;;
  (if clean_build config then
     log_message "INFO" "Cleaning previous build artifacts..." ;;
     r <- execute_command "make mrproper" true ;;
     if nonzero r then
       log_message "WARNING" "Failed to clean build artifacts"
     else ret tt
   else ret tt) ;;
  r <- execute_command
         (snprintf MAX_CMD_LEN ("make " ++ defconfig config)) true ;;
  configured <-
    (if nonzero r then
       log_message "WARNING"
         "Failed to use specific defconfig, trying generic..." ;;
       r <- execute_command "make defconfig" true ;;
       if nonzero r then
         log_message "ERROR" "Failed to configure kernel" ;; ret false
       else ret true
     else ret true) ;;
  if negb configured then ret (-1) else
  log_message "INFO"
    "Enabling RK3588, Mali GPU, and hardware acceleration configurations..." ;;
  config_file <- c_fopen ".config" "a" ;;
  (if config_file then
     for_each config_options (fun option =>
       emit (EFprintf ".config" (option ++ nl))) ;;
     emit (EFclose ".config")
   else ret tt) ;;
  r <- execute_command "make olddefconfig" true ;;
  (if nonzero r then
     log_message "WARNING" "Failed to resolve config dependencies"
   else ret tt) ;;
  log_message "SUCCESS"
    "Kernel configured successfully with Mali GPU support" ;;
  ret 0.

Definition build_kernel (config : build_config_t) : M Z :=
  log_message "INFO"
    "Building kernel with Mali GPU support (this may take a while)..." ;;
  emit (ESetenv "ARCH" (arch config)) ;;
  emit (ESetenv "CROSS_COMPILE" (cross_compile config)) ;;
  r <- execute_command
         (snprintf MAX_CMD_LEN ("make -j" ++ itoa (jobs config) ++ " Image"))
         true ;;
  if nonzero r then
    log_message "ERROR" "Failed to build kernel image" ;; ret (-1)
  else
  r <- execute_command
         (snprintf MAX_CMD_LEN ("make -j" ++ itoa (jobs config) ++ " dtbs"))
         true ;;
  if nonzero r then
    log_message "ERROR" "Failed to build device tree blobs" ;; ret (-1)
  else
  r <- execute_command
         (snprintf MAX_CMD_LEN
            ("make -j" ++ itoa (jobs config) ++ " modules")) true ;;
  if nonzero r then
    log_message "ERROR" "Failed to build kernel modules" ;; ret (-1)
  else
  log_message "SUCCESS" "Kernel built successfully with Mali GPU support" ;;
  ret 0.

Definition install_kernel (config : build_config_t) : M Z :=
  log_message "INFO" "Installing kernel and Mali GPU modules..." ;;
  r <- execute_command "make modules_install" true ;;
  if nonzero r then
    log_message "ERROR" "Failed to install kernel modules" ;; ret (-1)
  else
  r <- execute_command "make dtbs_install" true ;;
  (if nonzero r then
     log_message "WARNING" "Failed to install device tree blobs"
   else ret tt) ;;
  r <- execute_command
         (snprintf MAX_CMD_LEN
            ("cp arch/arm64/boot/Image /boot/vmlinuz-" ++
             kernel_version config ++ "-opi5plus-mali")) true ;;
  if nonzero r then
    log_message "ERROR" "Failed to copy kernel image" ;; ret (-1)
  else
  r <- execute_command
         (snprintf MAX_CMD_LEN
            ("cp System.map /boot/System.map-" ++
             kernel_version config ++ "-opi5plus-mali")) true ;;
  (if nonzero r then log_message "WARNING" "Failed to copy System.map"
   else ret tt) ;;
  r <- execute_command
         (snprintf MAX_CMD_LEN
            ("cp .config /boot/config-" ++
             kernel_version config ++ "-opi5plus-mali")) true ;;
  (if nonzero r then log_message "WARNING" "Failed to copy kernel config"
   else ret tt) ;;
  r <- execute_command
         (snprintf MAX_CMD_LEN
            ("update-initramfs -c -k " ++
             kernel_version config ++ "-opi5plus-mali")) true ;;
  (if nonzero r then log_message "WARNING" "Failed to update initramfs"
   else ret tt) ;;
  r <- execute_command "u-boot-update" true ;;
  (if nonzero r then
     log_message "WARNING" "Failed to update u-boot configuration"
   else ret tt) ;;
  log_message "SUCCESS"
    "Kernel installed successfully with Mali GPU support" ;;
  ret 0.

Definition mali_firmware : string := "/lib/firmware/mali_csffw.bin".

Definition verify_gpu_installation : M Z :=
  log_message "INFO" "Verifying Mali GPU installation..." ;;
  present <- c_access mali_firmware ;;
  if negb present then
    log_message "ERROR" "Mali firmware not found" ;; ret (-1)
  else
  present <- c_access mali_driver ;;
  if negb present then
    log_message "ERROR" "Mali driver library not found" ;; ret (-1)
  else
  present <- c_access opencl_icd ;;
  (if present then
     log_message "INFO" "Testing OpenCL functionality..." ;;
     r <- execute_command "clinfo 2>/dev/null | grep -i mali" false ;;
     if r =? 0 then log_message "SUCCESS" "OpenCL Mali support detected"
     else log_message "WARNING"
            "OpenCL Mali support not detected (may need reboot)"
   else ret tt) ;;
  present <- c_access vulkan_icd ;;
  (if present then
     log_message "INFO" "Testing Vulkan functionality..." ;;
     r <- execute_command "vulkaninfo 2>/dev/null | grep -i mali" false ;;
     if r =? 0 then log_message "SUCCESS" "Vulkan Mali support detected"
     else log_message "WARNING"
            "Vulkan Mali support not detected (may need reboot)"
   else ret tt) ;;
  log_message "SUCCESS" "GPU installation verification completed" ;;
  ret 0.

Definition cleanup_build (config : build_config_t) : M Z :=
  log_message "INFO" "Cleaning up build artifacts..." ;;
  r <- execute_command
         (snprintf MAX_CMD_LEN ("rm -rf " ++ build_dir config)) false ;;
  (if nonzero r then
     log_message "WARNING" "Failed to cleanup build directory"
   else ret tt) ;;
  r <- execute_command "rm -rf /tmp/mali_install" false ;;
  (if nonzero r then
     log_message "WARNING" "Failed to cleanup Mali install directory"
   else ret tt) ;;
  log_message "SUCCESS" "Cleanup completed" ;;
  ret 0.

(** [arch[strcspn(arch, "\n")] = '\0']. *)
Fixpoint cut_at_newline (s : string) : string :=
  match s with
  | String c s' =>
      if Ascii.eqb c (ascii_of_nat 10) then EmptyString
      else String c (cut_at_newline s')
  | EmptyString => EmptyString
  end.

Definition check_dependencies : M Z :=
  debian <- c_stat "/etc/debian_version" ;;
  if negb debian then
    log_message "ERROR" "This tool is designed for Ubuntu/Debian systems" ;;
    ret (-1)
  else
  machine <- c_popen_line "uname -m" ;;
  (match machine with
   | Some (Some line) =>
       let arch := cut_at_newline line in
       if negb (streq arch "aarch64") && negb (streq arch "x86_64") then
         log_message "WARNING" "Untested architecture detected"
       else ret tt
   | _ => ret tt
   end) ;;
  free <- c_popen_line "df /tmp | tail -1 | awk '{print $4}'" ;;
  (match free with
   | Some (Some space) =>
       if atol space <? 10485760 then
         log_message "WARNING" "Less than 10GB free space available in /tmp"
       else ret tt
   | _ => ret tt
   end) ;;
  ret 0.

(** [if (log_fp) fclose(log_fp);] *)
Definition close_log : M unit :=
  open <- get_log_fp ;;
  if open then emit (EFclose LOG_FILE) else ret tt.

(** The GPU block of [main]: the four calls under
    [if (config.install_gpu_blobs)]. *)
Definition gpu_stages (config : build_config_t) (k : M bool) : M bool :=
  if install_gpu_blobs config then
    or_goto_error (download_mali_blobs config) (
    or_goto_error (install_mali_drivers config) (
    or_goto_error (setup_opencl_support config) (
    or_goto_error (setup_vulkan_support config) k)))
  else k.

(** The installation block of [main], under [if (!no_install)]. *)
Definition install_stages (c : cli_t) (k : M bool) : M bool :=
  if negb (no_install c) then
    or_goto_error (install_kernel (config c)) (
      (if verify_gpu c && install_gpu_blobs (config c) then
         verify_gpu_installation ;; ret tt
       else ret tt) ;;
      k)
  else k.

(** The body of [main] from [setup_build_environment] down to the last
    statement before the closing messages. *)
Definition pipeline (c : cli_t) : M bool :=
  or_goto_error setup_build_environment (
  or_goto_error install_prerequisites (
  gpu_stages (config c) (
  or_goto_error (download_kernel_source (config c)) (
  download_ubuntu_rockchip_patches ;;
  or_goto_error (configure_kernel (config c)) (
  or_goto_error (build_kernel (config c)) (
  install_stages c (
  (if cleanup c then cleanup_build (config c) ;; ret tt else ret tt) ;;
  ret true))))))).

(** [main]: its value is the exit status of the process. *)
Definition main (argv : list string) : M Z :=
  emit EHeader ;;
  match parse_loop (tl argv) default_cli with
  | HelpExit => emit (EUsage (hd "" argv)) ;; ret 0
  | Parsed parsed =>
      let c := on_config (default_jobs (w_nprocs w)) parsed in
      r <- check_dependencies ;;
      if nonzero r then ret 1 else
      r <- check_root_permissions ;;
      if nonzero r then ret 1 else
      log_message "INFO"
        "Starting Orange Pi 5 Plus kernel build process with Mali GPU support" ;;
      emit (ESummary (config c)) ;;
      completed <- pipeline c ;;
      if completed then
        log_message "SUCCESS"
          "Kernel build process completed successfully!" ;;
        emit (ENextSteps (install_gpu_blobs (config c))) ;;
        close_log ;;
        ret 0
      else
        log_message "ERROR" "Kernel build process failed!" ;;
        emit ETroubleshooting ;;
        close_log ;;
        ret 1
  end.

End Program.

(** Running the whole program from the empty history. *)
Definition run (w : World) (argv : list string) : Z * State :=
  main w argv initial_state.


(** ** Vocabulary of the statements *)

(** [spec m Q]: started in any state, [m] appends some events [evs] to the
    history, and [Q] holds of its result and of those events. *)
Definition spec {A} (m : M A) (Q : A -> list event -> Prop) : Prop :=
  forall st, exists evs,
    trace (snd (m st)) = (trace st ++ evs)%list /\ Q (fst (m st)) evs.

(** The command lines [execute_command] composes when nothing is cut. *)
Definition tee_line (cmd : string) : string :=
  cmd ++ " 2>&1 | tee -a " ++ LOG_FILE.
Definition quiet_line (cmd : string) : string :=
  cmd ++ " >> " ++ LOG_FILE ++ " 2>&1".

(** The shell commands run, in order, with the status [system] returned. *)
Definition system_calls (evs : list event) : list (string * Z) :=
  flat_map (fun e => match e with ESystem c s => [(c, s)] | _ => [] end) evs.

(** Everything [fprintf] wrote to [path], in order. *)
Definition file_output (path : string) (evs : list event) : string :=
  fold_right
    (fun e acc =>
       match e with
       | EFprintf p text => if streq p path then text ++ acc else acc
       | _ => acc
       end) "" evs.

Definition logged (level message : string) (evs : list event) : bool :=
  existsb (fun e => match e with
                    | ELog _ l m => streq l level && streq m message
                    | _ => false
                    end) evs.

Definition is_fopen (path mode : string) (ok : bool) (e : event) : bool :=
  match e with
  | EFopen p m r => streq p path && streq m mode && Bool.eqb r ok
  | _ => false
  end.

Definition is_access (path : string) (ok : bool) (e : event) : bool :=
  match e with
  | EAccess p r => streq p path && Bool.eqb r ok
  | _ => false
  end.


Definition is_chdir (path : string) (ok : bool) (e : event) : bool :=
  match e with
  | EChdir p r => streq p path && Bool.eqb r ok
  | _ => false
  end.

(** The event that follows the first event satisfying [p]. *)
Fixpoint next_after (p : event -> bool) (evs : list event) : option event :=
  match evs with
  | [] => None
  | e :: rest => if p e then hd_error rest else next_after p rest
  end.

(** The firmware download, as [system] sees it. *)
Definition firmware_fetch : string := tee_line firmware_wget_cmd.

Definition is_firmware_fetch (e : event) : bool :=
  match e with
  | ESystem c _ => streq c firmware_fetch
  | _ => false
  end.

(** What the program does between a failed firmware download and its exit:
    the three error lines, the troubleshooting block, closing the log. *)
Definition abort_report_event (e : event) : bool :=
  match e with
  | ELog _ l m =>
      streq l "ERROR" &&
      (streq m "Command failed" || streq m "Failed to download Mali firmware"
       || streq m "Kernel build process failed!")
  | ETroubleshooting => true
  | EFclose p => streq p LOG_FILE
  | _ => false
  end.

(** The effects that belong to the four GPU stages ([download_mali_blobs],
    [install_mali_drivers], [setup_opencl_support], [setup_vulkan_support]):
    their log lines, their shell commands, the directories they create, the
    descriptor files they write and the driver files they probe.  ([chdir]
    is left out: the build directory is the user's choice and may be any
    path.) *)
Definition gpu_messages : list string :=
  [ "Downloading Mali G610 GPU blobs and libraries...";
    "Failed to create directory: /tmp/mali_install";
    "Failed to change to Mali install directory";
    "Downloading Mali CSF firmware...";
    "Failed to download Mali firmware";
    "Downloading Mali userspace driver...";
    "Failed to download Mali userspace driver";
    "Downloading Mali Vulkan-enabled driver...";
    "Failed to download Mali Vulkan driver, using standard version";
    "Downloading additional Mali components...";
    "Failed to download additional Mali components";
    "Mali GPU blobs downloaded successfully";
    "Installing Mali G610 drivers and firmware...";
    "Failed to install Mali firmware";
    "Failed to install Mali userspace driver";
    "Creating Mali driver symbolic links...";
    "Failed to create some Mali symbolic links";
    "Installing Mali Vulkan driver...";
    "Failed to install Mali Vulkan driver";
    "Failed to update library cache";
    "Mali drivers installed successfully";
    "Setting up OpenCL support for Mali G610...";
    "Failed to create directory: /etc/OpenCL/vendors";
    "Failed to create Mali OpenCL ICD file";
    "OpenCL support configured successfully";
    "Setting up Vulkan support for Mali G610...";
    "Failed to create directory: /usr/share/vulkan/icd.d";
    "Failed to create Mali Vulkan ICD file";
    "Vulkan support configured successfully" ].

Definition gpu_commands : list string :=
  (map tee_line
     [ firmware_wget_cmd; driver_wget_cmd; vulkan_wget_cmd; libmali_clone_cmd;
       "cp /tmp/mali_install/mali_csffw.bin /lib/firmware/";
       "cp /tmp/mali_install/libmali-valhall-g610-g6p0-x11-wayland-gbm.so /usr/lib/";
       "cp /tmp/mali_install/libmali-valhall-g610-g6p0-wayland-gbm-vulkan.so /usr/lib/";
       "ldconfig" ]
   ++
   map quiet_line
     (mali_links ++
      [ "ln -sf /usr/lib/libmali-valhall-g610-g6p0-wayland-gbm-vulkan.so /usr/lib/libvulkan_mali.so";
        "chmod 644 /etc/OpenCL/vendors/mali.icd";
        "chmod 644 /usr/share/vulkan/icd.d/mali.json" ]))%list.

Definition gpu_directories : list string :=
  [ "/tmp/mali_install"; "/etc/OpenCL/vendors"; "/usr/share/vulkan/icd.d" ].

Definition gpu_descriptors : list string := [ opencl_icd; vulkan_icd ].

Definition gpu_probes : list string :=
  [ "/tmp/mali_install/libmali-valhall-g610-g6p0-wayland-gbm-vulkan.so";
    mali_vulkan_driver ].

Definition among (names : list string) (s : string) : bool :=
  existsb (streq s) names.

Definition gpu_stage_event (e : event) : bool :=
  match e with
  | ELog _ _ m => among gpu_messages m
  | EEcho c => among gpu_commands (tee_line c)
  | ESystem c _ => among gpu_commands c
  | EStat p _ | EMkdir p _ => among gpu_directories p
  | EFopen p _ _ | EFprintf p _ | EFclose p => among gpu_descriptors p
  | EAccess p _ => among gpu_probes p
  | _ => false
  end.

Definition verification_event (e : event) : bool :=
  match e with
  | ELog _ l m => streq l "INFO" && streq m "Verifying Mali GPU installation..."
  | _ => false
  end.


(** The block [configure_kernel] appends: one directive per line. *)
Definition directive_block : string :=
  fold_right (fun option acc => option ++ nl ++ acc) "" config_options.

(** The tokens that take the next token as their value. *)
Definition takes_value (a : string) : bool :=
  among ["-v"; "--version"; "-j"; "--jobs"; "-d"; "--build-dir";
         "--defconfig"; "--cross-compile"] a.

(** The tokens the loop of [main] compares against. *)
Definition recognized (a : string) : bool :=
  among ["-h"; "--help"; "-v"; "--version"; "-j"; "--jobs"; "-d";
         "--build-dir"; "-c"; "--clean"; "--defconfig"; "--cross-compile";
         "--verbose"; "--no-install"; "--cleanup"; "--enable-gpu";
         "--disable-gpu"; "--enable-opencl"; "--disable-opencl";
         "--enable-vulkan"; "--disable-vulkan"; "--verify-gpu"] a.

(** [complete args]: read from its first token as flags, [args] ends on a
    flag boundary, so that the token after it is read as a flag too (no
    value flag at its end is left waiting for its value). *)
Fixpoint complete (args : list string) : bool :=
  match args with
  | [] => true
  | a :: rest =>
      if takes_value a then
        match rest with
        | _ :: rest' => complete rest'
        | [] => false
        end
      else complete rest
  end.

(** What follows the last [|] of a command line, if it has one. *)
Fixpoint after_last_bar (s : string) : option string :=
  match s with
  | EmptyString => None
  | String c s' =>
      match after_last_bar s' with
      | Some r => Some r
      | None => if Ascii.eqb c "|" then Some s' else None
      end
  end.

(** The rule of the POSIX shell that a pipeline reports the status of its
    last command: [last_status h c] is the status the command [c] ends with
    when started after history [h], and a command line [l | r], with [r]
    free of [|], makes [system] return it. *)
Definition pipeline_reports_last (w : World)
    (last_status : list event -> string -> Z) : Prop :=
  forall h l r, after_last_bar r = None ->
    w_system w h (l ++ " | " ++ r) = last_status h r.

(** What the loop does with a token, as one table: the same chain of
    comparisons as [parse_loop], with the action each branch takes.
    [parse_loop_step] below shows that the loop is this table applied
    token by token. *)
Inductive token_kind : Type :=
| KHelp
| KValue (store : string -> cli_t -> cli_t)
| KToggle (apply : cli_t -> cli_t)
| KSkipped.

Definition classify (a : string) : token_kind :=
  if streq a "-h" || streq a "--help" then KHelp
  else if streq a "-v" || streq a "--version" then
    KValue (fun v => on_config (set_kernel_version (strncpy_field 64 v)))
  else if streq a "-j" || streq a "--jobs" then
    KValue (fun v => on_config (set_jobs (atoi v)))
  else if streq a "-d" || streq a "--build-dir" then
    KValue (fun v => on_config (set_build_dir (strncpy_field MAX_PATH_LEN v)))
  else if streq a "-c" || streq a "--clean" then
    KToggle (on_config (set_clean_build true))
  else if streq a "--defconfig" then
    KValue (fun v => on_config (set_defconfig (strncpy_field 64 v)))
  else if streq a "--cross-compile" then
    KValue (fun v => on_config (set_cross_compile (strncpy_field 128 v)))
  else if streq a "--verbose" then KToggle (on_config (set_verbose true))
  else if streq a "--no-install" then KToggle (set_no_install true)
  else if streq a "--cleanup" then KToggle (set_cleanup true)
  else if streq a "--enable-gpu" then
    KToggle (on_config (set_install_gpu_blobs true))
  else if streq a "--disable-gpu" then
    KToggle (on_config (fun k => set_enable_vulkan false
                                   (set_enable_opencl false
                                      (set_install_gpu_blobs false k))))
  else if streq a "--enable-opencl" then
    KToggle (on_config (set_enable_opencl true))
  else if streq a "--disable-opencl" then
    KToggle (on_config (set_enable_opencl false))
  else if streq a "--enable-vulkan" then
    KToggle (on_config (set_enable_vulkan true))
  else if streq a "--disable-vulkan" then
    KToggle (on_config (set_enable_vulkan false))
  else if streq a "--verify-gpu" then KToggle (set_verify_gpu true)
  else KSkipped.

(** [a] occurs nowhere in [args]. *)
Definition absent (a : string) (args : list string) : bool :=
  forallb (fun x => negb (streq x a)) args.

(** A token preserves [P] when its action, whatever value it is given,
    keeps [P]. *)
Definition preserves (P : cli_t -> Prop) (a : string) : Prop :=
  match classify a with
  | KValue store => forall v c, P c -> P (store v c)
  | KToggle f => forall c, P c -> P (f c)
  | _ => True
  end.

(** The command line [execute_command] hands to [system]. *)
Definition composed (cmd : string) (show_output : bool) : string :=
  if show_output
  then snprintf (MAX_CMD_LEN + 100) (cmd ++ " 2>&1 | tee -a " ++ LOG_FILE)
  else snprintf (MAX_CMD_LEN + 100) (cmd ++ " >> " ++ LOG_FILE ++ " 2>&1").

Definition echoed (cmd : string) (show_output : bool) : list event :=
  if show_output then [EEcho cmd] else [].

(** Events of the stages that run whether or not the GPU is enabled: not an
    effect of a GPU stage, and not the start of the verification. *)
Definition background (e : event) : bool :=
  negb (gpu_stage_event e) && negb (verification_event e).

(** Events of the GPU stages other than the firmware download itself. *)
Definition ordinary (e : event) : bool :=
  negb (is_firmware_fetch e) && negb (verification_event e).

(** The status of the first firmware download in [evs] and the events after
    it. *)
Fixpoint after_fetch (evs : list event) : option (Z * list event) :=
  match evs with
  | [] => None
  | e :: rest =>
      match e with
      | ESystem c status =>
          if streq c firmware_fetch then Some (status, rest)
          else after_fetch rest
      | _ => after_fetch rest
      end
  end.

Definition not_fetch (e : event) : bool := negb (is_firmware_fetch e).
Definition not_verification (e : event) : bool := negb (verification_event e).
Definition not_gpu (e : event) : bool := negb (gpu_stage_event e).

(** What a run owes to a firmware download in its events: nothing is
    downloaded twice, and when the download failed the result is [failure]
    and only the abort report follows. *)
Definition fetch_outcome (failure : Z) (r : Z) (evs : list event) : Prop :=
  match after_fetch evs with
  | None => True
  | Some (status, post) =>
      forallb not_fetch post = true /\
      (status <> 0 -> r = failure /\ forallb abort_report_event post = true)
  end.


Definition config_append_failed : event -> bool := is_fopen ".config" "a" false.
Definition config_append_opened : event -> bool := is_fopen ".config" "a" true.

(** What [configure_kernel] does about the directive block. *)
Definition directive_outcome (r : Z) (evs : list event) : Prop :=
  (existsb config_append_failed evs = true ->
   r = 0 /\
   file_output ".config" evs = "" /\
   next_after config_append_failed evs = Some (EEcho "make olddefconfig") /\
   logged "SUCCESS" "Kernel configured successfully with Mali GPU support"
     evs = true) /\
  (existsb config_append_opened evs = true ->
   file_output ".config" evs = directive_block) /\
  (existsb config_append_opened evs = false ->
   file_output ".config" evs = "").

(** What a run with the GPU flag off looks like: no effect of a GPU stage
    anywhere in the trace, and, when the run exits with status 0, the
    kernel source, configuration and compilation stages have completed, and
    so has the installation stage unless [--no-install] was given. *)
Definition kernel_only_outcome (c : cli_t)
    (code : Z) (evs : list event) : Prop :=
  forallb not_gpu evs = true /\
  (code = 0 ->
   logged "SUCCESS" "Kernel source downloaded successfully" evs = true /\
   logged "SUCCESS" "Kernel configured successfully with Mali GPU support"
     evs = true /\
   logged "SUCCESS" "Kernel built successfully with Mali GPU support" evs
     = true /\
   (no_install c = false ->
    logged "SUCCESS" "Kernel installed successfully with Mali GPU support"
      evs = true)).


Definition is_echo (e : event) : bool :=
  match e with EEcho _ => true | _ => false end.

(** [echo_then_tee evs]: every command echoed in [evs] (that is, every
    command run with [show_output] true) is at once handed to [system] with
    [" 2>&1 | tee -a /tmp/kernel_build.log"] appended, uncut. *)
Inductive echo_then_tee : list event -> Prop :=
| ett_nil : echo_then_tee []
| ett_pair (cmd : string) (status : Z) (evs : list event) :
    echo_then_tee evs ->
    echo_then_tee (EEcho cmd :: ESystem (tee_line cmd) status :: evs)
| ett_other (e : event) (evs : list event) :
    is_echo e = false -> echo_then_tee evs -> echo_then_tee (e :: evs).

(** *** Worlds used as concrete inputs *)

(** Every call succeeds; four processors; the effective user is root. *)
Definition happy_world : World :=
  {| w_system := fun _ _ => 0;
     w_stat := fun _ _ => true;
     w_mkdir := fun _ _ => true;
     w_chdir := fun _ _ => true;
     w_access := fun _ _ => true;
     w_fopen := fun _ _ _ => true;
     w_popen_line := fun _ _ => None;
     w_geteuid := fun _ => 0;
     w_nprocs := 4 |}.

(** As [happy_world], but no directory can be entered. *)
Definition no_chdir_world : World :=
  {| w_system := fun _ _ => 0;
     w_stat := fun _ _ => true;
     w_mkdir := fun _ _ => true;
     w_chdir := fun _ _ => false;
     w_access := fun _ _ => true;
     w_fopen := fun _ _ _ => true;
     w_popen_line := fun _ _ => None;
     w_geteuid := fun _ => 0;
     w_nprocs := 4 |}.

(** As [happy_world], but the firmware file is missing after installation. *)
Definition firmware_missing_world : World :=
  {| w_system := fun _ _ => 0;
     w_stat := fun _ _ => true;
     w_mkdir := fun _ _ => true;
     w_chdir := fun _ _ => true;
     w_access := fun _ p => negb (streq p mali_firmware);
     w_fopen := fun _ _ _ => true;
     w_popen_line := fun _ _ => None;
     w_geteuid := fun _ => 0;
     w_nprocs := 4 |}.

(** As [happy_world], but [.config] cannot be opened. *)
Definition locked_config_world : World :=
  {| w_system := fun _ _ => 0;
     w_stat := fun _ _ => true;
     w_mkdir := fun _ _ => true;
     w_chdir := fun _ _ => true;
     w_access := fun _ _ => true;
     w_fopen := fun _ p _ => negb (streq p ".config");
     w_popen_line := fun _ _ => None;
     w_geteuid := fun _ => 0;
     w_nprocs := 4 |}.

(** A shell that obeys the pipeline rule: [tee] always succeeds, any other
    last command fails with exit status 1 (wait status 256), and a line
    without a pipe fails. *)
Definition tee_status (h : list event) (c : string) : Z :=
  if streq c ("tee -a " ++ LOG_FILE) then 0 else 256.

Definition piping_world : World :=
  {| w_system := fun h c =>
       match after_last_bar c with
       | Some (String _ r) => tee_status h r
       | _ => 256
       end;
     w_stat := fun _ _ => true;
     w_mkdir := fun _ _ => true;
     w_chdir := fun _ _ => true;
     w_access := fun _ _ => true;
     w_fopen := fun _ _ _ => true;
     w_popen_line := fun _ _ => None;
     w_geteuid := fun _ => 0;
     w_nprocs := 4 |}.

(** ** Vocabulary of the further properties *)

(** *** The argument loop *)

(** Every text field of the record fits the array that holds it. *)
Definition fields_fit (c : cli_t) : Prop :=
  (String.length (kernel_version (config c)) <= 63)%nat /\
  (String.length (build_dir (config c)) <= 511)%nat /\
  (String.length (cross_compile (config c)) <= 127)%nat /\
  (String.length (defconfig (config c)) <= 63)%nat /\
  arch (config c) = "arm64".

(** The switches of the record: everything a flag without a value sets. *)
Definition switches (c : cli_t) : list bool :=
  [ verbose (config c); clean_build (config c);
    install_gpu_blobs (config c); enable_opencl (config c);
    enable_vulkan (config c); no_install c; cleanup c; verify_gpu c ].

(** A command line whose version string is longer than its field. *)
Definition long_version_argv : list string :=
  [ "builder"; "-v";
    "6.8.0-a-version-string-that-is-much-longer-than-the-sixty-three-characters-of-the-field" ].

(** A text in which [atoi] finds no number: it is empty, or it starts with
    a character that is neither white space, nor a sign, nor a digit. *)
Definition no_number (v : string) : bool :=
  match v with
  | EmptyString => true
  | String c _ =>
      negb (is_space c) && negb (Ascii.eqb c "-") && negb (Ascii.eqb c "+")
      && match digit_of c with Some _ => false | None => true end
  end.

(** *** The shell and the stages *)

(** A shell that obeys the pipeline rule, with a [tee] that always manages
    to append to the log file. *)
Definition tee_works (w : World) : Prop :=
  exists last_status,
    pipeline_reports_last w last_status /\
    forall h, last_status h ("tee -a " ++ LOG_FILE) = 0.

(** The effects that reach the system or decide how a run goes on: the
    commands handed to the shell with the status [system] returned, the
    directory operations, and the answer of [geteuid]. *)
Inductive move : Type :=
| Ran (line : string) (status : Z)
| Probed (path : string) (ok : bool)
| Made (path : string) (ok : bool)
| Entered (path : string) (ok : bool)
| User (uid : Z).

Definition move_of (e : event) : list move :=
  match e with
  | ESystem c s => [Ran c s]
  | EStat p ok => [Probed p ok]
  | EMkdir p ok => [Made p ok]
  | EChdir p ok => [Entered p ok]
  | EGeteuid u => [User u]
  | _ => []
  end.

Definition moves (evs : list event) : list move := flat_map move_of evs.

(** Events that are no move. *)
Definition motionless (e : event) : bool :=
  match move_of e with [] => true | _ => false end.

(** The steps of a script.  [Debian] is the [stat] of
    [/etc/debian_version], which must succeed; [Root] is [geteuid], which
    must answer 0; [Directory p] is [create_directory p]: a [stat], then,
    only if it failed, a [mkdir] that must succeed; [Enter p] is a [chdir]
    that must succeed; [Must l] is a command line whose failure is fatal,
    [May l] one whose failure is not; [Either l fallback] runs [l] and,
    only if it fails, the fallback, which then must succeed.  A command
    line fails when [system] returns a status other than 0 for it. *)
Inductive script_step : Type :=
| Debian
| Root
| Directory (path : string)
| Enter (path : string)
| Must (line : string)
| May (line : string)
| Either (line fallback : string).

(** [follows script ms completed]: the moves [ms] are those of [script]
    carried out in order, up to its end ([completed] is [true]) or up to
    the first step that failed, with nothing after it ([completed] is
    [false]). *)
Fixpoint follows (script : list script_step) (ms : list move)
    (completed : bool) : Prop :=
  let stop ms' := ms' = [] /\ completed = false in
  match script with
  | [] => ms = [] /\ completed = true
  | Debian :: rest =>
      match ms with
      | Probed p ok :: ms' =>
          p = "/etc/debian_version" /\
          if ok then follows rest ms' completed else stop ms'
      | _ => False
      end
  | Root :: rest =>
      match ms with
      | User u :: ms' =>
          if nonzero u then stop ms' else follows rest ms' completed
      | _ => False
      end
  | Directory path :: rest =>
      match ms with
      | Probed p true :: ms' => p = path /\ follows rest ms' completed
      | Probed p false :: Made p' ok :: ms' =>
          p = path /\ p' = path /\
          if ok then follows rest ms' completed else stop ms'
      | _ => False
      end
  | Enter path :: rest =>
      match ms with
      | Entered p ok :: ms' =>
          p = path /\ if ok then follows rest ms' completed else stop ms'
      | _ => False
      end
  | Must line :: rest =>
      match ms with
      | Ran l s :: ms' =>
          l = line /\
          if nonzero s then stop ms' else follows rest ms' completed
      | _ => False
      end
  | May line :: rest =>
      match ms with
      | Ran l s :: ms' => l = line /\ follows rest ms' completed
      | _ => False
      end
  | Either line fallback :: rest =>
      match ms with
      | Ran l s :: ms' =>
          l = line /\
          if nonzero s then
            match ms' with
            | Ran l' s' :: ms'' =>
                l' = fallback /\
                if nonzero s' then stop ms''
                else follows rest ms'' completed
            | _ => False
            end
          else follows rest ms' completed
      | _ => False
      end
  end.

(** The command lines of a script, fallbacks left out. *)
Definition first_lines (script : list script_step) : list string :=
  flat_map (fun s => match s with
                     | Must l | May l | Either l _ => [l]
                     | _ => []
                     end) script.

(** What a stage does when every command line of its script is reported
    with status 0: it runs them all, and succeeds. *)
Definition unnoticed (script : list script_step)
    (r : Z) (evs : list event) : Prop :=
  r = 0 /\ system_calls evs = map (fun l => (l, 0)) (first_lines script).

(** The line [line] was handed to the shell and reported with [status]. *)
Definition ran_with (line : string) (status : Z) (evs : list event) : bool :=
  existsb (fun call => streq (fst call) line && (snd call =? status))
          (system_calls evs).

(** The scripts of the stages. *)
Definition df_probe : string := "df /tmp | tail -1 | awk '{print $4}'".

Definition build_dep_line : string :=
  "apt build-dep -y linux linux-image-unsigned-$(uname -r)".

Definition patches_clone_cmd : string :=
  "git clone --depth 1 " ++
  "https://github.com/Joshua-Riek/ubuntu-rockchip.git ubuntu-rockchip".

Definition dependencies_script : list script_step := [Debian].
Definition root_script : list script_step := [Root].

Definition environment_script : list script_step :=
  [ Directory BUILD_DIR; Must (tee_line "apt update") ].

Definition prerequisites_script : list script_step :=
  [ Must (tee_line install_command); May (tee_line build_dep_line) ].

Definition blobs_script (c : build_config_t) : list script_step :=
  ([ Directory "/tmp/mali_install"; Enter "/tmp/mali_install";
     Must (tee_line (snprintf MAX_CMD_LEN firmware_wget_cmd));
     Must (tee_line (snprintf MAX_CMD_LEN driver_wget_cmd)) ] ++
   (if enable_vulkan c
    then [May (tee_line (snprintf MAX_CMD_LEN vulkan_wget_cmd))] else []) ++
   [ May (tee_line (snprintf MAX_CMD_LEN libmali_clone_cmd)) ])%list.

Definition source_script (c : build_config_t) : list script_step :=
  [ Enter (build_dir c);
    Either (tee_line (snprintf MAX_CMD_LEN vendor_clone_cmd))
           (tee_line (snprintf MAX_CMD_LEN
                        (mainline_clone_cmd (kernel_version c)))) ].

Definition patches_script : list script_step :=
  [ May (tee_line (snprintf MAX_CMD_LEN patches_clone_cmd)) ].

Definition configure_script (c : build_config_t) : list script_step :=
  (Enter (snprintf MAX_PATH_LEN (build_dir c ++ "/linux")) ::
   (if clean_build c then [May (tee_line "make mrproper")] else []) ++
   [ Either (tee_line (snprintf MAX_CMD_LEN ("make " ++ defconfig c)))
            (tee_line "make defconfig");
     May (tee_line "make olddefconfig") ])%list.

Definition build_script (c : build_config_t) : list script_step :=
  [ Must (tee_line (snprintf MAX_CMD_LEN
                      ("make -j" ++ itoa (jobs c) ++ " Image")));
    Must (tee_line (snprintf MAX_CMD_LEN
                      ("make -j" ++ itoa (jobs c) ++ " dtbs")));
    Must (tee_line (snprintf MAX_CMD_LEN
                      ("make -j" ++ itoa (jobs c) ++ " modules"))) ].

Definition install_script (c : build_config_t) : list script_step :=
  [ Must (tee_line "make modules_install");
    May (tee_line "make dtbs_install");
    Must (tee_line (snprintf MAX_CMD_LEN
                      ("cp arch/arm64/boot/Image /boot/vmlinuz-" ++
                       kernel_version c ++ "-opi5plus-mali")));
    May (tee_line (snprintf MAX_CMD_LEN
                     ("cp System.map /boot/System.map-" ++
                      kernel_version c ++ "-opi5plus-mali")));
    May (tee_line (snprintf MAX_CMD_LEN
                     ("cp .config /boot/config-" ++
                      kernel_version c ++ "-opi5plus-mali")));
    May (tee_line (snprintf MAX_CMD_LEN
                     ("update-initramfs -c -k " ++
                      kernel_version c ++ "-opi5plus-mali")));
    May (tee_line "u-boot-update") ].

Definition cleanup_script (c : build_config_t) : list script_step :=
  [ May (composed (snprintf MAX_CMD_LEN ("rm -rf " ++ build_dir c)) false);
    May (quiet_line "rm -rf /tmp/mali_install") ].

(** The script of a run with the GPU flag off: the two preflight checks,
    the build environment, the prerequisites, then the kernel source, the
    patches, the configuration, the compilation, the installation unless
    [--no-install] was given, and the cleanup if [--cleanup] was. *)
Definition kernel_script (c : cli_t) : list script_step :=
  (dependencies_script ++ root_script ++ environment_script ++
   prerequisites_script ++
   source_script (config c) ++ patches_script ++
   configure_script (config c) ++ build_script (config c) ++
   (if negb (no_install c) then install_script (config c) else []) ++
   (if cleanup c then cleanup_script (config c) else []))%list.

(** What a stage does, by its script: the result is 0 or -1, and the
    moves are those of the script, completed exactly when the result is
    0. *)
Definition scripted (script : list script_step)
    (r : Z) (evs : list event) : Prop :=
  (r = 0 \/ r = -1) /\ follows script (moves evs) (negb (nonzero r)).

(** What [check_dependencies] does when [/etc/debian_version] is [present]
    or not, [uname -m] answers [machine] and [df] answers [free]. *)
Definition dependencies_outcome
    (present : bool) (machine free : option (option string))
    (r : Z) (evs : list event) : Prop :=
  r = (if present then 0 else -1) /\
  system_calls evs = [] /\
  logged "ERROR" "This tool is designed for Ubuntu/Debian systems" evs =
    negb present /\
  logged "WARNING" "Untested architecture detected" evs =
    (present &&
     match machine with
     | Some (Some line) =>
         negb (streq (cut_at_newline line) "aarch64")
         && negb (streq (cut_at_newline line) "x86_64")
     | _ => false
     end) /\
  logged "WARNING" "Less than 10GB free space available in /tmp" evs =
    (present &&
     match free with
     | Some (Some space) => atol space <? 10485760
     | _ => false
     end).

(** What [setup_build_environment] does when the build directory is
    [present] or not, [mkdir] answers [made], the log file is [opened] or
    not, and [system] returns [s] for the update line. *)
Definition environment_outcome (present made opened : bool) (s : Z)
    (r : Z) (evs : list event) : Prop :=
  let ready := present || made in
  r = (if ready && negb (nonzero s) then 0 else -1) /\
  moves evs =
    (Probed BUILD_DIR present ::
     (if present then [] else [Made BUILD_DIR made]) ++
     (if ready then [Ran (tee_line "apt update") s] else []))%list /\
  logged "WARNING" "Could not open log file" evs = (ready && negb opened).


(** What [cleanup_build] does. *)
Definition cleanup_outcome (c : build_config_t)
    (r : Z) (evs : list event) : Prop :=
  r = 0 /\
  map fst (system_calls evs) =
    [ composed (snprintf MAX_CMD_LEN ("rm -rf " ++ build_dir c)) false;
      quiet_line "rm -rf /tmp/mali_install" ] /\
  logged "SUCCESS" "Cleanup completed" evs = true.

(** What [install_mali_drivers] does.  The two copies come first and each
    must be reported with status 0; then the eight links of the table,
    whatever their status; then the Vulkan part, which is empty, or the
    copy of the Vulkan library reported as failed, or that copy reported
    with status 0 followed by its link; then [ldconfig]. *)
Definition vulkan_copy : string :=
  tee_line
    "cp /tmp/mali_install/libmali-valhall-g610-g6p0-wayland-gbm-vulkan.so /usr/lib/".
Definition vulkan_link : string :=
  quiet_line
    "ln -sf /usr/lib/libmali-valhall-g610-g6p0-wayland-gbm-vulkan.so /usr/lib/libvulkan_mali.so".

Definition drivers_outcome (c : build_config_t)
    (r : Z) (evs : list event) : Prop :=
  let firmware_copy :=
    tee_line "cp /tmp/mali_install/mali_csffw.bin /lib/firmware/" in
  let driver_copy :=
    tee_line
      "cp /tmp/mali_install/libmali-valhall-g610-g6p0-x11-wayland-gbm.so /usr/lib/" in
  (exists s, s <> 0 /\ system_calls evs = [(firmware_copy, s)] /\ r = -1) \/
  (exists s, s <> 0 /\
     system_calls evs = [(firmware_copy, 0); (driver_copy, s)] /\ r = -1) \/
  (r = 0 /\
   exists links vulkan_part s,
     system_calls evs =
       ((firmware_copy, 0) :: (driver_copy, 0) ::
        links ++ vulkan_part ++ [(tee_line "ldconfig", s)])%list /\
     map fst links = map quiet_line mali_links /\
     (vulkan_part = [] \/
      (exists s', s' <> 0 /\ vulkan_part = [(vulkan_copy, s')]) \/
      (exists s', vulkan_part = [(vulkan_copy, 0); (vulkan_link, s')])) /\
     (enable_vulkan c = false -> vulkan_part = [])).

(** A Debian system on another architecture, with little room in [/tmp]. *)
Definition riscv_world : World :=
  {| w_system := fun _ _ => 0;
     w_stat := fun _ _ => true;
     w_mkdir := fun _ _ => true;
     w_chdir := fun _ _ => true;
     w_access := fun _ _ => true;
     w_fopen := fun _ _ _ => true;
     w_popen_line := fun _ c =>
       if streq c "uname -m" then Some (Some ("riscv64" ++ nl))
       else Some (Some ("5000000" ++ nl));
     w_geteuid := fun _ => 0;
     w_nprocs := 4 |}.

(** A system on which no directory exists yet and no file can be
    opened. *)
Definition bare_world : World :=
  {| w_system := fun _ _ => 0;
     w_stat := fun _ _ => false;
     w_mkdir := fun _ _ => true;
     w_chdir := fun _ _ => true;
     w_access := fun _ _ => false;
     w_fopen := fun _ _ _ => false;
     w_popen_line := fun _ _ => None;
     w_geteuid := fun _ => 0;
     w_nprocs := 4 |}.

(** A shell that obeys the pipeline rule, with a [tee] that fails once,
    right after the firmware download was echoed (the disk is full). *)
Definition full_disk_status (h : list event) (c : string) : Z :=
  match last h EHeader with
  | EEcho cmd =>
      if streq cmd (snprintf MAX_CMD_LEN firmware_wget_cmd) then 256 else 0
  | _ => 0
  end.

Definition full_disk_world : World :=
  {| w_system := fun h c =>
       match after_last_bar c with
       | Some (String _ r) => full_disk_status h r
       | _ => 0
       end;
     w_stat := fun _ _ => true;
     w_mkdir := fun _ _ => true;
     w_chdir := fun _ _ => true;
     w_access := fun _ _ => true;
     w_fopen := fun _ _ _ => true;
     w_popen_line := fun _ _ => None;
     w_geteuid := fun _ => 0;
     w_nprocs := 4 |}.

(** *** Kinds of events, for statements about whole runs *)

Definition done_line : string :=
  "Kernel build process completed successfully!".
Definition failed_line : string := "Kernel build process failed!".
Definition root_line : string :=
  "This tool requires root privileges. Please run with sudo.".
Definition debian_line : string :=
  "This tool is designed for Ubuntu/Debian systems".

Definition is_usage (e : event) : bool :=
  match e with EUsage _ => true | _ => false end.

(** The paths [stat] and [mkdir] are ever applied to. *)
Definition fixed_paths : list string :=
  [ "/etc/debian_version"; BUILD_DIR; "/tmp/mali_install";
    "/etc/OpenCL/vendors"; "/usr/share/vulkan/icd.d" ].

Definition known_path (e : event) : bool :=
  match e with
  | EStat p _ | EMkdir p _ => among fixed_paths p
  | _ => true
  end.

(** The effects of [install_kernel] that reach the boot directory and the
    boot configuration, and its log lines.  ([make modules_install] and
    [make dtbs_install] are left out: [--defconfig] may name any make
    target.) *)
Definition boot_event (e : event) : bool :=
  match e with
  | ELog _ _ m =>
      among [ "Installing kernel and Mali GPU modules...";
              "Failed to install kernel modules";
              "Failed to install device tree blobs";
              "Failed to copy kernel image";
              "Failed to copy System.map";
              "Failed to copy kernel config";
              "Failed to update initramfs";
              "Failed to update u-boot configuration";
              "Kernel installed successfully with Mali GPU support" ] m
  | EEcho c | ESystem c _ =>
      existsb (fun p => String.prefix p c)
        [ "cp arch/arm64/boot/Image /boot/"; "cp System.map /boot/";
          "cp .config /boot/"; "update-initramfs "; "u-boot-update" ]
  | _ => false
  end.

(** The effects of [cleanup_build]: its removals and its log lines. *)
Definition cleanup_event (e : event) : bool :=
  match e with
  | ELog _ _ m =>
      among [ "Cleaning up build artifacts...";
              "Failed to cleanup build directory";
              "Failed to cleanup Mali install directory";
              "Cleanup completed" ] m
  | ESystem c _ => String.prefix "rm -rf " c
  | _ => false
  end.

(** What tells how a run ended: the usage text, the answer of [geteuid],
    and the four closing lines of [main], [check_root_permissions] and
    [check_dependencies]. *)
Definition final_event (e : event) : bool :=
  match e with
  | EUsage _ | EGeteuid _ => true
  | ELog _ _ m => among [done_line; failed_line; root_line; debian_line] m
  | _ => false
  end.

(** The probe of [check_dependencies] for the distribution. *)
Definition debian_event (e : event) : bool :=
  match e with
  | EStat p _ => streq p "/etc/debian_version"
  | _ => false
  end.

(** Events that leave the system as it was: console output, log lines,
    and the probes: [stat], [geteuid], and the two queries that
    [check_dependencies] starts through [popen]. *)
Definition harmless (e : event) : bool :=
  match e with
  | EHeader | EUsage _ | ESummary _ | ENextSteps _ | ETroubleshooting
  | ELog _ _ _ | EStat _ _ | EGeteuid _ => true
  | EPopen c _ => among ["uname -m"; df_probe] c
  | _ => false
  end.

(** A preflight check that refuses the run. *)
Definition refusal (e : event) : bool :=
  match e with
  | EStat p ok => streq p "/etc/debian_version" && negb ok
  | EGeteuid uid => nonzero uid
  | _ => false
  end.

Definition not_boot (e : event) : bool := negb (boot_event e).
Definition not_cleanup (e : event) : bool := negb (cleanup_event e).
Definition not_final (e : event) : bool := negb (final_event e).
Definition not_debian (e : event) : bool := negb (debian_event e).

(** The events of the stages, by stage. *)
Definition routine (e : event) : bool :=
  known_path e && not_boot e && not_cleanup e && not_verification e
  && not_final e && not_debian e.
Definition installing (e : event) : bool :=
  known_path e && not_cleanup e && not_verification e
  && not_final e && not_debian e.
Definition cleaning (e : event) : bool :=
  known_path e && not_boot e && not_verification e
  && not_final e && not_debian e.
Definition verifying (e : event) : bool :=
  known_path e && not_boot e && not_cleanup e
  && not_final e && not_debian e.
Definition probing (e : event) : bool :=
  known_path e && not_boot e && not_cleanup e && not_verification e
  && not_final e && harmless e.

(** How the exit status shows in the trace. *)
Definition reported (code : Z) (evs : list event) : Prop :=
  (code = 0 \/ code = 1) /\
  (code =? 0) = (existsb is_usage evs || logged "SUCCESS" done_line evs) /\
  (code =? 1) =
    (logged "ERROR" failed_line evs || logged "ERROR" root_line evs
     || logged "ERROR" debian_line evs).

(** As [happy_world], but the effective user is not root. *)
Definition user_world : World :=
  {| w_system := fun _ _ => 0;
     w_stat := fun _ _ => true;
     w_mkdir := fun _ _ => true;
     w_chdir := fun _ _ => true;
     w_access := fun _ _ => true;
     w_fopen := fun _ _ _ => true;
     w_popen_line := fun _ _ => None;
     w_geteuid := fun _ => 1000;
     w_nprocs := 4 |}.

(** ** Facts about the libc helpers *)

Module CStrFacts.

Lemma length_append (a b : string) :
  String.length (a ++ b) = (String.length a + String.length b)%nat.
Proof. induction a as [|c a IH]; simpl; [reflexivity | now rewrite IH]. Qed.

Lemma take_all (n : nat) (s : string) :
  (String.length s <= n)%nat -> take n s = s.
Proof.
  revert n; induction s as [|c s IH]; intros [|n] H; simpl in *;
    try reflexivity; try lia.
  f_equal; apply IH; lia.
Qed.

Lemma snprintf_fits (cap : nat) (s : string) :
  (String.length s < cap)%nat -> snprintf cap s = s.
Proof. intro H; apply take_all; lia. Qed.

Lemma append_assoc (a b c : string) : (a ++ b) ++ c = a ++ (b ++ c).
Proof. induction a as [|x a IH]; simpl; [reflexivity | now rewrite IH]. Qed.

Lemma atoi_digits_step (c : ascii) (s : string) (acc d : Z) :
  digit_of c = Some d ->
  atoi_digits (String c s) acc = atoi_digits s (10 * acc + d).
Proof. intro H; simpl; rewrite H; reflexivity. Qed.

Ltac digit_case IH k :=
  cbn [NilEmpty.string_of_uint Pos.of_uint_acc Pos.of_uint];
  rewrite (atoi_digits_step _ _ _ k) by reflexivity;
  try (rewrite <- IH; f_equal; lia).

(** Reading back the digits [printf] wrote. *)
Lemma atoi_digits_uint (d : Decimal.uint) (acc : positive) :
  atoi_digits (NilEmpty.string_of_uint d) (Z.pos acc) =
  Z.pos (Pos.of_uint_acc d acc).
Proof.
  revert acc; induction d; intro acc;
    [ reflexivity
    | digit_case IHd 0 | digit_case IHd 1 | digit_case IHd 2
    | digit_case IHd 3 | digit_case IHd 4 | digit_case IHd 5
    | digit_case IHd 6 | digit_case IHd 7 | digit_case IHd 8
    | digit_case IHd 9 ].
Qed.

Lemma atoi_digits_uint0 (d : Decimal.uint) :
  atoi_digits (NilEmpty.string_of_uint d) 0 = Z.of_N (Pos.of_uint d).
Proof.
  induction d;
    [ reflexivity
    | digit_case IHd 0; exact IHd
    | digit_case IHd 1 | digit_case IHd 2
    | digit_case IHd 3 | digit_case IHd 4 | digit_case IHd 5
    | digit_case IHd 6 | digit_case IHd 7 | digit_case IHd 8
    | digit_case IHd 9 ];
    match goal with
    | |- atoi_digits _ ?z = _ =>
        let v := eval vm_compute in z in change z with v
    end;
    rewrite atoi_digits_uint; reflexivity.
Qed.

Lemma string_of_pos_shape (p : positive) :
  exists c s, NilEmpty.string_of_uint (Pos.to_uint p) = String c s /\
              is_space c = false /\ Ascii.eqb c "-" = false /\
              Ascii.eqb c "+" = false.
Proof.
  pose proof (DecimalPos.Unsigned.to_uint_nonnil p) as H.
  destruct (Pos.to_uint p); try congruence; simpl; eauto 10.
Qed.

Lemma decimal_itoa (n : Z) : decimal (itoa n) = n.
Proof.
  destruct n as [|p|p]; [reflexivity| |].
  - unfold itoa, decimal; simpl Z.to_int; cbn [NilZero.string_of_int].
    destruct (string_of_pos_shape p) as (c & s & E & Hs & Hm & Hp).
    assert (NilZero.string_of_uint (Pos.to_uint p) = String c s) as E'.
    { pose proof (DecimalPos.Unsigned.to_uint_nonnil p).
      destruct (Pos.to_uint p); try congruence; exact E. }
    rewrite E'; simpl skip_spaces; rewrite Hs, Hm, Hp, <- E.
    rewrite atoi_digits_uint0, DecimalPos.Unsigned.of_to; reflexivity.
  - unfold itoa, decimal; simpl Z.to_int; cbn [NilZero.string_of_int].
    assert (NilZero.string_of_uint (Pos.to_uint p) =
            NilEmpty.string_of_uint (Pos.to_uint p)) as E'.
    { pose proof (DecimalPos.Unsigned.to_uint_nonnil p).
      destruct (Pos.to_uint p); try congruence; reflexivity. }
    rewrite E'; simpl.
    rewrite atoi_digits_uint0, DecimalPos.Unsigned.of_to; reflexivity.
Qed.

(** Reading back what [%d] wrote: the number itself when it fits an
    [int], and otherwise what is left of it after [strtol] and the
    conversion to [int]. *)
Lemma atoi_itoa_any (n : Z) :
  atoi (itoa n) = to_int (Z.max LONG_MIN (Z.min LONG_MAX n)).
Proof. unfold atoi, strtol; rewrite decimal_itoa; reflexivity. Qed.

Lemma to_int_fits (n : Z) : INT_MIN <= n <= INT_MAX -> to_int n = n.
Proof.
  unfold INT_MIN, INT_MAX, to_int; intro H.
  rewrite Z.mod_small by lia; lia.
Qed.

Lemma to_int_range (n : Z) : INT_MIN <= to_int n <= INT_MAX.
Proof.
  unfold INT_MIN, INT_MAX, to_int.
  pose proof (Z.mod_pos_bound (n + 2147483648) 4294967296 ltac:(lia)); lia.
Qed.

Theorem atoi_itoa (n : Z) : INT_MIN <= n <= INT_MAX -> atoi (itoa n) = n.
Proof.
  intro H; rewrite atoi_itoa_any.
  assert (Z.max LONG_MIN (Z.min LONG_MAX n) = n) as ->
    by (unfold INT_MIN, INT_MAX, LONG_MIN, LONG_MAX in *; lia).
  apply to_int_fits; exact H.
Qed.

End CStrFacts.

(** ** The argument loop *)

Module ParseFacts.

Lemma parse_loop_step (a : string) (rest : list string) (c : cli_t) :
  parse_loop (a :: rest) c =
  match classify a with
  | KHelp => HelpExit
  | KValue store =>
      match rest with
      | v :: rest' => parse_loop rest' (store v c)
      | [] => Parsed c
      end
  | KToggle f => parse_loop rest (f c)
  | KSkipped => parse_loop rest c
  end.
Proof.
  unfold classify; cbn [parse_loop].
  repeat match goal with
         | |- context [if ?b then _ else _] => destruct b
         end; reflexivity.
Qed.

(** Case analysis on a token: one case per literal the goal compares it
    with, and the case where it is none of them. *)
Ltac token_cases a :=
  unfold streq in *;
  repeat match goal with
         | |- context [String.eqb a ?s] =>
             destruct (String.eqb_spec a s);
             [ subst a | cbn [orb andb negb] ]
         end.

Lemma classify_takes_value (a : string) :
  match classify a with
  | KValue _ => takes_value a = true
  | _ => takes_value a = false
  end.
Proof.
  unfold takes_value, among, classify; cbn [existsb].
  token_cases a; reflexivity.
Qed.

Lemma classify_recognized (a : string) :
  recognized a = false -> classify a = KSkipped.
Proof.
  unfold recognized, among, classify; cbn [existsb].
  token_cases a; cbn; congruence.
Qed.

(** The loop on a concatenation, when the first part ends on a flag
    boundary. *)
Lemma parse_loop_app_len (n : nat) :
  forall pre rest c, (List.length pre <= n)%nat -> complete pre = true ->
    parse_loop (pre ++ rest) c =
    match parse_loop pre c with
    | Parsed c1 => parse_loop rest c1
    | HelpExit => HelpExit
    end.
Proof.
  induction n as [|n IH]; intros [|a pre] rest c Hlen Hc;
    try reflexivity; simpl in Hlen; try lia.
  change ((a :: pre) ++ rest)%list with (a :: (pre ++ rest))%list.
  rewrite !parse_loop_step.
  cbn [complete] in Hc.
  pose proof (classify_takes_value a) as Hk.
  destruct (classify a); rewrite Hk in Hc.
  - reflexivity.
  - destruct pre as [|v pre]; [discriminate|].
    change ((v :: pre) ++ rest)%list with (v :: (pre ++ rest))%list.
    apply IH; [simpl in Hlen; lia | assumption].
  - apply IH; [lia | assumption].
  - apply IH; [lia | assumption].
Qed.

Lemma parse_loop_app (pre rest : list string) (c : cli_t) :
  complete pre = true ->
  parse_loop (pre ++ rest) c =
  match parse_loop pre c with
  | Parsed c1 => parse_loop rest c1
  | HelpExit => HelpExit
  end.
Proof. apply (parse_loop_app_len (List.length pre)); lia. Qed.


(** A property of the record that every permitted token preserves holds
    at the end of the loop if it held at the start. *)
Lemma parse_loop_invariant_len (P : cli_t -> Prop) (ok : string -> bool)
      (Hok : forall a, ok a = true -> preserves P a) (n : nat) :
  forall args c c', (List.length args <= n)%nat ->
    forallb ok args = true -> P c -> parse_loop args c = Parsed c' -> P c'.
Proof.
  induction n as [|n IH]; intros [|a args] c c' Hlen Hall Hc Hp;
    simpl in Hlen; try lia; try (cbn in Hp; congruence).
  cbn [forallb] in Hall; apply andb_prop in Hall; destruct Hall as [Ha Hall].
  rewrite parse_loop_step in Hp.
  specialize (Hok a Ha); unfold preserves in Hok.
  destruct (classify a).
  - discriminate.
  - destruct args as [|v args]; [congruence|].
    cbn [forallb] in Hall; apply andb_prop in Hall; destruct Hall as [_ Hall].
    eapply (IH args); [simpl in Hlen; lia | exact Hall | | exact Hp].
    apply Hok; exact Hc.
  - eapply (IH args); [lia | exact Hall | | exact Hp]. apply Hok; exact Hc.
  - eapply (IH args); [lia | exact Hall | exact Hc | exact Hp].
Qed.

Lemma parse_loop_invariant (P : cli_t -> Prop) (ok : string -> bool) :
  (forall a, ok a = true -> preserves P a) ->
  forall args c c', forallb ok args = true -> P c ->
    parse_loop args c = Parsed c' -> P c'.
Proof.
  intros Hok args c c'.
  apply (parse_loop_invariant_len P ok Hok (List.length args)); lia.
Qed.

Lemma absent_not_in (a : string) (args : list string) :
  ~ In a args -> absent a args = true.
Proof.
  unfold absent; induction args as [|x args IH]; intro H; [reflexivity|].
  cbn [forallb]; rewrite IH by (intro; apply H; now right).
  unfold streq; destruct (String.eqb_spec x a); [|reflexivity].
  exfalso; apply H; now left.
Qed.

(** Only the named token can change each field in the named direction. *)
Ltac preserves_tac :=
  let a := fresh "a" in
  let H := fresh "H" in
  intros a H; unfold preserves, classify;
  token_cases a; cbn in H |- *; try discriminate; auto;
  intros; cbn; assumption.

Lemma opencl_stays_off (a : string) :
  negb (streq a "--enable-opencl") = true ->
  preserves (fun c => enable_opencl (config c) = false) a.
Proof. revert a; preserves_tac. Qed.

Lemma vulkan_stays_off (a : string) :
  negb (streq a "--enable-vulkan") = true ->
  preserves (fun c => enable_vulkan (config c) = false) a.
Proof. revert a; preserves_tac. Qed.

Lemma gpu_stays_off (a : string) :
  negb (streq a "--enable-gpu") = true ->
  preserves (fun c => install_gpu_blobs (config c) = false) a.
Proof. revert a; preserves_tac. Qed.

Lemma gpu_stays_on (a : string) :
  negb (streq a "--disable-gpu") = true ->
  preserves (fun c => install_gpu_blobs (config c) = true) a.
Proof. revert a; preserves_tac. Qed.

Lemma jobs_stay (n : Z) (a : string) :
  negb (streq a "-j") && negb (streq a "--jobs") = true ->
  preserves (fun c => jobs (config c) = n) a.
Proof. revert a; preserves_tac. Qed.

End ParseFacts.

(** ** Reasoning about computations *)

Module Rules.

Lemma spec_ret {A} (a : A) (Q : A -> list event -> Prop) :
  Q a [] -> spec (ret a) Q.
Proof. intros H st; exists []; simpl; rewrite app_nil_r; auto. Qed.

Lemma spec_bind {A B} (m : M A) (k : A -> M B)
      (Q : B -> list event -> Prop) :
  spec m (fun a e1 => spec (k a) (fun b e2 => Q b (e1 ++ e2)%list)) ->
  spec (bind m k) Q.
Proof.
  intros H st; unfold bind.
  destruct (H st) as (e1 & Ht & Hk).
  destruct (m st) as [a st1]; simpl in *.
  destruct (Hk st1) as (e2 & Ht2 & HQ).
  exists (e1 ++ e2)%list; split; [|exact HQ].
  rewrite Ht2, Ht, app_assoc; reflexivity.
Qed.

Lemma spec_conseq {A} (m : M A) (Q' Q : A -> list event -> Prop) :
  spec m Q' -> (forall a evs, Q' a evs -> Q a evs) -> spec m Q.
Proof.
  intros H HQ st; destruct (H st) as (evs & Ht & Hq); eauto.
Qed.

Lemma spec_emit (e : event) (Q : unit -> list event -> Prop) :
  Q tt [e] -> spec (emit e) Q.
Proof. intros H st; exists [e]; auto. Qed.

Lemma spec_ask {A} (q : list event -> A) (e : A -> event)
      (Q : A -> list event -> Prop) :
  (forall a, Q a [e a]) -> spec (ask q e) Q.
Proof. intros H st; exists [e (q (trace st))]; simpl; auto. Qed.

Lemma spec_get_log_fp (Q : bool -> list event -> Prop) :
  (forall b, Q b []) -> spec get_log_fp Q.
Proof. intros H st; exists []; simpl; rewrite app_nil_r; auto. Qed.

Lemma spec_set_log_fp (b : bool) (Q : unit -> list event -> Prop) :
  Q tt [] -> spec (set_log_fp b) Q.
Proof. intros H st; exists []; simpl; rewrite app_nil_r; auto. Qed.

Lemma spec_log_message (level message : string)
      (Q : unit -> list event -> Prop) :
  (forall to_file, Q tt [ELog to_file level message]) ->
  spec (log_message level message) Q.
Proof.
  intro H; unfold log_message.
  apply spec_bind, spec_get_log_fp; intro b.
  apply spec_emit; apply H.
Qed.

Lemma spec_close_log (Q : unit -> list event -> Prop) :
  Q tt [] -> Q tt [EFclose LOG_FILE] -> spec close_log Q.
Proof.
  intros H0 H1; unfold close_log.
  apply spec_bind, spec_get_log_fp; intros [|].
  - apply spec_emit; exact H1.
  - apply spec_ret; exact H0.
Qed.

Lemma nonzero_0 : nonzero 0 = false.
Proof. reflexivity. Qed.

Lemma nonzero_m1 : nonzero (-1) = true.
Proof. reflexivity. Qed.

Lemma nonzero_true (x : Z) : nonzero x = true <-> x <> 0.
Proof. unfold nonzero; destruct (Z.eqb_spec x 0); simpl; split; congruence. Qed.

Lemma nonzero_false (x : Z) : nonzero x = false <-> x = 0.
Proof. unfold nonzero; destruct (Z.eqb_spec x 0); simpl; split; congruence. Qed.


(** [execute_command] either returns 0 after a command of status 0, or
    logs the failure and returns -1. *)
Lemma spec_execute_command (w : World) (cmd : string) (show : bool)
      (Q : Z -> list event -> Prop) :
  Q 0 (echoed cmd show ++ [ESystem (composed cmd show) 0])%list ->
  (forall status to_file, status <> 0 ->
     Q (-1) (echoed cmd show ++
             [ESystem (composed cmd show) status;
              ELog to_file "ERROR" "Command failed"])%list) ->
  spec (execute_command w cmd show) Q.
Proof.
  intros H0 H1; unfold execute_command.
  apply spec_bind.
  assert (spec
    (if show
     then bind (emit (EEcho cmd))
            (fun _ => ret (snprintf (MAX_CMD_LEN + 100)
                             (cmd ++ " 2>&1 | tee -a " ++ LOG_FILE)))
     else ret (snprintf (MAX_CMD_LEN + 100)
                 (cmd ++ " >> " ++ LOG_FILE ++ " 2>&1")))
    (fun line evs => line = composed cmd show /\ evs = echoed cmd show))
    as Hline.
  { destruct show; simpl.
    - apply spec_bind, spec_emit, spec_ret; auto.
    - apply spec_ret; auto. }
  eapply spec_conseq; [exact Hline|].
  intros line evs [-> ->].
  apply spec_bind, spec_ask; intro status.
  destruct (nonzero status) eqn:E.
  - apply spec_bind, spec_log_message; intro b.
    apply spec_ret. rewrite app_nil_r.
    apply nonzero_true in E.
    exact (H1 status b E).
  - apply spec_ret; rewrite app_nil_r.
    apply nonzero_false in E; subst; exact H0.
Qed.

(** A loop whose every round emits only events accepted by [p]. *)
Lemma spec_for_each {A} (p : event -> bool) (xs : list A)
      (body : A -> M unit) :
  (forall x, In x xs -> spec (body x) (fun _ evs => forallb p evs = true)) ->
  spec (for_each xs body) (fun _ evs => forallb p evs = true).
Proof.
  induction xs as [|x xs IH]; intro H; simpl.
  - apply spec_ret; reflexivity.
  - apply spec_bind.
    eapply spec_conseq; [apply H; now left|]; intros ? e1 H1; cbv beta in H1.
    eapply spec_conseq; [apply IH; intros; apply H; now right|].
    intros ? e2 H2; cbv beta in H2.
    rewrite forallb_app, H1, H2; reflexivity.
Qed.

(** One step through a computation, by its head construct. *)
Ltac step :=
  cbv beta;
  change (nonzero 0) with false;
  change (nonzero (-1)) with true;
  change (negb true) with false;
  change (negb false) with true;
  cbv iota;
  lazymatch goal with
  | |- spec (bind _ _) _ => apply spec_bind
  | |- spec (ret _) _ => apply spec_ret
  | |- spec (emit _) _ => apply spec_emit
  | |- spec (log_message _ _) _ => apply spec_log_message; intro
  | |- spec close_log _ => apply spec_close_log
  | |- spec (set_log_fp _) _ => apply spec_set_log_fp
  | |- spec (execute_command _ _ _) _ =>
      apply spec_execute_command; [|intros ? ? ?]
  | |- spec (ask _ _) _ => apply spec_ask; intro
  | |- spec (c_stat _ _) _ => apply spec_ask; intro
  | |- spec (c_mkdir _ _) _ => apply spec_ask; intro
  | |- spec (c_chdir _ _) _ => apply spec_ask; intro
  | |- spec (c_access _ _) _ => apply spec_ask; intro
  | |- spec (c_fopen _ _ _) _ => apply spec_ask; intro
  | |- spec (c_popen_line _ _) _ => apply spec_ask; intro
  | |- spec (c_geteuid _) _ => apply spec_ask; intro
  | |- spec (create_directory _ _) _ => unfold create_directory
  | |- spec (or_goto_error _ _) _ => unfold or_goto_error
  | |- spec (if ?b then _ else _) _ => destruct b eqn:?
  | |- spec (let x := ?v in _) _ => cbv zeta
  | |- spec (match ?x with _ => _ end) _ => destruct x eqn:?
  end.

Ltac steps := repeat step; cbv beta.

(** Closing a goal [forallb p evs = true] on an explicit list, possibly
    with segments known from hypotheses. *)
Ltac all_events :=
  lazymatch goal with |- forallb _ _ = true => idtac end;
  repeat rewrite forallb_app;
  repeat match goal with
         | H : forallb _ ?l = true |- context [forallb _ ?l] => rewrite H
         end;
  try reflexivity; vm_compute; reflexivity.

(** Closing a goal [logged level message evs = true]: the line is in one
    of the explicit segments of [evs]. *)
Ltac orb_search :=
  first [ reflexivity
        | solve [vm_compute; reflexivity]
        | apply orb_true_iff;
          first [ left; solve [orb_search] | right; solve [orb_search] ] ].

Ltac find_log :=
  unfold logged; repeat rewrite existsb_app; orb_search.

End Rules.


(** ** The command lines *)

Module Commands.

Import CStrFacts Rules.

Lemma composed_tee (cmd : string) :
  (String.length cmd <= 2111)%nat -> composed cmd true = tee_line cmd.
Proof.
  intro H; unfold composed, tee_line; apply snprintf_fits.
  rewrite length_append.
  change (String.length (" 2>&1 | tee -a " ++ LOG_FILE)) with 36%nat.
  change (MAX_CMD_LEN + 100)%nat with 2148%nat; lia.
Qed.



(** Every command the program formats fits: it comes out of a buffer of
    [MAX_CMD_LEN] bytes, or is the fixed package installation line. *)
Lemma formatted_command_fits (text : string) :
  (String.length (snprintf MAX_CMD_LEN text) <= 2111)%nat.
Proof.
  unfold snprintf, MAX_CMD_LEN.
  assert (forall n t, (String.length (take n t) <= n)%nat) as Htake.
  { induction n as [|n IH]; intros [|c t]; simpl; try lia.
    specialize (IH t); lia. }
  specialize (Htake (2048 - 1)%nat text).
  change (2048 - 1)%nat with 2047%nat in *; lia.
Qed.

Lemma install_command_fits : (String.length install_command <= 2111)%nat.
Proof. apply Nat.leb_le; vm_compute; reflexivity. Qed.

End Commands.

(** ** The stages, one by one *)

Module Stages.

Import Rules.

Ltac call L :=
  let H := fresh "H" in
  eapply spec_conseq; [apply L | intros ? ? H; cbv beta in H |- *].

(** Stepping with the loop rule for predicate [p]. *)
Ltac step_with p :=
  first
    [ step
    | lazymatch goal with
      | |- spec (for_each _ _) _ =>
          eapply spec_conseq;
          [ let Hin := fresh "Hin" in
            apply (spec_for_each p); intros ? Hin; cbn in Hin;
            repeat (destruct Hin as [<-|Hin]); try contradiction;
            repeat step; all_events
          | let H := fresh "H" in intros ? ? H; cbv beta in H |- * ]
      end ].

Ltac background_leaf :=
  cbv beta;
  first [ all_events
        | split; [ all_events
                 | intro; try discriminate; vm_compute; reflexivity ] ].

Lemma check_dependencies_background (w : World) :
  spec (check_dependencies w) (fun _ evs => forallb background evs = true).
Proof. unfold check_dependencies; steps; background_leaf. Qed.

Lemma check_root_permissions_background (w : World) :
  spec (check_root_permissions w)
       (fun _ evs => forallb background evs = true).
Proof. unfold check_root_permissions; steps; background_leaf. Qed.

Lemma setup_build_environment_background (w : World) :
  spec (setup_build_environment w)
       (fun _ evs => forallb background evs = true).
Proof. unfold setup_build_environment; steps; background_leaf. Qed.

Lemma install_prerequisites_background (w : World) :
  spec (install_prerequisites w)
       (fun _ evs => forallb background evs = true).
Proof. unfold install_prerequisites; steps; background_leaf. Qed.

Lemma download_kernel_source_background (w : World) (c : build_config_t) :
  spec (download_kernel_source w c)
       (fun r evs =>
          forallb background evs = true /\
          (r = 0 ->
           logged "SUCCESS" "Kernel source downloaded successfully" evs
           = true)).
Proof. unfold download_kernel_source; steps; background_leaf. Qed.

Lemma download_ubuntu_rockchip_patches_background (w : World) :
  spec (download_ubuntu_rockchip_patches w)
       (fun _ evs => forallb background evs = true).
Proof. unfold download_ubuntu_rockchip_patches; steps; background_leaf. Qed.

Lemma configure_kernel_background (w : World) (c : build_config_t) :
  spec (configure_kernel w c)
       (fun r evs =>
          forallb background evs = true /\
          (r = 0 ->
           logged "SUCCESS"
             "Kernel configured successfully with Mali GPU support" evs
           = true)).
Proof.
  unfold configure_kernel; repeat step_with background.
  all: cbv beta; split;
    [ all_events | intro; try discriminate; find_log ].
Qed.

Lemma build_kernel_background (w : World) (c : build_config_t) :
  spec (build_kernel w c)
       (fun r evs =>
          forallb background evs = true /\
          (r = 0 ->
           logged "SUCCESS"
             "Kernel built successfully with Mali GPU support" evs = true)).
Proof. unfold build_kernel; steps; background_leaf. Qed.

Lemma install_kernel_background (w : World) (c : build_config_t) :
  spec (install_kernel w c)
       (fun r evs =>
          forallb background evs = true /\
          (r = 0 ->
           logged "SUCCESS"
             "Kernel installed successfully with Mali GPU support" evs
           = true)).
Proof. unfold install_kernel; steps; background_leaf. Qed.

Lemma cleanup_build_background (w : World) (c : build_config_t) :
  spec (cleanup_build w c) (fun _ evs => forallb background evs = true).
Proof. unfold cleanup_build; steps; background_leaf. Qed.

(** *** The GPU stages *)

Lemma install_mali_drivers_ordinary (w : World) (c : build_config_t) :
  spec (install_mali_drivers w c)
       (fun _ evs => forallb ordinary evs = true).
Proof.
  unfold install_mali_drivers. repeat step_with ordinary. all: all_events.
Qed.

Lemma setup_opencl_support_ordinary (w : World) (c : build_config_t) :
  spec (setup_opencl_support w c)
       (fun _ evs => forallb ordinary evs = true).
Proof. unfold setup_opencl_support; steps; all_events. Qed.

Lemma setup_vulkan_support_ordinary (w : World) (c : build_config_t) :
  spec (setup_vulkan_support w c)
       (fun _ evs => forallb ordinary evs = true).
Proof. unfold setup_vulkan_support; steps; all_events. Qed.

Lemma verify_gpu_installation_not_fetch (w : World) :
  spec (verify_gpu_installation w)
       (fun _ evs => forallb not_fetch evs = true).
Proof. unfold verify_gpu_installation; steps; all_events. Qed.

Lemma download_mali_blobs_outcome (w : World) (c : build_config_t) :
  spec (download_mali_blobs w c)
       (fun r evs =>
          forallb not_verification evs = true /\ fetch_outcome (-1) r evs).
Proof.
  unfold download_mali_blobs. steps.
  all: (split; [all_events|]).
  all: (vm_compute; auto).
  all: split; [reflexivity | intro Hs; exfalso; apply Hs; reflexivity].
Qed.

End Stages.

(** ** Every echoed command goes through [tee] *)

Module EchoFacts.

Import Rules Commands Stages.

Lemma echo_then_tee_app (l1 l2 : list event) :
  echo_then_tee l1 -> echo_then_tee l2 -> echo_then_tee (l1 ++ l2).
Proof.
  intros H1 H2; induction H1; cbn [app];
    [assumption | apply ett_pair | apply ett_other]; assumption.
Qed.

(** A loop whose every round keeps a property of event lists that holds of
    the empty list and of concatenations. *)
Lemma spec_for_each_closed {A} (P : list event -> Prop) (xs : list A)
      (body : A -> M unit) :
  P [] -> (forall l1 l2, P l1 -> P l2 -> P (l1 ++ l2)%list) ->
  (forall x, In x xs -> spec (body x) (fun _ evs => P evs)) ->
  spec (for_each xs body) (fun _ evs => P evs).
Proof.
  intros Hnil Happ; induction xs as [|x xs IH]; intro H; simpl.
  - apply spec_ret; exact Hnil.
  - apply spec_bind.
    eapply spec_conseq; [apply H; now left|]; intros ? e1 H1; cbv beta in H1.
    eapply spec_conseq; [apply IH; intros; apply H; now right|].
    intros ? e2 H2; cbv beta in H2; apply Happ; assumption.
Qed.

Ltac fits :=
  first [ apply formatted_command_fits
        | apply install_command_fits
        | apply Nat.leb_le; vm_compute; reflexivity ].

Ltac uncut :=
  repeat match goal with
         | |- context [composed ?c true] => rewrite (composed_tee c) by fits
         end.

Ltac pairs :=
  cbv beta; rewrite <- ?app_assoc; cbn [app echoed]; uncut;
  repeat first
    [ apply ett_nil
    | assumption
    | apply ett_pair
    | apply ett_other; [reflexivity|]
    | apply echo_then_tee_app; [assumption|]
    | progress (rewrite <- ?app_assoc; cbn [app]) ].

Ltac step_pairs :=
  first
    [ step
    | lazymatch goal with
      | |- spec (for_each _ _) _ =>
          eapply spec_conseq;
          [ apply (spec_for_each_closed echo_then_tee);
            [ apply ett_nil
            | apply echo_then_tee_app
            | intros ? ?; repeat step; pairs ]
          | let H := fresh "H" in intros ? ? H; cbv beta in H |- * ]
      end ].

Ltac by_pairs := repeat step_pairs; pairs.

Lemma check_dependencies_pairs (w : World) :
  spec (check_dependencies w) (fun _ evs => echo_then_tee evs).
Proof. unfold check_dependencies; by_pairs. Qed.

Lemma check_root_permissions_pairs (w : World) :
  spec (check_root_permissions w) (fun _ evs => echo_then_tee evs).
Proof. unfold check_root_permissions; by_pairs. Qed.

Lemma setup_build_environment_pairs (w : World) :
  spec (setup_build_environment w) (fun _ evs => echo_then_tee evs).
Proof. unfold setup_build_environment; by_pairs. Qed.

Lemma install_prerequisites_pairs (w : World) :
  spec (install_prerequisites w) (fun _ evs => echo_then_tee evs).
Proof. unfold install_prerequisites; by_pairs. Qed.

Lemma download_kernel_source_pairs (w : World) (c : build_config_t) :
  spec (download_kernel_source w c) (fun _ evs => echo_then_tee evs).
Proof. unfold download_kernel_source; by_pairs. Qed.

Lemma download_ubuntu_rockchip_patches_pairs (w : World) :
  spec (download_ubuntu_rockchip_patches w) (fun _ evs => echo_then_tee evs).
Proof. unfold download_ubuntu_rockchip_patches; by_pairs. Qed.

Lemma download_mali_blobs_pairs (w : World) (c : build_config_t) :
  spec (download_mali_blobs w c) (fun _ evs => echo_then_tee evs).
Proof. unfold download_mali_blobs; by_pairs. Qed.

Lemma install_mali_drivers_pairs (w : World) (c : build_config_t) :
  spec (install_mali_drivers w c) (fun _ evs => echo_then_tee evs).
Proof. unfold install_mali_drivers; by_pairs. Qed.

Lemma setup_opencl_support_pairs (w : World) (c : build_config_t) :
  spec (setup_opencl_support w c) (fun _ evs => echo_then_tee evs).
Proof. unfold setup_opencl_support; by_pairs. Qed.

Lemma setup_vulkan_support_pairs (w : World) (c : build_config_t) :
  spec (setup_vulkan_support w c) (fun _ evs => echo_then_tee evs).
Proof. unfold setup_vulkan_support; by_pairs. Qed.

Lemma configure_kernel_pairs (w : World) (c : build_config_t) :
  spec (configure_kernel w c) (fun _ evs => echo_then_tee evs).
Proof. unfold configure_kernel; by_pairs. Qed.

Lemma build_kernel_pairs (w : World) (c : build_config_t) :
  spec (build_kernel w c) (fun _ evs => echo_then_tee evs).
Proof. unfold build_kernel; by_pairs. Qed.

Lemma install_kernel_pairs (w : World) (c : build_config_t) :
  spec (install_kernel w c) (fun _ evs => echo_then_tee evs).
Proof. unfold install_kernel; by_pairs. Qed.

Lemma verify_gpu_installation_pairs (w : World) :
  spec (verify_gpu_installation w) (fun _ evs => echo_then_tee evs).
Proof. unfold verify_gpu_installation; by_pairs. Qed.

Lemma cleanup_build_pairs (w : World) (c : build_config_t) :
  spec (cleanup_build w c) (fun _ evs => echo_then_tee evs).
Proof. unfold cleanup_build; by_pairs. Qed.

Ltac stage_pairs :=
  lazymatch goal with
  | |- spec (check_dependencies _) _ => call check_dependencies_pairs
  | |- spec (check_root_permissions _) _ => call check_root_permissions_pairs
  | |- spec (setup_build_environment _) _ =>
      call setup_build_environment_pairs
  | |- spec (install_prerequisites _) _ => call install_prerequisites_pairs
  | |- spec (download_kernel_source _ _) _ =>
      call download_kernel_source_pairs
  | |- spec (download_ubuntu_rockchip_patches _) _ =>
      call download_ubuntu_rockchip_patches_pairs
  | |- spec (configure_kernel _ _) _ => call configure_kernel_pairs
  | |- spec (build_kernel _ _) _ => call build_kernel_pairs
  | |- spec (install_kernel _ _) _ => call install_kernel_pairs
  | |- spec (cleanup_build _ _) _ => call cleanup_build_pairs
  | |- spec (download_mali_blobs _ _) _ => call download_mali_blobs_pairs
  | |- spec (install_mali_drivers _ _) _ => call install_mali_drivers_pairs
  | |- spec (setup_opencl_support _ _) _ => call setup_opencl_support_pairs
  | |- spec (setup_vulkan_support _ _) _ => call setup_vulkan_support_pairs
  | |- spec (verify_gpu_installation _) _ =>
      call verify_gpu_installation_pairs
  | |- spec (pipeline _ _) _ => unfold pipeline
  | |- spec (gpu_stages _ _ _) _ => unfold gpu_stages
  | |- spec (install_stages _ _ _) _ => unfold install_stages
  end.

Lemma main_pairs (w : World) (argv : list string) :
  spec (main w argv) (fun _ evs => echo_then_tee evs).
Proof.
  unfold main; repeat first [stage_pairs | step].
  all: pairs.
Qed.

End EchoFacts.

Module StageClaims.

Import Rules Commands Stages EchoFacts CStrFacts.





(** [execute_command] with [show_output] true, on a command that leaves
    room for the suffix in [log_cmd]. *)
Lemma execute_command_show_output
    (w : World) (cmd : string) (st : State) :
  (String.length cmd <= 2111)%nat ->
  let h := (trace st ++ [EEcho cmd])%list in
  let status := w_system w h (tee_line cmd) in
  let r := fst (execute_command w cmd true st) in
  trace (snd (execute_command w cmd true st)) =
    (h ++ ESystem (tee_line cmd) status ::
       (if status =? 0 then []
        else [ELog (log_fp st) "ERROR" "Command failed"]))%list /\
  (r = 0 <-> status = 0) /\
  (r = -1 <-> status <> 0) /\
  (forall last_status, pipeline_reports_last w last_status ->
     (r = 0 <-> last_status h ("tee -a " ++ LOG_FILE) = 0)).
Proof.
  intros Hlen h status r.
  assert (fst (execute_command w cmd true st) =
            (if status =? 0 then 0 else -1) /\
          trace (snd (execute_command w cmd true st)) =
            (h ++ ESystem (tee_line cmd) status ::
               (if status =? 0 then []
                else [ELog (log_fp st) "ERROR" "Command failed"]))%list)
    as [Hr Ht].
  { unfold execute_command, bind, emit, ret, c_system, ask, log_message,
      get_log_fp; cbn [trace log_fp fst snd].
    fold (composed cmd true); rewrite (composed_tee cmd Hlen).
    fold h; fold status.
    unfold nonzero; destruct (status =? 0); cbn; rewrite <- ?app_assoc;
      split; reflexivity. }
  assert (r = 0 <-> status = 0) as H0.
  { subst r; rewrite Hr; destruct (Z.eqb_spec status 0); split; congruence. }
  split; [exact Ht|]; split; [exact H0|]; split.
  - subst r; rewrite Hr; destruct (Z.eqb_spec status 0); split; congruence.
  - intros last_status Hrule; rewrite H0; subst status.
    unfold tee_line.
    replace (cmd ++ " 2>&1 | tee -a " ++ LOG_FILE)
      with ((cmd ++ " 2>&1") ++ " | " ++ ("tee -a " ++ LOG_FILE))
      by (rewrite append_assoc; reflexivity).
    rewrite Hrule by reflexivity; reflexivity.
Qed.

Lemma after_last_bar_app (l r : string) :
  after_last_bar r = None ->
  after_last_bar (l ++ " | " ++ r) = Some (" " ++ r).
Proof.
  intro H; induction l as [|c l IH]; cbn [append after_last_bar].
  - cbn; rewrite H; reflexivity.
  - change (after_last_bar (l ++ String " " (String "|" (String " " r))))
      with (after_last_bar (l ++ " | " ++ r)).
    rewrite IH; reflexivity.
Qed.

Lemma piping_world_obeys : pipeline_reports_last piping_world tee_status.
Proof.
  intros h l r H; cbn [w_system piping_world].
  rewrite (after_last_bar_app l r H); reflexivity.
Qed.

(** Claim C3.  In every run of the program, every command echoed (that is,
    every command run through [execute_command] with [show_output] true) is
    at once handed to [system] with [" 2>&1 | tee -a /tmp/kernel_build.log"]
    appended, uncut.  And on any command [cmd] that leaves room for that
    suffix in [log_cmd] (at most 2111 characters), [execute_command] with
    [show_output] true echoes [cmd], hands the composed line to [system],
    logs "Command failed" when the status is not 0, and returns 0 exactly
    when the status [system] reported is 0 and -1 otherwise.  Under the
    shell's rule that a pipeline reports the status of its last command,
    the result is therefore 0 exactly when [tee], the log append, ended
    with status 0: the status of the wrapped command plays no part. *)
Theorem execute_command_reports_tee_status (w : World) :
  (forall argv, echo_then_tee (trace (snd (run w argv)))) /\
  (forall cmd st,
     (String.length cmd <= 2111)%nat ->
     let h := (trace st ++ [EEcho cmd])%list in
     let status := w_system w h (tee_line cmd) in
     let r := fst (execute_command w cmd true st) in
     trace (snd (execute_command w cmd true st)) =
       (h ++ ESystem (tee_line cmd) status ::
          (if status =? 0 then []
           else [ELog (log_fp st) "ERROR" "Command failed"]))%list /\
     (r = 0 <-> status = 0) /\
     (r = -1 <-> status <> 0) /\
     (forall last_status, pipeline_reports_last w last_status ->
        (r = 0 <-> last_status h ("tee -a " ++ LOG_FILE) = 0))).
Proof.
  split.
  - intro argv; unfold run.
    destruct (main_pairs w argv initial_state) as (evs & He & Hp).
    cbn [trace initial_state app] in He; rewrite He; exact Hp.
  - intros cmd st Hlen; apply execute_command_show_output; exact Hlen.
Qed.

Lemma execute_command_reports_tee_status_witness :
  (String.length "make dtbs_install" <= 2111)%nat /\
  fst (execute_command piping_world "make dtbs_install" true initial_state)
  = 0.
Proof.
  split; [apply Nat.leb_le; reflexivity|].
  destruct (execute_command_reports_tee_status piping_world) as [_ H].
  specialize (H "make dtbs_install" initial_state
                ltac:(apply Nat.leb_le; reflexivity)).
  cbv zeta in H; destruct H as (_ & _ & _ & H).
  apply (H tee_status piping_world_obeys); reflexivity.
Defined.





(** Turning the recorded tests on answers into the answers. *)
Ltac answers :=
  repeat match goal with
         | H : negb ?a = true |- _ => apply negb_true_iff in H; subst a
         | H : negb ?a = false |- _ => apply negb_false_iff in H; subst a
         | H : nonzero ?a = false |- _ => apply nonzero_false in H; subst a
         | H : nonzero ?a = true |- _ => apply nonzero_true in H
         end.






(** The verification stage fails exactly when it finds the firmware or
    the driver library missing. *)
Lemma verify_gpu_installation_result (w : World) :
  spec (verify_gpu_installation w)
    (fun r evs =>
       (r = 0 \/ r = -1) /\
       (r = -1 <->
        existsb (is_access mali_firmware false) evs
        || existsb (is_access mali_driver false) evs = true)).
Proof.
  unfold verify_gpu_installation; steps; answers.
  all: vm_compute.
  all: repeat split; intros; try discriminate; auto.
Qed.


(** Claim C10.  In [configure_kernel], when [.config] cannot be opened for
    appending the stage still returns 0: nothing is written to the file,
    the event right after the failed [fopen] is the echo of
    [make olddefconfig] (no warning or error is logged for it), and the
    success line is logged.  When the file is opened, what is written is
    the fixed directive block; without a successful open nothing is
    written.  A return value of 0 therefore does not tell whether the
    block is in the file. *)
Theorem directive_block_skipped_silently
    (w : World) (c : build_config_t) :
  spec (configure_kernel w c) directive_outcome.
Proof.
  unfold configure_kernel, config_options; cbn [for_each].
  steps.
  all: answers; unfold directive_outcome.
  all: vm_compute.
  all: repeat split; intros; try discriminate; auto.
Qed.

Lemma directive_block_skipped_silently_witness :
  let result := configure_kernel locked_config_world default_config
                  initial_state in
  fst result = 0 /\
  file_output ".config" (trace (snd result)) = "" /\
  logged "SUCCESS" "Kernel configured successfully with Mali GPU support"
    (trace (snd result)) = true.
Proof.
  cbv zeta.
  destruct (directive_block_skipped_silently locked_config_world
              default_config initial_state) as (evs & Ht & Hfail & _).
  cbn [trace initial_state app] in Ht; rewrite Ht.
  assert (existsb config_append_failed evs = true) as Hclosed
    by (rewrite <- Ht; vm_compute; reflexivity).
  destruct (Hfail Hclosed) as (Hr & Hout & _ & Hlog).
  split; [exact Hr | split; [exact Hout | exact Hlog]].
Defined.

End StageClaims.


Module TraceFacts.

Lemma forallb_impl (p q : event -> bool) (l : list event) :
  (forall e, p e = true -> q e = true) ->
  forallb p l = true -> forallb q l = true.
Proof.
  intros Hpq; induction l as [|e l IH]; cbn; [reflexivity|].
  intro H; apply andb_prop in H; destruct H as [He Hl].
  rewrite (Hpq e He), (IH Hl); reflexivity.
Qed.

Lemma forallb_negb_existsb (p : event -> bool) (l : list event) :
  forallb (fun e => negb (p e)) l = true -> existsb p l = false.
Proof.
  induction l as [|e l IH]; cbn; [reflexivity|].
  intro H; apply andb_prop in H; destruct H as [He Hl].
  apply negb_true_iff in He; rewrite He, (IH Hl); reflexivity.
Qed.

Lemma fetch_is_gpu (e : event) :
  is_firmware_fetch e = true -> gpu_stage_event e = true.
Proof.
  destruct e; cbn; try discriminate.
  unfold streq; intro H; apply String.eqb_eq in H; subst cmd; reflexivity.
Qed.

Lemma background_not_gpu (e : event) :
  background e = true -> not_gpu e = true.
Proof. unfold background, not_gpu; intro H; apply andb_prop in H; tauto. Qed.

Lemma background_not_verification (e : event) :
  background e = true -> not_verification e = true.
Proof.
  unfold background, not_verification; intro H; apply andb_prop in H; tauto.
Qed.

Lemma background_not_fetch (e : event) :
  background e = true -> not_fetch e = true.
Proof.
  intro H; apply background_not_gpu in H; unfold not_gpu, not_fetch in *.
  destruct (is_firmware_fetch e) eqn:E; [|reflexivity].
  rewrite (fetch_is_gpu e E) in H; discriminate.
Qed.

Lemma ordinary_not_fetch (e : event) :
  ordinary e = true -> not_fetch e = true.
Proof. unfold ordinary, not_fetch; intro H; apply andb_prop in H; tauto. Qed.

Lemma ordinary_not_verification (e : event) :
  ordinary e = true -> not_verification e = true.
Proof.
  unfold ordinary, not_verification; intro H; apply andb_prop in H; tauto.
Qed.

Lemma after_fetch_app (l1 l2 : list event) :
  after_fetch (l1 ++ l2) =
  match after_fetch l1 with
  | Some (s, q) => Some (s, (q ++ l2)%list)
  | None => after_fetch l2
  end.
Proof.
  induction l1 as [|e l1 IH]; [reflexivity|].
  cbn [app after_fetch]; destruct e; try exact IH.
  destruct (streq cmd firmware_fetch); [reflexivity | exact IH].
Qed.

Lemma after_fetch_none (l : list event) :
  forallb not_fetch l = true -> after_fetch l = None.
Proof.
  induction l as [|e l IH]; [reflexivity|].
  cbn [forallb after_fetch]; intro H; apply andb_prop in H.
  destruct H as [He Hl]; destruct e; try (apply IH; exact Hl).
  unfold not_fetch, is_firmware_fetch in He.
  destruct (streq cmd firmware_fetch); [discriminate | apply IH; exact Hl].
Qed.

Lemma after_fetch_skip (l1 l2 : list event) :
  forallb not_fetch l1 = true -> after_fetch (l1 ++ l2) = after_fetch l2.
Proof.
  intro H; rewrite after_fetch_app, (after_fetch_none l1 H); reflexivity.
Qed.

(** If nothing is fetched after the first fetch, any fetch of the trace is
    the first one. *)
Lemma after_fetch_unique (pre post q : list event) (status s : Z) :
  after_fetch (pre ++ ESystem firmware_fetch status :: post) = Some (s, q) ->
  forallb not_fetch q = true ->
  s = status /\ q = post.
Proof.
  induction pre as [|e pre IH]; intros H Hq.
  - cbn in H; injection H as -> ->; auto.
  - cbn [app after_fetch] in H; destruct e; try (apply IH; assumption).
    destruct (streq cmd firmware_fetch) eqn:E; [|apply IH; assumption].
    injection H as -> <-.
    rewrite forallb_app in Hq; apply andb_prop in Hq; destruct Hq as [_ Hq].
    cbn in Hq; discriminate.
Qed.

Lemma after_fetch_found (pre post : list event) (status : Z) :
  after_fetch (pre ++ ESystem firmware_fetch status :: post) <> None.
Proof.
  induction pre as [|e pre IH]; [cbn; discriminate|].
  cbn [app after_fetch]; destruct e; try exact IH.
  destruct (streq cmd firmware_fetch); [discriminate | exact IH].
Qed.

End TraceFacts.

(** ** Reasoning with what is known of the environment *)

Module Answers.

Import Rules Commands CStrFacts Stages EchoFacts StageClaims.

(** An oracle whose answer to this question is known. *)
Lemma spec_ask_known {A} (q : list event -> A) (e : A -> event) (a : A)
      (Q : A -> list event -> Prop) :
  (forall h, q h = a) -> Q a [e a] -> spec (ask q e) Q.
Proof.
  intros Hq H st; exists [e a]; unfold ask; cbn [fst snd trace].
  rewrite Hq; auto.
Qed.

(** [execute_command] on a line whose status is known. *)
Lemma spec_execute_command_known (w : World) (cmd : string) (show : bool)
      (s : Z) (Q : Z -> list event -> Prop) :
  (forall h, w_system w h (composed cmd show) = s) ->
  (nonzero s = false ->
   Q 0 (echoed cmd show ++ [ESystem (composed cmd show) s])%list) ->
  (nonzero s = true -> forall to_file,
   Q (-1) (echoed cmd show ++
           [ESystem (composed cmd show) s;
            ELog to_file "ERROR" "Command failed"])%list) ->
  spec (execute_command w cmd show) Q.
Proof.
  intros Hs H0 H1; unfold execute_command.
  apply spec_bind.
  assert (spec
    (if show
     then bind (emit (EEcho cmd))
            (fun _ => ret (snprintf (MAX_CMD_LEN + 100)
                             (cmd ++ " 2>&1 | tee -a " ++ LOG_FILE)))
     else ret (snprintf (MAX_CMD_LEN + 100)
                 (cmd ++ " >> " ++ LOG_FILE ++ " 2>&1")))
    (fun line evs => line = composed cmd show /\ evs = echoed cmd show))
    as Hline.
  { destruct show; simpl.
    - apply spec_bind, spec_emit, spec_ret; auto.
    - apply spec_ret; auto. }
  eapply spec_conseq; [exact Hline|].
  intros line evs [-> ->].
  apply spec_bind.
  apply (spec_ask_known _ _ s); [exact Hs|].
  destruct (nonzero s) eqn:E.
  - apply spec_bind, spec_log_message; intro b.
    apply spec_ret; rewrite app_nil_r; exact (H1 eq_refl b).
  - apply spec_ret; rewrite app_nil_r; exact (H0 eq_refl).
Qed.

(** With a working [tee], every line piped through it is reported with
    status 0. *)
Lemma tee_line_reports_zero (w : World) (cmd : string) :
  tee_works w -> forall h, w_system w h (tee_line cmd) = 0.
Proof.
  intros (last_status & Hrule & Htee) h.
  unfold tee_line.
  change (cmd ++ " 2>&1 | tee -a " ++ LOG_FILE)
    with (cmd ++ " 2>&1" ++ " | " ++ ("tee -a " ++ LOG_FILE)).
  rewrite <- append_assoc.
  rewrite (Hrule h (cmd ++ " 2>&1") ("tee -a " ++ LOG_FILE) eq_refl).
  apply Htee.
Qed.

Lemma spec_execute_command_masked (w : World) (cmd : string)
      (Q : Z -> list event -> Prop) :
  tee_works w ->
  (String.length cmd <= 2111)%nat ->
  Q 0 [EEcho cmd; ESystem (tee_line cmd) 0] ->
  spec (execute_command w cmd true) Q.
Proof.
  intros Hw Hlen H.
  apply (spec_execute_command_known w cmd true 0).
  - intro h; rewrite (composed_tee cmd Hlen).
    apply tee_line_reports_zero; exact Hw.
  - intros _; rewrite (composed_tee cmd Hlen); exact H.
  - intro E; discriminate E.
Qed.

Lemma piping_world_tee_works : tee_works piping_world.
Proof. exists tee_status; split; [apply piping_world_obeys | reflexivity]. Qed.

(** Answering from the hypotheses about the environment. *)
Ltac known :=
  let h := fresh "h" in
  intro h; cbv beta;
  match goal with
  | H : forall _, _ = _ |- _ => apply H
  end.

Ltac ask_known :=
  first [ eapply spec_ask_known; [known|]
        | apply spec_ask; intro ].

(** One step, using what is known of the environment. *)
Ltac kstep :=
  cbv beta;
  lazymatch goal with
  | |- spec (c_stat _ _) _ => ask_known
  | |- spec (c_mkdir _ _) _ => ask_known
  | |- spec (c_chdir _ _) _ => ask_known
  | |- spec (c_access _ _) _ => ask_known
  | |- spec (c_fopen _ _ _) _ => ask_known
  | |- spec (c_popen_line _ _) _ => ask_known
  | |- spec (c_geteuid _) _ => ask_known
  | |- spec (execute_command _ _ true) _ =>
      first [ apply spec_execute_command_masked; [assumption | fits |]
            | eapply spec_execute_command_known;
              [ uncut; known | intros ? | intros ? ? ]
            | step ]
  | |- spec (execute_command _ _ false) _ =>
      first [ eapply spec_execute_command_known;
              [ known | intros ? | intros ? ? ]
            | step ]
  | _ => step
  end.

Ltac ksteps := repeat kstep; cbv beta.

Ltac logs :=
  unfold logged; rewrite ?existsb_app; vm_compute; reflexivity.

(** The verification stage, against the files that are there. *)
Lemma verify_gpu_installation_report (w : World) (firmware driver : bool) :
  (forall h, w_access w h mali_firmware = firmware) ->
  (forall h, w_access w h mali_driver = driver) ->
  spec (verify_gpu_installation w)
    (fun r evs =>
       r = (if firmware && driver then 0 else -1) /\
       logged "ERROR" "Mali firmware not found" evs = negb firmware /\
       logged "ERROR" "Mali driver library not found" evs =
         (firmware && negb driver)).
Proof.
  intros Hf Hd; unfold verify_gpu_installation.
  destruct firmware, driver; ksteps.
  all: split; [reflexivity|]; split; logs.
Qed.

End Answers.

(** ** The stages against their scripts *)

Module Scripts.

Import Rules Commands CStrFacts Stages EchoFacts StageClaims Answers.

Lemma moves_app (l1 l2 : list event) :
  moves (l1 ++ l2) = (moves l1 ++ moves l2)%list.
Proof. apply flat_map_app. Qed.

Lemma moves_none (l : list event) :
  forallb motionless l = true -> moves l = [].
Proof.
  induction l as [|e l IH]; [reflexivity|].
  cbn [forallb moves flat_map]; intro H; apply andb_prop in H as [He Hl].
  fold (moves l); rewrite (IH Hl).
  unfold motionless in He; destruct (move_of e); [reflexivity|discriminate].
Qed.

(** Taking a match on the moves apart. *)
Ltac cases_of_moves :=
  repeat match goal with
         | H : False |- _ => contradiction H
         | H : _ /\ _ |- _ => destruct H
         | H : false = true |- _ => discriminate H
         | H : true = false |- _ => discriminate H
         | H : match ?m with _ => _ end |- _ =>
             destruct m; cbn [follows app] in *
         | H : if ?b then _ else _ |- _ =>
             destruct b; cbn [follows app] in *
         | H : (_ :: _) = [] |- _ => discriminate H
         | H : ?m = [] |- _ => subst m; cbn [follows app] in *
         end.

(** A script that was completed, followed by another. *)
Lemma follows_app_done (s1 s2 : list script_step) (completed : bool) :
  forall m1 m2,
    follows s1 m1 true -> follows s2 m2 completed ->
    follows (s1 ++ s2) (m1 ++ m2) completed.
Proof.
  induction s1 as [|x s1 IH]; intros m1 m2 H1 H2.
  - destruct H1 as [-> _]; exact H2.
  - destruct x; cbn [follows app] in *; cases_of_moves;
      repeat split; try assumption; apply IH; assumption.
Qed.

(** A script that stopped: nothing of what comes after it is run. *)
Lemma follows_app_stop (s1 s2 : list script_step) :
  forall m1, follows s1 m1 false -> follows (s1 ++ s2) m1 false.
Proof.
  induction s1 as [|x s1 IH]; intros m1 H1.
  - destruct H1 as [_ H]; discriminate H.
  - destruct x; cbn [follows app] in *; cases_of_moves;
      repeat split; try assumption; try reflexivity; apply IH; assumption.
Qed.

(** Leaves of the walk through a stage: the moves against the script. *)
Ltac script_leaf :=
  cbv beta; unfold scripted;
  rewrite <- ?app_assoc; rewrite ?moves_app;
  repeat match goal with
         | H : forallb motionless ?l = true |- _ =>
             rewrite (moves_none l H); clear H
         end;
  cbn [app echoed moves flat_map move_of follows]; uncut;
  repeat match goal with
         | H : ?s <> 0 |- _ => apply (proj2 (nonzero_true s)) in H
         | H : nonzero ?s = _ |- context [nonzero ?s] => rewrite H
         end;
  change (nonzero 0) with false; change (nonzero (-1)) with true;
  cbn [negb follows];
  repeat split;
  try first [ left; reflexivity | right; reflexivity ].

Lemma check_dependencies_script (w : World) :
  spec (check_dependencies w) (scripted dependencies_script).
Proof.
  unfold check_dependencies, dependencies_script; steps; answers;
    script_leaf.
Qed.

Lemma check_root_permissions_script (w : World) :
  spec (check_root_permissions w) (scripted root_script).
Proof. unfold check_root_permissions, root_script; steps; script_leaf. Qed.

Lemma setup_build_environment_script (w : World) :
  spec (setup_build_environment w) (scripted environment_script).
Proof.
  unfold setup_build_environment, environment_script; steps; answers;
    script_leaf.
Qed.

Lemma install_prerequisites_script (w : World) :
  spec (install_prerequisites w) (scripted prerequisites_script).
Proof.
  unfold install_prerequisites, prerequisites_script, build_dep_line;
    steps; answers; script_leaf.
Qed.

Lemma download_mali_blobs_script (w : World) (c : build_config_t) :
  spec (download_mali_blobs w c) (scripted (blobs_script c)).
Proof.
  unfold download_mali_blobs, blobs_script.
  destruct (enable_vulkan c); steps; answers; script_leaf.
Qed.

Lemma download_kernel_source_script (w : World) (c : build_config_t) :
  spec (download_kernel_source w c) (scripted (source_script c)).
Proof.
  unfold download_kernel_source, source_script; steps; answers;
    script_leaf.
Qed.

Lemma download_ubuntu_rockchip_patches_script (w : World) :
  spec (download_ubuntu_rockchip_patches w)
       (fun r evs => r = 0 /\ follows patches_script (moves evs) true).
Proof.
  unfold download_ubuntu_rockchip_patches, patches_script,
    patches_clone_cmd; steps; answers; script_leaf.
Qed.

Lemma configure_kernel_script (w : World) (c : build_config_t) :
  spec (configure_kernel w c) (scripted (configure_script c)).
Proof.
  unfold configure_kernel, configure_script.
  destruct (clean_build c); repeat step_with motionless.
  all: answers; script_leaf.
Qed.

Lemma build_kernel_script (w : World) (c : build_config_t) :
  spec (build_kernel w c) (scripted (build_script c)).
Proof.
  unfold build_kernel, build_script; steps; answers; script_leaf.
Qed.

Lemma install_kernel_script (w : World) (c : build_config_t) :
  spec (install_kernel w c) (scripted (install_script c)).
Proof.
  unfold install_kernel, install_script; steps; answers; script_leaf.
Qed.

Lemma cleanup_build_script (w : World) (c : build_config_t) :
  spec (cleanup_build w c)
       (fun r evs => r = 0 /\ follows (cleanup_script c) (moves evs) true).
Proof.
  unfold cleanup_build, cleanup_script; steps; answers; script_leaf.
Qed.

(** *** With a working [tee] *)

Ltac unnoticed_leaf :=
  cbv beta; unfold unnoticed;
  rewrite <- ?app_assoc;
  cbn [app system_calls flat_map first_lines map];
  first [ split; reflexivity
        | right; split; reflexivity
        | left; split; reflexivity ].

Lemma install_prerequisites_unnoticed (w : World) :
  tee_works w ->
  spec (install_prerequisites w) (unnoticed prerequisites_script).
Proof.
  intro Hw; unfold install_prerequisites, prerequisites_script,
    build_dep_line; ksteps; unnoticed_leaf.
Qed.

Lemma download_mali_blobs_unnoticed (w : World) (c : build_config_t) :
  tee_works w ->
  spec (download_mali_blobs w c)
       (fun r evs =>
          (r = -1 /\ system_calls evs = []) \/
          unnoticed (blobs_script c) r evs).
Proof.
  intro Hw; unfold download_mali_blobs, blobs_script.
  destruct (enable_vulkan c); ksteps; unnoticed_leaf.
Qed.

Lemma build_kernel_unnoticed (w : World) (c : build_config_t) :
  tee_works w -> spec (build_kernel w c) (unnoticed (build_script c)).
Proof.
  intro Hw; unfold build_kernel, build_script; ksteps; unnoticed_leaf.
Qed.


End Scripts.

(** ** Whole runs *)

Module PipelineClaims.

Import Rules Commands CStrFacts Stages EchoFacts StageClaims TraceFacts.
Import Answers Scripts.

Ltac stage :=
  lazymatch goal with
  | |- spec (check_dependencies _) _ => call check_dependencies_background
  | |- spec (check_root_permissions _) _ =>
      call check_root_permissions_background
  | |- spec (setup_build_environment _) _ =>
      call setup_build_environment_background
  | |- spec (install_prerequisites _) _ =>
      call install_prerequisites_background
  | |- spec (download_kernel_source _ _) _ =>
      call download_kernel_source_background
  | |- spec (download_ubuntu_rockchip_patches _) _ =>
      call download_ubuntu_rockchip_patches_background
  | |- spec (configure_kernel _ _) _ => call configure_kernel_background
  | |- spec (build_kernel _ _) _ => call build_kernel_background
  | |- spec (install_kernel _ _) _ => call install_kernel_background
  | |- spec (cleanup_build _ _) _ => call cleanup_build_background
  | |- spec (download_mali_blobs _ _) _ => call download_mali_blobs_outcome
  | |- spec (install_mali_drivers _ _) _ =>
      call install_mali_drivers_ordinary
  | |- spec (setup_opencl_support _ _) _ =>
      call setup_opencl_support_ordinary
  | |- spec (setup_vulkan_support _ _) _ =>
      call setup_vulkan_support_ordinary
  | |- spec (verify_gpu_installation _) _ =>
      call verify_gpu_installation_not_fetch
  | |- spec (pipeline _ _) _ => unfold pipeline
  | |- spec (gpu_stages _ _ _) _ => unfold gpu_stages
  | |- spec (install_stages _ _ _) _ => unfold install_stages
  end.

Ltac through_main := repeat first [stage | step]; cbv beta.

Ltac conjuncts :=
  repeat match goal with
         | H : _ /\ _ |- _ => destruct H
         end.

(** Every segment that a stage contributed, seen through [p]. *)
Ltac segments_as not_p from_background from_ordinary :=
  repeat match goal with
         | H : forallb background ?l = true |- _ =>
             apply (forallb_impl background not_p l from_background) in H
         | H : forallb ordinary ?l = true |- _ =>
             apply (forallb_impl ordinary not_p l from_ordinary) in H
         end.

Lemma main_verification (w : World) (argv : list string) :
  spec (main w argv)
       (fun code evs => existsb verification_event evs = true -> code = 0).
Proof.
  unfold main. through_main.
  all: try (intros _; reflexivity).
  all: conjuncts;
    segments_as not_verification background_not_verification
                ordinary_not_verification.
  all: intro Hex; exfalso;
    assert (existsb verification_event
              ltac:(match type of Hex with existsb _ ?l = _ => exact l end)
            = false) as Hno;
    [ apply forallb_negb_existsb;
      change (fun e => negb (verification_event e)) with not_verification;
      all_events
    | rewrite Hno in Hex; discriminate ].
Qed.


(** Leaves of the walk through [main] for the firmware download. *)
Ltac skip_segments :=
  repeat (rewrite after_fetch_skip
           by first [assumption | vm_compute; reflexivity]).

Ltac fetch_leaf :=
  conjuncts; answers;
  segments_as not_fetch background_not_fetch ordinary_not_fetch;
  unfold fetch_outcome in *;
  rewrite <- ?app_assoc;
  lazymatch goal with
  | Hb : match after_fetch ?b with _ => _ end |- _ =>
      skip_segments;
      rewrite (after_fetch_app b);
      destruct (after_fetch b) as [[s q]|];
      [ destruct Hb as [Hq Hs]; split;
        [ all_events
        | let Hne := fresh "Hne" in
          intro Hne; destruct (Hs Hne) as [Hr Ha];
          first [ discriminate Hr
                | split; [reflexivity | all_events] ] ]
      | rewrite after_fetch_none by all_events; exact I ]
  | _ => rewrite after_fetch_none by all_events; exact I
  end.

Lemma main_fetch (w : World) (argv : list string) :
  spec (main w argv) (fetch_outcome 1).
Proof.
  unfold main. through_main.
  all: fetch_leaf.
Qed.


Lemma firmware_failure_aborts_reported
    (w : World) (argv : list string)
    (pre post : list event) (status : Z) :
  trace (snd (run w argv)) =
    (pre ++ ESystem firmware_fetch status :: post)%list ->
  status <> 0 ->
  fst (run w argv) = 1 /\ forallb abort_report_event post = true.
Proof.
  intros Ht Hs; unfold run in *.
  destruct (main_fetch w argv initial_state) as (evs & He & Hout).
  cbn [trace initial_state app] in He; rewrite He in Ht; subst evs.
  unfold fetch_outcome in Hout.
  destruct (after_fetch _) as [[s q]|] eqn:E.
  - destruct Hout as [Hq Hfail].
    destruct (after_fetch_unique _ _ _ _ _ E Hq) as [-> ->].
    exact (Hfail Hs).
  - exfalso; exact (after_fetch_found _ _ _ E).
Qed.

Lemma full_disk_world_obeys :
  pipeline_reports_last full_disk_world full_disk_status.
Proof.
  intros h l r H; cbn [w_system full_disk_world].
  rewrite (after_last_bar_app l r H); reflexivity.
Qed.

(** Claim C5, what the code does instead.  [download_mali_blobs] treats
    the firmware download as mandatory, but it judges it by the status
    that [system] returns for the line piped through [tee].  First, in
    every run, whatever the environment and the arguments: if that status
    is not 0, the process exits with status 1 and everything after the
    download is the abort report (the error lines, the troubleshooting
    block, closing the log).  Second, under the shell's pipeline rule with
    a working [tee] that status is 0 whatever [wget] does: the stage can
    then fail only before any download (at its directory), and otherwise
    runs every download and returns 0.  Third, in [piping_world], where
    the download, like every command other than [tee], ends with a
    failure, the run of [builder] goes on after it: the firmware is copied
    to [/lib/firmware], the kernel is built and installed, and the process
    exits with status 0. *)
Theorem firmware_failure_goes_unnoticed :
  (forall w argv pre post status,
     trace (snd (run w argv)) =
       (pre ++ ESystem firmware_fetch status :: post)%list ->
     status <> 0 ->
     fst (run w argv) = 1 /\ forallb abort_report_event post = true) /\
  (forall w c,
     tee_works w ->
     spec (download_mali_blobs w c)
          (fun r evs =>
             (r = -1 /\ system_calls evs = []) \/
             unnoticed (blobs_script c) r evs)) /\
  (tee_works piping_world /\
   (forall h,
      tee_status h (snprintf MAX_CMD_LEN firmware_wget_cmd ++ " 2>&1")
      <> 0) /\
   let result := run piping_world ["builder"] in
   fst result = 0 /\
   ran_with firmware_fetch 0 (trace (snd result)) = true /\
   ran_with (tee_line "cp /tmp/mali_install/mali_csffw.bin /lib/firmware/")
            0 (trace (snd result)) = true /\
   ran_with (tee_line "make -j4 Image") 0 (trace (snd result)) = true /\
   ran_with (tee_line "make modules_install") 0 (trace (snd result))
     = true /\
   logged "SUCCESS" "Kernel build process completed successfully!"
          (trace (snd result)) = true).
Proof.
  split; [exact firmware_failure_aborts_reported|].
  split; [exact download_mali_blobs_unnoticed|].
  split; [exact piping_world_tee_works|].
  split; [intro h; vm_compute; discriminate|].
  vm_compute; repeat split; reflexivity.
Qed.

Lemma firmware_failure_goes_unnoticed_witness :
  pipeline_reports_last full_disk_world full_disk_status /\
  (exists pre post,
     trace (snd (run full_disk_world ["builder"])) =
       (pre ++ ESystem firmware_fetch 256 :: post)%list /\
     256 <> 0 /\
     fst (run full_disk_world ["builder"]) = 1 /\
     forallb abort_report_event post = true) /\
  tee_works piping_world /\
  (exists evs,
     (fst (download_mali_blobs piping_world default_config initial_state)
      = -1 /\ system_calls evs = []) \/
     unnoticed (blobs_script default_config)
       (fst (download_mali_blobs piping_world default_config initial_state))
       evs).
Proof.
  split; [exact full_disk_world_obeys|].
  destruct firmware_failure_goes_unnoticed as (Habort & Hmasked & _).
  split.
  - pose (t := trace (snd (run full_disk_world ["builder"]))).
    let v := eval vm_compute in
          (match after_fetch t with
           | Some (_, post) =>
               (firstn (List.length t - List.length post - 1) t, post)
           | None => ([], [])
           end) in
    pose (cut := v).
    exists (fst cut), (snd cut).
    assert (trace (snd (run full_disk_world ["builder"])) =
            (fst cut ++ ESystem firmware_fetch 256 :: snd cut)%list) as Ht
      by (vm_compute; reflexivity).
    split; [exact Ht|]; split; [discriminate|].
    apply (Habort full_disk_world ["builder"] (fst cut) (snd cut) 256 Ht);
      discriminate.
  - split; [exact piping_world_tee_works|].
    destruct (Hmasked piping_world default_config piping_world_tee_works
                initial_state) as (evs & _ & H).
    exists evs; exact H.
Defined.

(** Claim C9.  Let the firmware file and the driver library be there or
    not, throughout the stage.  Then [verify_gpu_installation] returns -1,
    with the matching error logged, when the firmware is missing, or when
    it is there and the library is missing, and 0 when both are there.  In
    every environment its result is 0 or -1, and -1 exactly when one of
    its two probes failed.  And in every run in which the verification
    stage was started, the process exits with status 0, whatever the stage
    found: [main] drops its result, and it only runs once every mandatory
    stage before it has succeeded. *)
Theorem verification_never_fails_the_run
    (w : World) (argv : list string) :
  (forall firmware driver,
     (forall h, w_access w h mali_firmware = firmware) ->
     (forall h, w_access w h mali_driver = driver) ->
     spec (verify_gpu_installation w)
       (fun r evs =>
          r = (if firmware && driver then 0 else -1) /\
          logged "ERROR" "Mali firmware not found" evs = negb firmware /\
          logged "ERROR" "Mali driver library not found" evs =
            (firmware && negb driver))) /\
  spec (verify_gpu_installation w)
    (fun r evs =>
       (r = 0 \/ r = -1) /\
       (r = -1 <->
        existsb (is_access mali_firmware false) evs
        || existsb (is_access mali_driver false) evs = true)) /\
  (existsb verification_event (trace (snd (run w argv))) = true ->
   fst (run w argv) = 0).
Proof.
  split; [intros firmware driver; apply verify_gpu_installation_report|].
  split; [apply verify_gpu_installation_result|].
  unfold run.
  destruct (main_verification w argv initial_state) as (evs & He & Hout).
  cbn [trace initial_state app] in He; rewrite He; exact Hout.
Qed.

Lemma verification_never_fails_the_run_witness :
  let result := run firmware_missing_world ["builder"; "--verify-gpu"] in
  fst (verify_gpu_installation firmware_missing_world initial_state) = -1 /\
  existsb verification_event (trace (snd result)) = true /\
  logged "ERROR" "Mali firmware not found" (trace (snd result)) = true /\
  fst result = 0.
Proof.
  cbv zeta.
  destruct (verification_never_fails_the_run firmware_missing_world
              ["builder"; "--verify-gpu"]) as (Hreport & _ & Hrun).
  split.
  - destruct (Hreport false true (fun _ => eq_refl) (fun _ => eq_refl)
                initial_state) as (evs & _ & Hr & _).
    exact Hr.
  - assert (existsb verification_event
              (trace (snd (run firmware_missing_world
                             ["builder"; "--verify-gpu"]))) = true) as Hv
      by (vm_compute; reflexivity).
    split; [exact Hv|]; split; [vm_compute; reflexivity|].
    exact (Hrun Hv).
Defined.


Lemma default_jobs_keeps_gpu (n : Z) (k : build_config_t) :
  install_gpu_blobs (default_jobs n k) = install_gpu_blobs k.
Proof. unfold default_jobs; destruct (jobs k =? 0); reflexivity. Qed.

Ltac visible_leaf :=
  cbv beta; rewrite ?existsb_app; reflexivity.

Lemma gpu_stages_are_visible (w : World) (c : build_config_t) :
  spec (download_mali_blobs w c)
       (fun _ evs => existsb gpu_stage_event evs = true) /\
  spec (install_mali_drivers w c)
       (fun _ evs => existsb gpu_stage_event evs = true) /\
  (enable_opencl c = true ->
   spec (setup_opencl_support w c)
        (fun _ evs => existsb gpu_stage_event evs = true)) /\
  (enable_vulkan c = true ->
   spec (setup_vulkan_support w c)
        (fun _ evs => existsb gpu_stage_event evs = true)).
Proof.
  split; [|split; [|split]].
  - unfold download_mali_blobs; steps; visible_leaf.
  - unfold install_mali_drivers; repeat step_with ordinary; visible_leaf.
  - intro E; unfold setup_opencl_support; rewrite E; steps; visible_leaf.
  - intro E; unfold setup_vulkan_support; rewrite E; steps; visible_leaf.
Qed.

Ltac known_results :=
  repeat match goal with
         | H : 0 = 0 -> _ |- _ => specialize (H eq_refl)
         end.

Ltac find_known_log :=
  unfold logged in *; repeat rewrite existsb_app;
  let rec search :=
    first [ assumption
          | reflexivity
          | apply orb_true_iff;
            first [ left; solve [search] | right; solve [search] ] ]
  in search.

Lemma main_without_gpu (w : World) (argv : list string) (c : cli_t) :
  parse_args argv = Parsed c ->
  install_gpu_blobs (config c) = false ->
  spec (main w argv) (kernel_only_outcome c).
Proof.
  intros Hparse Hgpu; unfold main, parse_args in *; rewrite Hparse.
  assert (install_gpu_blobs
            (config (on_config (default_jobs (w_nprocs w)) c)) = false)
    as Hg by (cbn [config on_config]; rewrite default_jobs_keeps_gpu;
              exact Hgpu).
  change (no_install (on_config (default_jobs (w_nprocs w)) c))
    with (no_install c).
  set (c' := on_config (default_jobs (w_nprocs w)) c) in *.
  cbv zeta.
  repeat (rewrite ?Hg, ?andb_false_r; cbv iota; first [stage | step]).
  all: cbv beta; unfold kernel_only_outcome; conjuncts; answers;
    known_results; split;
    [ segments_as not_gpu background_not_gpu background_not_gpu;
      all_events
    | try (intro; discriminate) ].
  all: intros _; repeat split; try find_known_log.
  all: let Hni := fresh "Hni" in
       intro Hni;
       first [ find_known_log
             | exfalso; subst c'; cbn [no_install on_config] in *;
               rewrite Hni in *; discriminate ].
Qed.

(** *** A whole run with the GPU flag off, against its script *)

Ltac script_stage :=
  lazymatch goal with
  | |- spec (check_dependencies _) _ => call check_dependencies_script
  | |- spec (check_root_permissions _) _ =>
      call check_root_permissions_script
  | |- spec (setup_build_environment _) _ =>
      call setup_build_environment_script
  | |- spec (install_prerequisites _) _ =>
      call install_prerequisites_script
  | |- spec (download_kernel_source _ _) _ =>
      call download_kernel_source_script
  | |- spec (download_ubuntu_rockchip_patches _) _ =>
      call download_ubuntu_rockchip_patches_script
  | |- spec (configure_kernel _ _) _ => call configure_kernel_script
  | |- spec (build_kernel _ _) _ => call build_kernel_script
  | |- spec (install_kernel _ _) _ => call install_kernel_script
  | |- spec (cleanup_build _ _) _ => call cleanup_build_script
  | |- spec (pipeline _ _) _ => unfold pipeline
  | |- spec (gpu_stages _ _ _) _ => unfold gpu_stages
  | |- spec (install_stages _ _ _) _ => unfold install_stages
  end.

(** The moves of a trace made of the segments of the stages and of the
    messages of [main], which are no moves. *)
Ltac segments_of_moves :=
  rewrite ?moves_app;
  repeat match goal with
         | |- context [moves (?e :: ?l)] =>
             change (moves (e :: l)) with (move_of e ++ moves l)%list;
             cbn [move_of]
         end;
  change (moves []) with (@nil move);
  cbn [app]; rewrite ?app_nil_r.

Ltac compose_scripts :=
  repeat first
    [ assumption
    | apply follows_app_stop; assumption
    | apply follows_app_done; [assumption|]
    | split; reflexivity ].

Lemma main_kernel_script (w : World) (argv : list string) (c : cli_t) :
  parse_args argv = Parsed c ->
  install_gpu_blobs (config c) = false ->
  spec (main w argv)
       (fun code evs =>
          follows (kernel_script (on_config (default_jobs (w_nprocs w)) c))
                  (moves evs) (code =? 0)).
Proof.
  intros Hparse Hgpu; unfold main, parse_args in *; rewrite Hparse.
  assert (install_gpu_blobs
            (config (on_config (default_jobs (w_nprocs w)) c)) = false)
    as Hg by (cbn [config on_config]; rewrite default_jobs_keeps_gpu;
              exact Hgpu).
  set (c' := on_config (default_jobs (w_nprocs w)) c) in *.
  cbv zeta; unfold kernel_script.
  repeat (rewrite ?Hg, ?andb_false_r; cbv iota; first [script_stage | step]).
  all: cbv beta; unfold scripted in *; conjuncts; subst;
    repeat match goal with
           | E : nonzero ?r = _, H : context [nonzero ?r] |- _ =>
               rewrite E in H; cbn [negb] in H
           end;
    change (nonzero 0) with false in *; cbn [negb] in *.
  all: segments_of_moves; change (0 =? 0) with true;
    change (1 =? 0) with false.
  all: compose_scripts.
Qed.

(** Claim C8.  When the parsed configuration has the GPU flag off, no
    effect of the blob download, the driver installation, the OpenCL setup
    or the Vulkan setup occurs anywhere in the run (no log line, shell
    command, directory, descriptor file or probe of theirs).  What the run
    does to the system is the kernel-only script, step by step and with
    nothing else in between: the two preflight checks, the build
    directory and [apt update], the prerequisites, then the kernel source
    (the vendor clone, with the upstream clone as its fallback), the
    patches, the configuration, the three [make] targets of the
    compilation, the seven lines of the installation unless
    [--no-install] was given, and the cleanup if [--cleanup] was.  The run
    exits with status 0 exactly when the script was carried out to its
    end; otherwise it exits with status 1 and stopped at the first step
    that failed.  A run that exits with status 0 has also logged the
    completion of the four kernel stages.  (Each GPU stage that does run
    leaves an effect of its own, so their absence from the trace means
    they did not run.) *)
Theorem gpu_disabled_runs_kernel_stages_only
    (w : World) (argv : list string) (c : cli_t) :
  parse_args argv = Parsed c ->
  install_gpu_blobs (config c) = false ->
  kernel_only_outcome c (fst (run w argv)) (trace (snd (run w argv))) /\
  follows (kernel_script (on_config (default_jobs (w_nprocs w)) c))
          (moves (trace (snd (run w argv)))) (fst (run w argv) =? 0) /\
  (forall k,
     spec (download_mali_blobs w k)
          (fun _ evs => existsb gpu_stage_event evs = true) /\
     spec (install_mali_drivers w k)
          (fun _ evs => existsb gpu_stage_event evs = true) /\
     (enable_opencl k = true ->
      spec (setup_opencl_support w k)
           (fun _ evs => existsb gpu_stage_event evs = true)) /\
     (enable_vulkan k = true ->
      spec (setup_vulkan_support w k)
           (fun _ evs => existsb gpu_stage_event evs = true))).
Proof.
  intros Hparse Hgpu.
  split; [|split; [|intro k; apply gpu_stages_are_visible]]; unfold run.
  - destruct (main_without_gpu w argv c Hparse Hgpu initial_state)
      as (evs & He & Hout).
    cbn [trace initial_state app] in He; rewrite He; exact Hout.
  - destruct (main_kernel_script w argv c Hparse Hgpu initial_state)
      as (evs & He & Hout).
    cbn [trace initial_state app] in He; rewrite He; exact Hout.
Qed.

Lemma gpu_disabled_runs_kernel_stages_only_witness :
  let disabled :=
    on_config (fun k => set_enable_vulkan false
                          (set_enable_opencl false
                             (set_install_gpu_blobs false k)))
      default_cli in
  let result := run happy_world ["builder"; "--disable-gpu"] in
  parse_args ["builder"; "--disable-gpu"] = Parsed disabled /\
  fst result = 0 /\
  forallb not_gpu (trace (snd result)) = true /\
  logged "SUCCESS" "Kernel installed successfully with Mali GPU support"
    (trace (snd result)) = true /\
  follows (kernel_script (on_config (default_jobs 4) disabled))
          (moves (trace (snd result))) true.
Proof.
  cbv zeta.
  split; [reflexivity|].
  assert (fst (run happy_world ["builder"; "--disable-gpu"]) = 0) as Hcode
    by (vm_compute; reflexivity).
  split; [exact Hcode|].
  destruct (gpu_disabled_runs_kernel_stages_only happy_world
              ["builder"; "--disable-gpu"] _ eq_refl eq_refl)
    as ([Hquiet Hdone] & Hscript & _).
  split; [exact Hquiet|].
  split; [apply Hdone; [exact Hcode | reflexivity]|].
  rewrite Hcode in Hscript; exact Hscript.
Defined.

End PipelineClaims.

Module ParserClaims.

Import ParseFacts CStrFacts.

Lemma parsed_after (pre rest : list string) (c c' : cli_t) :
  complete pre = true ->
  parse_loop (pre ++ rest) c = Parsed c' ->
  exists c1, parse_loop pre c = Parsed c1 /\ parse_loop rest c1 = Parsed c'.
Proof.
  intros Hc H; rewrite (parse_loop_app pre rest c Hc) in H.
  destruct (parse_loop pre c) as [c1|]; [eauto | discriminate].
Qed.

Lemma disable_gpu_step (rest : list string) (c : cli_t) :
  parse_loop ("--disable-gpu" :: rest) c =
  parse_loop rest
    (on_config (fun k => set_enable_vulkan false
                           (set_enable_opencl false
                              (set_install_gpu_blobs false k))) c).
Proof. reflexivity. Qed.

Lemma enable_gpu_step (rest : list string) (c : cli_t) :
  parse_loop ("--enable-gpu" :: rest) c =
  parse_loop rest (on_config (set_install_gpu_blobs true) c).
Proof. reflexivity. Qed.

Lemma stays (P : cli_t -> Prop) (a : string)
      (args : list string) (c c' : cli_t) :
  (forall x, negb (streq x a) = true -> preserves P x) ->
  ~ In a args -> P c -> parse_loop args c = Parsed c' -> P c'.
Proof.
  intros Hp Hin; apply (parse_loop_invariant P _ Hp).
  apply absent_not_in; exact Hin.
Qed.

(** Claim C1.  Wherever [--disable-gpu] is read as a flag, the GPU, OpenCL
    and Vulkan flags are false after it; each stays false to the end of
    the loop unless its own enabling flag occurs later.  A later
    [--enable-gpu] read as a flag sets the GPU flag back to true (it stays
    true unless [--disable-gpu] occurs again) and leaves OpenCL and Vulkan
    false unless [--enable-opencl] / [--enable-vulkan] occurs after the
    disabling.  In particular [--disable-gpu --enable-gpu] yields GPU
    true, OpenCL false, Vulkan false. *)
Theorem disable_gpu_forces_opencl_vulkan_off :
  (forall pre post c0 c',
     complete pre = true ->
     parse_loop (pre ++ "--disable-gpu" :: post) c0 = Parsed c' ->
     (~ In "--enable-gpu" post -> install_gpu_blobs (config c') = false) /\
     (~ In "--enable-opencl" post -> enable_opencl (config c') = false) /\
     (~ In "--enable-vulkan" post -> enable_vulkan (config c') = false)) /\
  (forall pre mid post c0 c',
     complete pre = true -> complete mid = true ->
     parse_loop (pre ++ "--disable-gpu" :: mid ++ "--enable-gpu" :: post) c0
     = Parsed c' ->
     (~ In "--disable-gpu" post -> install_gpu_blobs (config c') = true) /\
     (~ In "--enable-opencl" (mid ++ post) ->
      enable_opencl (config c') = false) /\
     (~ In "--enable-vulkan" (mid ++ post) ->
      enable_vulkan (config c') = false)) /\
  (exists c,
     parse_args ["builder"; "--disable-gpu"; "--enable-gpu"] = Parsed c /\
     install_gpu_blobs (config c) = true /\
     enable_opencl (config c) = false /\
     enable_vulkan (config c) = false).
Proof.
  assert (forall pre post c0 c',
     complete pre = true ->
     parse_loop (pre ++ "--disable-gpu" :: post) c0 = Parsed c' ->
     (~ In "--enable-gpu" post -> install_gpu_blobs (config c') = false) /\
     (~ In "--enable-opencl" post -> enable_opencl (config c') = false) /\
     (~ In "--enable-vulkan" post -> enable_vulkan (config c') = false))
    as Hoff.
  { intros pre post c0 c' Hpre H.
    destruct (parsed_after _ _ _ _ Hpre H) as (c1 & _ & H1).
    rewrite disable_gpu_step in H1.
    repeat split; intro Hin.
    - eapply (stays (fun c => install_gpu_blobs (config c) = false)
               "--enable-gpu" post _ c' gpu_stays_off Hin); [|exact H1]; reflexivity.
    - eapply (stays (fun c => enable_opencl (config c) = false)
               "--enable-opencl" post _ c' opencl_stays_off Hin); [|exact H1]; reflexivity.
    - eapply (stays (fun c => enable_vulkan (config c) = false)
               "--enable-vulkan" post _ c' vulkan_stays_off Hin); [|exact H1]; reflexivity. }
  split; [exact Hoff|]; split.
  - intros pre mid post c0 c' Hpre Hmid H.
    split; [|split].
    + intro Hin.
      destruct (parsed_after _ _ _ _ Hpre H) as (c1 & _ & H1).
      rewrite disable_gpu_step in H1.
      destruct (parsed_after _ _ _ _ Hmid H1) as (c2 & _ & H2).
      rewrite enable_gpu_step in H2.
      eapply (stays (fun c => install_gpu_blobs (config c) = true)
               "--disable-gpu" post _ c' gpu_stays_on Hin); [|exact H2]; reflexivity.
    + intro Hin; apply (Hoff pre _ c0 c' Hpre H).
      intro Hin'; apply in_app_or in Hin'; destruct Hin' as [Hin'|[E|Hin']];
        [ | discriminate | ]; apply Hin, in_or_app; auto.
    + intro Hin; apply (Hoff pre _ c0 c' Hpre H).
      intro Hin'; apply in_app_or in Hin'; destruct Hin' as [Hin'|[E|Hin']];
        [ | discriminate | ]; apply Hin, in_or_app; auto.
  - eexists; split; [reflexivity|]; repeat split.
Qed.

Lemma disable_gpu_forces_opencl_vulkan_off_witness :
  complete ["-j"; "2"] = true /\ complete ["--clean"] = true /\
  forall c',
    parse_loop (["-j"; "2"] ++ "--disable-gpu" ::
                ["--clean"] ++ "--enable-gpu" :: ["--verbose"])
               default_cli = Parsed c' ->
    install_gpu_blobs (config c') = true /\
    enable_opencl (config c') = false /\
    enable_vulkan (config c') = false.
Proof.
  split; [reflexivity|]; split; [reflexivity|]; intros c' H.
  destruct disable_gpu_forces_opencl_vulkan_off as (_ & Hon & _).
  destruct (Hon ["-j"; "2"] ["--clean"] ["--verbose"] default_cli c'
              eq_refl eq_refl H) as (Hg & Ho & Hv).
  split; [apply Hg|split; [apply Ho|apply Hv]];
    cbn; intuition discriminate.
Defined.

(** Claim C2, what the code does instead.  A token that is none of the
    flags the loop compares against is skipped: the record is unchanged,
    nothing is printed or logged for it, and the loop goes on with the
    next token.  On [builder --bogus] parsing yields the default
    configuration and the run is the run of [builder] without arguments,
    pipeline included, down to exit status 0 when every stage succeeds. *)
Theorem unrecognized_token_is_skipped :
  (forall a rest c,
     recognized a = false -> parse_loop (a :: rest) c = parse_loop rest c) /\
  parse_args ["builder"; "--bogus"] = Parsed default_cli /\
  run happy_world ["builder"; "--bogus"] = run happy_world ["builder"] /\
  fst (run happy_world ["builder"; "--bogus"]) = 0.
Proof.
  split; [|split; [reflexivity|split; vm_compute; reflexivity]].
  intros a rest c H; rewrite parse_loop_step, (classify_recognized a H).
  reflexivity.
Qed.

Lemma unrecognized_token_is_skipped_witness :
  recognized "--bogus" = false /\
  forall rest c, parse_loop ("--bogus" :: rest) c = parse_loop rest c.
Proof.
  split; [reflexivity|]; intros rest c.
  apply (proj1 unrecognized_token_is_skipped); reflexivity.
Defined.

(** Claim C4, as amended.  When neither [-j] nor [--jobs] occurs among
    the arguments, the job count is the detected processor count.  When
    the last such flag is read as a flag and is followed by the decimal
    text of an integer [n], the job count is what [atoi] stores for it,
    unless that is 0, the mark of "no value given", which the detected
    processor count replaces.  For [n] in the range of [int] the stored
    number is [n] itself: the job count is [n] if [n] is not 0 (so for 1)
    and the processor count if [n] is 0.  Outside that range it is the low
    32 bits of [n] (of the nearest [long] when [n] does not fit one):
    [-j 4294967296] yields the processor count and [-j 2147483648] yields
    -2147483648. *)
Theorem job_count_default_and_literal (nprocs : Z) :
  (forall args c',
     ~ In "-j" args -> ~ In "--jobs" args ->
     parse_loop args default_cli = Parsed c' ->
     jobs (default_jobs nprocs (config c')) = nprocs) /\
  (forall flag pre post n c',
     flag = "-j" \/ flag = "--jobs" ->
     complete pre = true ->
     ~ In "-j" post -> ~ In "--jobs" post ->
     parse_loop (pre ++ flag :: itoa n :: post) default_cli = Parsed c' ->
     let stored := to_int (Z.max LONG_MIN (Z.min LONG_MAX n)) in
     jobs (default_jobs nprocs (config c')) =
       (if stored =? 0 then nprocs else stored) /\
     (INT_MIN <= n <= INT_MAX -> stored = n)) /\
  (exists c,
     parse_args ["builder"; "-j"; "4294967296"] = Parsed c /\
     jobs (default_jobs nprocs (config c)) = nprocs) /\
  (exists c,
     parse_args ["builder"; "-j"; "2147483648"] = Parsed c /\
     jobs (default_jobs nprocs (config c)) = -2147483648).
Proof.
  assert (forall n args c c',
            ~ In "-j" args -> ~ In "--jobs" args ->
            jobs (config c) = n -> parse_loop args c = Parsed c' ->
            jobs (config c') = n) as Hstay.
  { intros n args c c' Hj Hjobs.
    apply (parse_loop_invariant _ _ (jobs_stay n)).
    pose proof (absent_not_in _ _ Hj) as A1.
    pose proof (absent_not_in _ _ Hjobs) as A2.
    unfold absent in *; clear Hj Hjobs.
    induction args as [|x args IH]; [reflexivity|].
    cbn [forallb] in *.
    apply andb_prop in A1; apply andb_prop in A2.
    destruct A1 as [-> A1], A2 as [-> A2]; cbn; auto. }
  split; [|split; [|split]].
  - intros args c' Hj Hjobs H.
    unfold default_jobs.
    assert (jobs (config c') = 0) as Hc'
      by (eapply (Hstay 0 args _ c' Hj Hjobs); [|exact H]; reflexivity).
    rewrite Hc'; reflexivity.
  - intros flag pre post n c' Hflag Hpre Hj Hjobs H stored.
    split; [|intro Hn; subst stored;
             assert (Z.max LONG_MIN (Z.min LONG_MAX n) = n) as ->
               by (unfold INT_MIN, INT_MAX, LONG_MIN, LONG_MAX in *; lia);
             apply to_int_fits; exact Hn].
    destruct (parsed_after _ _ _ _ Hpre H) as (c1 & _ & H1).
    assert (parse_loop (flag :: itoa n :: post) c1 =
            parse_loop post (on_config (set_jobs (atoi (itoa n))) c1)) as E
      by (destruct Hflag; subst flag; reflexivity).
    rewrite E, atoi_itoa_any in H1; fold stored in H1.
    unfold default_jobs.
    assert (jobs (config c') = stored) as Hc'
      by (eapply (Hstay stored post _ c' Hj Hjobs); [|exact H1];
          reflexivity).
    rewrite Hc'.
    destruct (stored =? 0); [reflexivity | exact Hc'].
  - eexists; split; [vm_compute; reflexivity | reflexivity].
  - eexists; split; [vm_compute; reflexivity | reflexivity].
Qed.

Lemma job_count_default_and_literal_witness :
  (~ In "-j" ["--clean"] /\ ~ In "--jobs" ["--clean"] /\
   forall c', parse_loop ["--clean"] default_cli = Parsed c' ->
              jobs (default_jobs 4 (config c')) = 4) /\
  (complete ["--verbose"] = true /\
   forall c',
     parse_loop (["--verbose"] ++ "-j" :: itoa 1 :: ["--clean"])
                default_cli = Parsed c' ->
     jobs (default_jobs 4 (config c')) = 1).
Proof.
  assert (~ In "-j" ["--clean"]) as N1 by (cbn; intuition discriminate).
  assert (~ In "--jobs" ["--clean"]) as N2 by (cbn; intuition discriminate).
  destruct (job_count_default_and_literal 4) as (Hdefault & Hgiven & _).
  split; [split; [exact N1|split; [exact N2|]]|].
  - intros c' H; exact (Hdefault ["--clean"] c' N1 N2 H).
  - split; [reflexivity|].
    intros c' H.
    exact (proj1 (Hgiven "-j" ["--verbose"] ["--clean"] 1 c'
                    (or_introl eq_refl) eq_refl N1 N2 H)).
Defined.

(** The value 0 is not taken literally: it is the mark of "no value
    given", and the processor count replaces it. *)
Lemma job_count_default_and_literal_counterexample :
  match parse_args ["builder"; "-j"; itoa 0] with
  | Parsed c => jobs (default_jobs 4 (config c)) = 4 /\ 4 <> 0
  | HelpExit => False
  end.
Proof. vm_compute; split; [reflexivity | discriminate]. Qed.

End ParserClaims.

(** ** Further properties of the argument loop *)

Module ParserProperties.

Import ParseFacts CStrFacts ParserClaims.

Lemma take_length (n : nat) (s : string) : (String.length (take n s) <= n)%nat.
Proof.
  revert s; induction n as [|n IH]; intros [|c s]; simpl; try lia.
  specialize (IH s); lia.
Qed.

(** Property X1.  As soon as the loop reads [-h] or [--help] as a flag,
    the program prints the header and the usage text and exits with
    status 0: whatever precedes or follows the flag, and in every
    environment, no check is made, no stage runs and the log file is not
    opened. *)
Theorem help_exits_at_once
    (w : World) (prog flag : string) (pre post : list string) :
  flag = "-h" \/ flag = "--help" ->
  complete pre = true ->
  run w (prog :: pre ++ flag :: post) =
  (0, {| trace := [EHeader; EUsage prog]; log_fp := false |}).
Proof.
  intros Hflag Hpre.
  assert (parse_loop (pre ++ flag :: post) default_cli = HelpExit) as Hp.
  { rewrite (parse_loop_app pre _ _ Hpre).
    destruct (parse_loop pre default_cli); [|reflexivity].
    destruct Hflag; subst flag; reflexivity. }
  unfold run, main; cbn [tl hd]; rewrite Hp; reflexivity.
Qed.

Lemma help_exits_at_once_witness :
  complete ["-j"; "--help"; "--clean"] = true /\
  run no_chdir_world ["builder"; "-j"; "--help"; "--clean"; "-h"; "--bogus"] =
  (0, {| trace := [EHeader; EUsage "builder"]; log_fp := false |}).
Proof.
  split; [reflexivity|].
  apply (help_exits_at_once no_chdir_world "builder" "-h"
           ["-j"; "--help"; "--clean"] ["--bogus"]); [now left | reflexivity].
Defined.

Lemma fields_fit_preserved (a : string) : preserves fields_fit a.
Proof.
  unfold preserves, classify.
  token_cases a; cbn -[strncpy_field]; try exact I;
    unfold fields_fit; cbn -[strncpy_field]; intros;
    repeat match goal with H : _ /\ _ |- _ => destruct H end;
    repeat split; try assumption; apply take_length.
Qed.

(** Property X2.  Whatever the command line, every text field of the
    parsed record fits the array that holds it (version 63, build directory
    511, cross compiler 127 and defconfig 63 characters, one byte left for
    the terminator): a longer value is cut, never written past the field.
    The architecture stays [arm64], as no flag sets it. *)
Theorem parsed_fields_fit (argv : list string) (c : cli_t) :
  parse_args argv = Parsed c -> fields_fit c.
Proof.
  unfold parse_args; intro H.
  apply (parse_loop_invariant fields_fit (fun _ => true)
           (fun a _ => fields_fit_preserved a)
           (tl argv) default_cli c); [| |exact H].
  - generalize (tl argv) as l; induction l; cbn; auto.
  - unfold fields_fit; cbn; repeat split; apply Nat.leb_le; reflexivity.
Qed.

Lemma parsed_fields_fit_witness :
  exists c,
    parse_args long_version_argv = Parsed c /\
    kernel_version (config c) =
      "6.8.0-a-version-string-that-is-much-longer-than-the-sixty-three" /\
    fields_fit c.
Proof.
  eexists; split; [reflexivity|]; split; [reflexivity|].
  apply (parsed_fields_fit long_version_argv); reflexivity.
Defined.

(** Property X3.  A flag that takes a value and stands last on the command
    line, with no value after it, is ignored without a message: the result
    is that of the command line without it. *)
Theorem dangling_value_flag_is_ignored
    (pre : list string) (flag : string) (c : cli_t) :
  takes_value flag = true -> complete pre = true ->
  parse_loop (pre ++ [flag]) c = parse_loop pre c.
Proof.
  intros Hflag Hpre; rewrite (parse_loop_app pre _ _ Hpre).
  destruct (parse_loop pre c) as [c1|]; [|reflexivity].
  rewrite parse_loop_step.
  pose proof (classify_takes_value flag) as Hk.
  destruct (classify flag); congruence.
Qed.

Lemma dangling_value_flag_is_ignored_witness :
  takes_value "--jobs" = true /\ complete ["--clean"] = true /\
  parse_loop (["--clean"] ++ ["--jobs"]) default_cli =
  parse_loop ["--clean"] default_cli.
Proof.
  split; [reflexivity|]; split; [reflexivity|].
  apply dangling_value_flag_is_ignored; reflexivity.
Defined.

(** Property X4.  The token after a flag that takes a value is consumed as
    that value, whatever it is: it is never read as a flag, so that a
    switch (or [--help]) in that position sets no switch, and the loop goes
    on with the token after it. *)
Theorem value_is_never_read_as_a_flag
    (flag v : string) (rest : list string) (c : cli_t) :
  takes_value flag = true ->
  exists c',
    parse_loop (flag :: v :: rest) c = parse_loop rest c' /\
    switches c' = switches c.
Proof.
  intro Hflag; rewrite parse_loop_step.
  pose proof (classify_takes_value flag) as Hk.
  unfold classify in *.
  token_cases flag; try (rewrite Hflag in Hk; discriminate Hk);
    eexists; split; reflexivity.
Qed.

Lemma value_is_never_read_as_a_flag_witness :
  takes_value "-d" = true /\
  exists c',
    parse_loop ["-d"; "--help"; "--disable-gpu"] default_cli =
    parse_loop ["--disable-gpu"] c' /\
    switches c' = switches default_cli.
Proof.
  split; [reflexivity|].
  apply (value_is_never_read_as_a_flag "-d" "--help" ["--disable-gpu"]
           default_cli eq_refl).
Defined.

Lemma atoi_no_number (v : string) : no_number v = true -> atoi v = 0.
Proof.
  destruct v as [|c v]; [reflexivity|].
  unfold no_number, atoi, strtol, decimal; cbn [skip_spaces]; intro H.
  apply andb_prop in H as [H Hd]; apply andb_prop in H as [H Hp].
  apply andb_prop in H as [Hs Hm].
  apply negb_true_iff in Hs, Hm, Hp.
  rewrite Hs, Hm, Hp; cbn [atoi_digits].
  destruct (digit_of c); [discriminate Hd | reflexivity].
Qed.

Lemma jobs_kept (n : Z) (args : list string) (c c' : cli_t) :
  ~ In "-j" args -> ~ In "--jobs" args ->
  jobs (config c) = n -> parse_loop args c = Parsed c' ->
  jobs (config c') = n.
Proof.
  intros Hj Hjobs.
  apply (parse_loop_invariant _ _ (jobs_stay n)).
  pose proof (absent_not_in _ _ Hj) as A1.
  pose proof (absent_not_in _ _ Hjobs) as A2.
  unfold absent in *; clear Hj Hjobs.
  induction args as [|x args IH]; [reflexivity|].
  cbn [forallb] in *.
  apply andb_prop in A1; apply andb_prop in A2.
  destruct A1 as [-> A1], A2 as [-> A2]; cbn; auto.
Qed.

(** Property X5.  When the value of the last [-j] / [--jobs] holds no
    number (it is empty, or starts with a character that is neither white
    space, nor a sign, nor a digit, as in [-j auto]), no error is
    reported: [atoi] yields 0, the mark of "no value given", and the job
    count is the detected processor count. *)
Theorem job_count_of_a_word
    (nprocs : Z) (flag v : string) (pre post : list string) (c' : cli_t) :
  flag = "-j" \/ flag = "--jobs" ->
  complete pre = true ->
  ~ In "-j" post -> ~ In "--jobs" post ->
  no_number v = true ->
  parse_loop (pre ++ flag :: v :: post) default_cli = Parsed c' ->
  jobs (default_jobs nprocs (config c')) = nprocs.
Proof.
  intros Hflag Hpre Hj Hjobs Hv H.
  destruct (parsed_after _ _ _ _ Hpre H) as (c1 & _ & H1).
  assert (parse_loop (flag :: v :: post) c1 =
          parse_loop post (on_config (set_jobs (atoi v)) c1)) as E
    by (destruct Hflag; subst flag; reflexivity).
  rewrite E, (atoi_no_number v Hv) in H1.
  unfold default_jobs.
  assert (jobs (config c') = 0) as Hc'
    by (eapply (jobs_kept 0 post _ c' Hj Hjobs); [|exact H1]; reflexivity).
  rewrite Hc'; reflexivity.
Qed.

Lemma job_count_of_a_word_witness :
  no_number "auto" = true /\
  exists c',
    parse_loop (["--verbose"] ++ "-j" :: "auto" :: ["--clean"]) default_cli
    = Parsed c' /\
    jobs (default_jobs 4 (config c')) = 4.
Proof.
  split; [reflexivity|].
  eexists; split; [reflexivity|].
  apply (job_count_of_a_word 4 "-j" "auto" ["--verbose"] ["--clean"]);
    [ now left | reflexivity
    | cbn; intuition discriminate | cbn; intuition discriminate
    | reflexivity | reflexivity ].
Defined.

End ParserProperties.

(** ** Further properties of the stages *)

Module StageProperties.

Import Rules Commands Stages EchoFacts StageClaims CStrFacts Answers Scripts.

(** Putting the facts about statuses in the form the tests have. *)
Ltac statuses :=
  repeat match goal with
         | H : ?s <> 0 |- _ => apply (proj2 (nonzero_true s)) in H
         end.


(** The result a computation returns from the initial state, out of what
    is known of every state. *)
Lemma spec_result {A} (m : M A) (Q : A -> list event -> Prop) :
  spec m Q -> exists evs, Q (fst (m initial_state)) evs.
Proof. intro H; destruct (H initial_state) as (evs & _ & HQ); eauto. Qed.

(** Property X6.  Let [/etc/debian_version] be present or not, and let
    [uname -m] and [df] give their answers, throughout the check.  Then
    [check_dependencies] returns 0 when the file is present and -1, with
    the error logged, when it is missing, and hands no command to
    [system].  The architecture and the free space only produce
    warnings, and only on a Debian system: one is logged exactly when
    [uname -m] gave a line that, cut at its newline, is neither [aarch64]
    nor [x86_64], the other exactly when [df] gave a line that [atol]
    reads as less than 10485760; a probe that could not be started or gave
    no line produces no warning. *)
Theorem check_dependencies_only_needs_debian
    (w : World) (present : bool) (machine free : option (option string)) :
  (forall h, w_stat w h "/etc/debian_version" = present) ->
  (forall h, w_popen_line w h "uname -m" = machine) ->
  (forall h, w_popen_line w h df_probe = free) ->
  spec (check_dependencies w) (dependencies_outcome present machine free).
Proof.
  intros Hs Hm Hf; unfold check_dependencies, dependencies_outcome.
  unfold df_probe in Hf.
  destruct present, machine as [[line|]|], free as [[space|]|]; ksteps.
  all: cbn [andb negb]; repeat split; logs.
Qed.

Lemma check_dependencies_only_needs_debian_witness :
  spec (check_dependencies riscv_world)
       (dependencies_outcome true (Some (Some ("riscv64" ++ nl)))
          (Some (Some ("5000000" ++ nl)))).
Proof.
  apply (check_dependencies_only_needs_debian riscv_world);
    intro h; reflexivity.
Defined.

(** Property X7.  Let the build directory be present or not, and let
    [mkdir] on it, [fopen] on the log file and [system] on the piped
    [apt update] line give their answers throughout the stage.  Then
    [setup_build_environment] probes the directory, creates it only when
    it is absent, and runs [apt update] unless the creation failed; it
    returns -1 exactly when the directory is absent and cannot be created
    or [system] returns a status other than 0 for the update line.  A log
    file that cannot be opened is not fatal: a warning is logged and the
    stage goes on. *)
Theorem build_environment_fatal_steps
    (w : World) (present made opened : bool) (s : Z) :
  (forall h, w_stat w h BUILD_DIR = present) ->
  (forall h, w_mkdir w h BUILD_DIR = made) ->
  (forall h, w_fopen w h LOG_FILE "a" = opened) ->
  (forall h, w_system w h (tee_line "apt update") = s) ->
  spec (setup_build_environment w)
       (environment_outcome present made opened s).
Proof.
  intros Hp Hm Ho Hs; unfold setup_build_environment, environment_outcome.
  destruct present, made, opened; ksteps.
  all: cbv zeta; cbn [orb andb negb];
    repeat match goal with
           | H : nonzero ?x = _ |- context [nonzero ?x] => rewrite H
           end;
    cbn [negb];
    rewrite <- ?app_assoc;
    cbn [app echoed moves flat_map move_of]; uncut;
    split; [reflexivity|]; split; [reflexivity | logs].
Qed.

Lemma build_environment_fatal_steps_witness :
  spec (setup_build_environment bare_world)
       (environment_outcome false true false 0).
Proof.
  apply (build_environment_fatal_steps bare_world);
    intro h; reflexivity.
Defined.

(** Property X8.  The package installation line that
    [install_prerequisites] builds with [strcat] stays within its buffer of
    [2 * MAX_CMD_LEN] bytes.  The stage hands it to the shell, then the
    line of the build dependencies; it returns -1 exactly when [system]
    returns a status other than 0 for the first line, and then does not
    run the second, whose status is never fatal.  Both lines are piped
    through [tee], whose status it is that [system] returns: with a
    working [tee] the stage runs both and returns 0, whatever [apt]
    does. *)
Theorem install_prerequisites_fatal_step (w : World) :
  (String.length install_command < 2 * MAX_CMD_LEN)%nat /\
  spec (install_prerequisites w) (scripted prerequisites_script) /\
  (tee_works w ->
   spec (install_prerequisites w) (unnoticed prerequisites_script)).
Proof.
  split; [apply Nat.ltb_lt; vm_compute; reflexivity|].
  split; [apply install_prerequisites_script|].
  apply install_prerequisites_unnoticed.
Qed.

Lemma install_prerequisites_fatal_step_witness :
  tee_works piping_world /\
  exists evs,
    unnoticed prerequisites_script
      (fst (install_prerequisites piping_world initial_state)) evs.
Proof.
  split; [exact piping_world_tee_works|].
  apply spec_result.
  exact (proj2 (proj2 (install_prerequisites_fatal_step piping_world))
           piping_world_tee_works).
Defined.

(** Property X9.  [download_mali_blobs] carries out, in this order: the
    creation of [/tmp/mali_install] if it does not exist, the change into
    it, the firmware download, the driver download, the download of the
    Vulkan driver if and only if the Vulkan flag is on, and the clone of
    the auxiliary repository.  It returns -1 in exactly four cases, each
    time running nothing further: the directory could not be created, it
    could not be entered, or [system] returned a status other than 0 for
    the firmware line or for the driver line.  The status of the last two
    commands plays no part. *)
Theorem download_mali_blobs_fatal_steps (w : World) (c : build_config_t) :
  spec (download_mali_blobs w c) (scripted (blobs_script c)).
Proof. apply download_mali_blobs_script. Qed.

(** Property X12.  [build_kernel] hands [make -jN Image], [make -jN dtbs]
    and [make -jN modules] to the shell in this order, with the job count
    of the configuration, and stops at the first line for which [system]
    returns a status other than 0: it then returns -1 without running the
    later targets, and it returns 0 when all three were reported with
    status 0.  The lines are piped through [tee], whose status it is that
    [system] returns: with a working [tee] all three targets are run and
    the stage returns 0, whatever [make] does. *)
Theorem build_kernel_stops_at_first_failure
    (w : World) (c : build_config_t) :
  spec (build_kernel w c) (scripted (build_script c)) /\
  (tee_works w -> spec (build_kernel w c) (unnoticed (build_script c))).
Proof.
  split; [apply build_kernel_script | apply build_kernel_unnoticed].
Qed.

Lemma build_kernel_stops_at_first_failure_witness :
  tee_works piping_world /\
  exists evs,
    unnoticed (build_script default_config)
      (fst (build_kernel piping_world default_config initial_state)) evs.
Proof.
  split; [exact piping_world_tee_works|].
  apply spec_result.
  exact (proj2 (build_kernel_stops_at_first_failure piping_world
                  default_config) piping_world_tee_works).
Defined.




Lemma composed_quiet (cmd : string) :
  (String.length cmd <= 2111)%nat -> composed cmd false = quiet_line cmd.
Proof.
  intro H; unfold composed, quiet_line; apply snprintf_fits.
  rewrite length_append.
  change (String.length (" >> " ++ LOG_FILE ++ " 2>&1")) with 30%nat.
  change (MAX_CMD_LEN + 100)%nat with 2148%nat; lia.
Qed.

Ltac unquiet :=
  repeat match goal with
         | |- context [composed ?c false] =>
             rewrite (composed_quiet c) by fits
         end.

Lemma system_calls_app (l1 l2 : list event) :
  system_calls (l1 ++ l2) = (system_calls l1 ++ system_calls l2)%list.
Proof. apply flat_map_app. Qed.

(** A loop that runs one command per element. *)
Lemma spec_for_each_calls {A} (line : A -> string) (xs : list A)
      (body : A -> M unit) :
  (forall x, In x xs ->
     spec (body x) (fun _ evs => map fst (system_calls evs) = [line x])) ->
  spec (for_each xs body)
       (fun _ evs => map fst (system_calls evs) = map line xs).
Proof.
  induction xs as [|x xs IH]; intro H; simpl.
  - apply spec_ret; reflexivity.
  - apply spec_bind.
    eapply spec_conseq; [apply H; now left|]; intros ? e1 H1; cbv beta in H1.
    eapply spec_conseq; [apply IH; intros; apply H; now right|].
    intros ? e2 H2; cbv beta in H2.
    rewrite system_calls_app, map_app, H1, H2; reflexivity.
Qed.

Ltac step_calls :=
  first
    [ step
    | lazymatch goal with
      | |- spec (for_each mali_links _) _ =>
          eapply spec_conseq;
          [ apply (spec_for_each_calls quiet_line);
            let Hin := fresh "Hin" in
            intros ? Hin; cbn in Hin;
            repeat (destruct Hin as [<-|Hin]); try contradiction;
            repeat step; cbv beta; cbn [app echoed system_calls flat_map map];
            unquiet; reflexivity
          | let H := fresh "H" in intros ? ? H; cbv beta in H |- * ]
      end ].

(** The Vulkan part of the driver installation, case by case. *)
Ltac vulkan_part_cases :=
  first
    [ eexists _, [], _; split; [reflexivity|];
      split; [eassumption|]; split; [now left|];
      first [ reflexivity | intro; congruence ]
    | eexists _, [(vulkan_copy, _)], _;
      split; [reflexivity|]; split; [eassumption|];
      split; [right; left; eexists; split; cycle 1;
              [reflexivity | assumption]|];
      intro; congruence
    | eexists _, [(vulkan_copy, 0); (vulkan_link, _)], _;
      split; [reflexivity|]; split; [eassumption|];
      split; [right; right; eexists; reflexivity|];
      intro; congruence ].

(** Property X10.  [install_mali_drivers] first copies the firmware,
    then the driver library; when [system] returns a status other than 0
    for one of these two lines the stage returns -1 and runs nothing
    after it.  When both were reported with status 0 the stage returns 0,
    having then attempted the eight symbolic links in the order of the
    table, whatever the status of each; the Vulkan library is copied only
    when the Vulkan flag is on, and its link is made only after a copy
    reported with status 0; [ldconfig] is the last command. *)
Theorem install_mali_drivers_fatal_steps (w : World) (c : build_config_t) :
  spec (install_mali_drivers w c) (drivers_outcome c).
Proof.
  unfold install_mali_drivers, drivers_outcome, vulkan_copy, vulkan_link.
  repeat step_calls.
  all: cbv beta zeta; rewrite ?system_calls_app;
    cbn [app echoed system_calls flat_map]; uncut; unquiet.
  all: first
    [ left; eexists; split; [eassumption|]; split; reflexivity
    | right; left; eexists; split; [eassumption|]; split; reflexivity
    | right; right; split; [reflexivity|]; vulkan_part_cases ].
Qed.

(** Property X14.  [cleanup_build] always returns 0 and logs its
    completion: it removes the configured build directory and then
    [/tmp/mali_install], both quietly (output appended to the log file,
    nothing echoed), and runs the second removal whatever the first
    reported. *)
Theorem cleanup_build_never_fails (w : World) (c : build_config_t) :
  spec (cleanup_build w c) (cleanup_outcome c).
Proof.
  unfold cleanup_build, cleanup_outcome; steps.
  all: split; [reflexivity|]; split;
    [ cbn [app echoed system_calls flat_map map fst]; unquiet; reflexivity
    | find_log ].
Qed.

End StageProperties.

(** ** Further properties of whole runs *)

Module RunProperties.

Import Rules Commands Stages EchoFacts StageClaims TraceFacts PipelineClaims.

(** *** The stages, by kind of event *)

Lemma check_dependencies_probing (w : World) :
  spec (check_dependencies w)
       (fun r evs =>
          (r = 0 /\ forallb probing evs = true /\
           existsb refusal evs = false)
          \/
          (r = -1 /\
           exists to_file,
             evs = [ EStat "/etc/debian_version" false;
                     ELog to_file "ERROR" debian_line ])).
Proof.
  unfold check_dependencies; steps; answers.
  all: first [ left; split; [reflexivity|]; split;
               [all_events | reflexivity]
             | right; split; [reflexivity|]; eexists; reflexivity ].
Qed.

Lemma setup_build_environment_routine (w : World) :
  spec (setup_build_environment w) (fun _ evs => forallb routine evs = true).
Proof. unfold setup_build_environment; steps; all_events. Qed.

Lemma install_prerequisites_routine (w : World) :
  spec (install_prerequisites w) (fun _ evs => forallb routine evs = true).
Proof. unfold install_prerequisites; steps; all_events. Qed.

Lemma download_mali_blobs_routine (w : World) (c : build_config_t) :
  spec (download_mali_blobs w c) (fun _ evs => forallb routine evs = true).
Proof. unfold download_mali_blobs; steps; all_events. Qed.

Lemma install_mali_drivers_routine (w : World) (c : build_config_t) :
  spec (install_mali_drivers w c) (fun _ evs => forallb routine evs = true).
Proof.
  unfold install_mali_drivers; repeat step_with routine; all_events.
Qed.

Lemma setup_opencl_support_routine (w : World) (c : build_config_t) :
  spec (setup_opencl_support w c) (fun _ evs => forallb routine evs = true).
Proof. unfold setup_opencl_support; steps; all_events. Qed.

Lemma setup_vulkan_support_routine (w : World) (c : build_config_t) :
  spec (setup_vulkan_support w c) (fun _ evs => forallb routine evs = true).
Proof. unfold setup_vulkan_support; steps; all_events. Qed.

Lemma download_kernel_source_routine (w : World) (c : build_config_t) :
  spec (download_kernel_source w c) (fun _ evs => forallb routine evs = true).
Proof. unfold download_kernel_source; steps; all_events. Qed.

Lemma download_ubuntu_rockchip_patches_routine (w : World) :
  spec (download_ubuntu_rockchip_patches w)
       (fun _ evs => forallb routine evs = true).
Proof. unfold download_ubuntu_rockchip_patches; steps; all_events. Qed.

Lemma configure_kernel_routine (w : World) (c : build_config_t) :
  spec (configure_kernel w c) (fun _ evs => forallb routine evs = true).
Proof. unfold configure_kernel; repeat step_with routine; all_events. Qed.

Lemma build_kernel_routine (w : World) (c : build_config_t) :
  spec (build_kernel w c) (fun _ evs => forallb routine evs = true).
Proof. unfold build_kernel; steps; all_events. Qed.

Lemma install_kernel_installing (w : World) (c : build_config_t) :
  spec (install_kernel w c) (fun _ evs => forallb installing evs = true).
Proof. unfold install_kernel; steps; all_events. Qed.

Lemma verify_gpu_installation_verifying (w : World) :
  spec (verify_gpu_installation w)
       (fun _ evs => forallb verifying evs = true).
Proof. unfold verify_gpu_installation; steps; all_events. Qed.

Lemma cleanup_build_cleaning (w : World) (c : build_config_t) :
  spec (cleanup_build w c)
       (fun _ evs =>
          forallb cleaning evs = true /\ existsb cleanup_event evs = true).
Proof.
  unfold cleanup_build; steps; (split; [all_events | reflexivity]).
Qed.


(** *** Walking through [main] *)

Ltac run_stage :=
  lazymatch goal with
  | |- spec (check_dependencies _) _ =>
      call check_dependencies_probing;
      match goal with
      | H : _ \/ _ |- _ => destruct H as [(-> & ? & ?) | (-> & ? & ->)]
      end
  | |- spec (check_root_permissions _) _ => unfold check_root_permissions
  | |- spec (setup_build_environment _) _ =>
      call setup_build_environment_routine
  | |- spec (install_prerequisites _) _ =>
      call install_prerequisites_routine
  | |- spec (download_kernel_source _ _) _ =>
      call download_kernel_source_routine
  | |- spec (download_ubuntu_rockchip_patches _) _ =>
      call download_ubuntu_rockchip_patches_routine
  | |- spec (configure_kernel _ _) _ => call configure_kernel_routine
  | |- spec (build_kernel _ _) _ => call build_kernel_routine
  | |- spec (install_kernel _ _) _ => call install_kernel_installing
  | |- spec (cleanup_build _ _) _ => call cleanup_build_cleaning
  | |- spec (download_mali_blobs _ _) _ => call download_mali_blobs_routine
  | |- spec (install_mali_drivers _ _) _ =>
      call install_mali_drivers_routine
  | |- spec (setup_opencl_support _ _) _ =>
      call setup_opencl_support_routine
  | |- spec (setup_vulkan_support _ _) _ =>
      call setup_vulkan_support_routine
  | |- spec (verify_gpu_installation _) _ =>
      call verify_gpu_installation_verifying
  | |- spec (pipeline _ _) _ => unfold pipeline
  | |- spec (gpu_stages _ _ _) _ => unfold gpu_stages
  | |- spec (install_stages _ _ _) _ => unfold install_stages
  end.

Ltac through_run := repeat first [run_stage | step]; cbv beta.

(** One conjunct of a kind of stage events. *)
Ltac project :=
  let e := fresh "e" in
  let H := fresh "H" in
  intros e H;
  unfold routine, installing, cleaning, verifying, probing in H;
  repeat (apply andb_prop in H; destruct H as [H ?]);
  assumption.

(** Every segment that a stage contributed, seen through [p]. *)
Ltac seen_as p :=
  repeat match goal with
         | H : forallb ?f ?l = true |- _ =>
             lazymatch f with
             | routine => idtac
             | installing => idtac
             | cleaning => idtac
             | verifying => idtac
             | probing => idtac
             end;
             apply (forallb_impl f p l ltac:(project)) in H
         end.

(** The same, keeping the hypothesis. *)
Ltac also_as p :=
  repeat match goal with
         | H : forallb ?f ?l = true |- _ =>
             lazymatch f with
             | routine => idtac
             | installing => idtac
             | cleaning => idtac
             | verifying => idtac
             | probing => idtac
             end;
             lazymatch goal with
             | _ : forallb p l = true |- _ => fail
             | _ => pose proof (forallb_impl f p l ltac:(project) H)
             end
         end.

Lemma filter_none (l : list event) :
  forallb not_final l = true -> filter final_event l = [].
Proof.
  induction l as [|e l IH]; [reflexivity|].
  cbn [forallb filter]; intro H; apply andb_prop in H as [He Hl].
  apply negb_true_iff in He; rewrite He; exact (IH Hl).
Qed.

Lemma existsb_filter (q : event -> bool) (l : list event) :
  (forall e, q e = true -> final_event e = true) ->
  existsb q (filter final_event l) = existsb q l.
Proof.
  intro Hq; induction l as [|e l IH]; [reflexivity|].
  cbn [filter existsb].
  destruct (final_event e) eqn:E; cbn [existsb]; rewrite IH;
    [reflexivity|].
  destruct (q e) eqn:Eq; [|reflexivity].
  rewrite (Hq e Eq) in E; discriminate E.
Qed.

Lemma logged_filter (level message : string) (l : list event) :
  among [done_line; failed_line; root_line; debian_line] message = true ->
  logged level message (filter final_event l) = logged level message l.
Proof.
  intro Hm; unfold logged; apply existsb_filter.
  intros [] H; try discriminate H.
  apply andb_prop in H as [_ H]; apply String.eqb_eq in H; subst.
  exact Hm.
Qed.

Lemma reported_filter (code : Z) (evs : list event) :
  reported code (filter final_event evs) -> reported code evs.
Proof.
  unfold reported.
  rewrite !logged_filter by reflexivity.
  rewrite existsb_filter; [exact (fun H => H)|].
  intros [] H; try discriminate H; reflexivity.
Qed.

Lemma no_refusal (l : list event) :
  forallb not_final l = true -> forallb not_debian l = true ->
  existsb refusal l = false.
Proof.
  induction l as [|e l IH]; [reflexivity|].
  cbn [forallb existsb]; intros H H'.
  apply andb_prop in H as [He Hl]; apply andb_prop in H' as [He' Hl'].
  rewrite (IH Hl Hl'), orb_false_r.
  destruct e; try reflexivity; try discriminate He.
  unfold not_debian, debian_event in He'.
  apply negb_true_iff in He'; cbn [refusal]; rewrite He'; reflexivity.
Qed.

Lemma no_cleanup (l : list event) :
  forallb not_cleanup l = true -> existsb cleanup_event l = false.
Proof.
  intro H; apply forallb_negb_existsb; exact H.
Qed.

(** *** Whole runs, through [main] *)

Lemma main_known_paths (w : World) (argv : list string) :
  spec (main w argv) (fun _ evs => forallb known_path evs = true).
Proof.
  unfold main. through_run.
  all: conjuncts; seen_as known_path; all_events.
Qed.


Ltac refusal_leaf :=
  conjuncts; answers;
  let Hex := fresh "Hex" in
  intro Hex;
  lazymatch goal with
  | _ : forallb routine _ = true |- _ =>
      exfalso; also_as not_final; also_as not_debian;
      rewrite ?existsb_app in Hex;
      repeat match goal with
             | Hf : forallb not_final ?l = true,
               Hd : forallb not_debian ?l = true |- _ =>
                 rewrite (no_refusal l Hf Hd) in Hex; clear Hf Hd
             | H : existsb refusal ?l = false |- _ =>
                 rewrite H in Hex; clear H
             end;
      vm_compute in Hex; discriminate Hex
  | _ =>
      first [ split; [reflexivity | seen_as harmless; all_events]
            | exfalso; vm_compute in Hex; discriminate Hex ]
  end.

Lemma main_refusal (w : World) (argv : list string) :
  spec (main w argv)
       (fun code evs =>
          existsb refusal evs = true ->
          code = 1 /\ forallb harmless evs = true).
Proof.
  unfold main. through_run.
  all: refusal_leaf.
Qed.

Ltac reported_leaf :=
  conjuncts; answers; seen_as not_final;
  rewrite ?filter_app;
  repeat match goal with
         | H : forallb not_final ?l = true |- _ =>
             rewrite (filter_none l H); clear H
         end;
  vm_compute; repeat split;
  first [ left; reflexivity | right; reflexivity | reflexivity ].

Lemma main_reported (w : World) (argv : list string) :
  spec (main w argv) reported.
Proof.
  eapply spec_conseq; [|intros code evs H; exact (reported_filter _ _ H)].
  unfold main. through_run.
  all: reported_leaf.
Qed.

Lemma main_no_install (w : World) (argv : list string) (c : cli_t) :
  parse_args argv = Parsed c ->
  no_install c = true ->
  spec (main w argv)
       (fun _ evs =>
          forallb not_boot evs = true /\
          forallb not_verification evs = true).
Proof.
  intros Hparse Hni; unfold main, parse_args in *; rewrite Hparse.
  cbv zeta.
  assert (no_install (on_config (default_jobs (w_nprocs w)) c) = true)
    as Hni' by exact Hni.
  repeat (rewrite ?Hni'; cbv iota; first [run_stage | step]).
  all: cbv beta; conjuncts;
    (split; [seen_as not_boot | seen_as not_verification]); all_events.
Qed.

Ltac cleanup_leaf :=
  conjuncts; seen_as not_cleanup;
  repeat match goal with
         | H : cleanup (on_config _ ?c) = ?b |- _ =>
             change (cleanup c = b) in H; rewrite H
         end;
  rewrite ?existsb_app;
  repeat match goal with
         | H : forallb not_cleanup ?l = true |- _ =>
             rewrite (no_cleanup l H); clear H
         | H : existsb cleanup_event ?l = true |- _ => rewrite H; clear H
         end;
  first [ reflexivity | vm_compute; reflexivity ].

Lemma main_cleanup (w : World) (argv : list string) (c : cli_t) :
  parse_args argv = Parsed c ->
  spec (main w argv)
       (fun code evs =>
          existsb cleanup_event evs = (code =? 0) && cleanup c).
Proof.
  intros Hparse; unfold main, parse_args in *; rewrite Hparse.
  cbv zeta.
  change (cleanup (on_config (default_jobs (w_nprocs w)) c))
    with (cleanup c).
  through_run.
  all: cleanup_leaf.
Qed.

(** Property X15.  In every run, whatever the arguments and the
    environment, [stat] and [mkdir] are applied to five fixed paths only:
    [/etc/debian_version], [/tmp/kernel_build], [/tmp/mali_install],
    [/etc/OpenCL/vendors] and [/usr/share/vulkan/icd.d].  So a directory
    given with [-d] that is none of these five is neither probed nor
    created by the program: the build environment is set up in the fixed
    directory, whatever [-d] says. *)
Theorem stat_and_mkdir_only_on_fixed_paths
    (w : World) (argv : list string) :
  forallb known_path (trace (snd (run w argv))) = true /\
  (forall d ok,
     among fixed_paths d = false ->
     ~ In (EMkdir d ok) (trace (snd (run w argv))) /\
     ~ In (EStat d ok) (trace (snd (run w argv)))).
Proof.
  assert (forallb known_path (trace (snd (run w argv))) = true) as H.
  { unfold run.
    destruct (main_known_paths w argv initial_state) as (evs & He & Hout).
    cbn [trace initial_state app] in He; rewrite He; exact Hout. }
  split; [exact H|].
  intros d ok Hd; split; intro Hin;
    pose proof (proj1 (forallb_forall _ _) H _ Hin) as Hk;
    cbn [known_path] in Hk; rewrite Hd in Hk; discriminate Hk.
Qed.

Lemma stat_and_mkdir_only_on_fixed_paths_witness :
  let result := run happy_world ["builder"; "-d"; "/srv/build"] in
  among fixed_paths "/srv/build" = false /\
  existsb (is_chdir "/srv/build" true) (trace (snd result)) = true /\
  ~ In (EMkdir "/srv/build" true) (trace (snd result)) /\
  ~ In (EStat "/srv/build" true) (trace (snd result)).
Proof.
  cbv zeta.
  split; [reflexivity|]; split; [vm_compute; reflexivity|].
  exact (proj2 (stat_and_mkdir_only_on_fixed_paths happy_world
                  ["builder"; "-d"; "/srv/build"])
           "/srv/build" true eq_refl).
Defined.

(** Property X16.  A run that a preflight check refuses (the file
    [/etc/debian_version] is missing, or the effective user is not root)
    exits with status 1 and has changed nothing: its whole trace consists
    of console output, log lines and probes.  Nothing was handed to
    [system], no directory or file was created or opened, no directory
    entered; the only commands started are the two queries of
    [check_dependencies] through [popen] ([uname -m] and the [df]
    pipeline), which a run refused for lack of root privileges has
    already made. *)
Theorem refused_run_touches_nothing (w : World) (argv : list string) :
  existsb refusal (trace (snd (run w argv))) = true ->
  fst (run w argv) = 1 /\
  forallb harmless (trace (snd (run w argv))) = true.
Proof.
  unfold run.
  destruct (main_refusal w argv initial_state) as (evs & He & Hout).
  cbn [trace initial_state app] in He; rewrite He; exact Hout.
Qed.

Lemma refused_run_touches_nothing_witness :
  existsb refusal (trace (snd (run user_world ["builder"]))) = true /\
  fst (run user_world ["builder"]) = 1 /\
  forallb harmless (trace (snd (run user_world ["builder"]))) = true.
Proof.
  assert (existsb refusal (trace (snd (run user_world ["builder"]))) = true)
    as Hex by (vm_compute; reflexivity).
  split; [exact Hex|].
  exact (refused_run_touches_nothing user_world ["builder"] Hex).
Defined.

(** Property X17.  The exit status is 0 or 1, and the trace tells which:
    it is 0 exactly when the usage text was printed or the line
    [Kernel build process completed successfully!] was logged, and 1
    exactly when one of the three closing errors was logged (the build
    failed, root privileges are missing, the system is not Debian or
    Ubuntu). *)
Theorem exit_status_matches_report (w : World) (argv : list string) :
  reported (fst (run w argv)) (trace (snd (run w argv))).
Proof.
  unfold run.
  destruct (main_reported w argv initial_state) as (evs & He & Hout).
  cbn [trace initial_state app] in He; rewrite He; exact Hout.
Qed.

(** Property X18.  With [--no-install], nothing of the installation
    happens anywhere in the run: no copy into [/boot], no
    [update-initramfs], no [u-boot-update], no log line of
    [install_kernel]; and the GPU verification does not run either, even
    with [--verify-gpu], as it sits inside the installation block. *)
Theorem no_install_leaves_boot_untouched
    (w : World) (argv : list string) (c : cli_t) :
  parse_args argv = Parsed c ->
  no_install c = true ->
  forallb not_boot (trace (snd (run w argv))) = true /\
  forallb not_verification (trace (snd (run w argv))) = true.
Proof.
  intros Hparse Hni; unfold run.
  destruct (main_no_install w argv c Hparse Hni initial_state)
    as (evs & He & Hout).
  cbn [trace initial_state app] in He; rewrite He; exact Hout.
Qed.

Lemma no_install_leaves_boot_untouched_witness :
  parse_args ["builder"; "--no-install"; "--verify-gpu"] =
    Parsed (set_verify_gpu true (set_no_install true default_cli)) /\
  fst (run happy_world ["builder"; "--no-install"; "--verify-gpu"]) = 0 /\
  forallb not_boot
    (trace (snd (run happy_world
                   ["builder"; "--no-install"; "--verify-gpu"]))) = true /\
  forallb not_verification
    (trace (snd (run happy_world
                   ["builder"; "--no-install"; "--verify-gpu"]))) = true.
Proof.
  split; [reflexivity|]; split; [vm_compute; reflexivity|].
  exact (no_install_leaves_boot_untouched happy_world
           ["builder"; "--no-install"; "--verify-gpu"] _ eq_refl eq_refl).
Defined.

(** Property X19.  The removal of the build directory and of the Mali
    install directory happens exactly in the runs that were given
    [--cleanup] and exit with status 0: a run that fails removes nothing,
    whatever the flags, and a successful run with [--cleanup] always
    reaches the removal. *)
Theorem cleanup_only_after_success
    (w : World) (argv : list string) (c : cli_t) :
  parse_args argv = Parsed c ->
  (existsb cleanup_event (trace (snd (run w argv))) = true <->
   fst (run w argv) = 0 /\ cleanup c = true).
Proof.
  intros Hparse; unfold run.
  destruct (main_cleanup w argv c Hparse initial_state)
    as (evs & He & Hout).
  cbn [trace initial_state app] in He; rewrite He, Hout.
  rewrite andb_true_iff, Z.eqb_eq; reflexivity.
Qed.

Lemma cleanup_only_after_success_witness :
  parse_args ["builder"; "--cleanup"] =
    Parsed (set_cleanup true default_cli) /\
  (existsb cleanup_event
     (trace (snd (run happy_world ["builder"; "--cleanup"]))) = true <->
   fst (run happy_world ["builder"; "--cleanup"]) = 0 /\
   cleanup (set_cleanup true default_cli) = true).
Proof.
  split; [reflexivity|].
  exact (cleanup_only_after_success happy_world ["builder"; "--cleanup"]
           _ eq_refl).
Defined.

End RunProperties.
